(** * django-rest-form-fields: a shallow embedding of [fields.py]

    The fields of [src/django_rest_form_fields/fields.py] and the helper
    [to_timestamp] of [compatibility.py], with the parts of Django's
    [forms.Field] family and of the Python runtime that they call.

    Layout: Python strings, values and exceptions; regular expressions;
    binary64 numbers; calendar dates; Django's form fields; the classes of
    [fields.py], one definition per method; then the theorems. *)

From Stdlib Require Import ZArith List Bool Ascii String Lia Arith.
From Stdlib Require Import SpecFloat.
Import ListNotations.

Local Open Scope string_scope.
Local Open Scope Z_scope.

(* ================================================================== *)
(** ** Python strings

    A [str] is modelled by a [string] whose characters are the code points
    below 256. *)
(* ================================================================== *)

Module PyStr.

Definition code (c : ascii) : Z := Z.of_N (N_of_ascii c).
Definition chr (z : Z) : ascii := ascii_of_N (Z.to_N z).

Definition in_range (lo hi : Z) (c : ascii) : bool :=
  (lo <=? code c) && (code c <=? hi).

(** [str.isspace] on one character: TAB..CR, FS..US, space, NEL, NBSP. *)
Definition isspace (c : ascii) : bool :=
  in_range 9 13 c || in_range 28 32 c || (code c =? 133) || (code c =? 160).

(** The decimal digits [0-9]. *)
Definition isdigit (c : ascii) : bool := in_range 48 57 c.

(** [str.lower] on one character: [A-Z] and the Latin-1 capitals. *)
Definition lower_char (c : ascii) : ascii :=
  if in_range 65 90 c || (in_range 192 222 c && negb (code c =? 215))
  then chr (code c + 32) else c.

Fixpoint lower (s : string) : string :=
  match s with
  | EmptyString => EmptyString
  | String c t => String (lower_char c) (lower t)
  end.

Fixpoint lstrip (s : string) : string :=
  match s with
  | String c t => if isspace c then lstrip t else s
  | EmptyString => EmptyString
  end.

Fixpoint rstrip (s : string) : string :=
  match s with
  | EmptyString => EmptyString
  | String c t =>
      match rstrip t with
      | EmptyString => if isspace c then EmptyString else String c EmptyString
      | t' => String c t'
      end
  end.

(** [s.strip()] *)
Definition strip (s : string) : string := rstrip (lstrip s).

(** [s.startswith(c)] and [s.endswith(c)] for a one-character [c]. *)
Definition startswith (c : ascii) (s : string) : bool :=
  match s with
  | String d _ => Ascii.eqb c d
  | EmptyString => false
  end.

Fixpoint endswith (c : ascii) (s : string) : bool :=
  match s with
  | EmptyString => false
  | String d EmptyString => Ascii.eqb c d
  | String _ t => endswith c t
  end.

(** [sep in s] for a one-character [sep]. *)
Fixpoint contains (c : ascii) (s : string) : bool :=
  match s with
  | EmptyString => false
  | String d t => Ascii.eqb c d || contains c t
  end.

(** [s.split(sep)] for a one-character [sep]: never the empty list. *)
Fixpoint split (sep : ascii) (s : string) : list string :=
  match s with
  | EmptyString => [EmptyString]
  | String c t =>
      if Ascii.eqb c sep then EmptyString :: split sep t
      else match split sep t with
           | h :: r => String c h :: r
           | [] => [String c EmptyString]
           end
  end.

(** [s[:n]] for [n >= 0]. *)
Fixpoint take (n : nat) (s : string) : string :=
  match n, s with
  | S k, String c t => String c (take k t)
  | _, _ => EmptyString
  end.

(** [s[:n]] for any integer [n]: a negative [n] counts from the end. *)
Definition slice_to (n : Z) (s : string) : string :=
  if 0 <=? n then take (Z.to_nat n) s
  else take (Nat.sub (String.length s) (Z.to_nat (- n))) s.

(** *** [int(s)]: optional blanks, an optional sign, decimal digits which
    single underscores may separate. *)

Definition digit_val (c : ascii) : Z := code c - 48.

(** Digits after the first one; [prev_us] says the last character read was
    an underscore. *)
Fixpoint int_digits (acc : Z) (prev_us : bool) (s : string) : option Z :=
  match s with
  | EmptyString => if prev_us then None else Some acc
  | String c t =>
      if isdigit c then int_digits (10 * acc + digit_val c) false t
      else if Ascii.eqb c "_" then
             if prev_us then None else int_digits acc true t
           else None
  end.

Definition int_unsigned (s : string) : option Z :=
  match s with
  | String c t => if isdigit c then int_digits (digit_val c) false t else None
  | EmptyString => None
  end.

Definition int_of_string (s : string) : option Z :=
  match strip s with
  | String "-" t => option_map Z.opp (int_unsigned t)
  | String "+" t => int_unsigned t
  | t => int_unsigned t
  end.

(** [str(n)] for an integer. *)
Fixpoint digits_of_pos (fuel : nat) (n : Z) (acc : string) : string :=
  match fuel with
  | O => acc
  | S k =>
      let acc' := String (chr (48 + n mod 10)) acc in
      if n <? 10 then acc' else digits_of_pos k (n / 10) acc'
  end.

Definition string_of_int (n : Z) : string :=
  if n <? 0 then String "-" (digits_of_pos (Z.to_nat (Z.log2 (- n)) + 1) (- n) EmptyString)
  else digits_of_pos (Z.to_nat (Z.log2 n) + 1) n EmptyString.

(** *** [os.path.splitext(p)[1]] (posixpath): the text from the last dot
    on, when that dot comes after the last slash and after a character of
    the base name that is not a dot. *)

Fixpoint rfind_from (c : ascii) (s : string) (i : Z) (last : Z) : Z :=
  match s with
  | EmptyString => last
  | String d t => rfind_from c t (i + 1) (if Ascii.eqb c d then i else last)
  end.

(** [s.rfind(c)]: the last index of [c], or -1. *)
Definition rfind (c : ascii) (s : string) : Z := rfind_from c s 0 (-1).

Fixpoint drop (n : nat) (s : string) : string :=
  match n, s with
  | S k, String _ t => drop k t
  | _, _ => s
  end.

(** Some character of [s[i:j]] differs from the dot. *)
Fixpoint has_non_dot (s : string) (i j : Z) (fuel : nat) : bool :=
  match fuel with
  | O => false
  | S k =>
      if i <? j then
        match drop (Z.to_nat i) s with
        | String d _ => if Ascii.eqb d "." then has_non_dot s (i + 1) j k else true
        | EmptyString => true
        end
      else false
  end.

Definition splitext_ext (p : string) : string :=
  let sepIndex := rfind "/" p in
  let dotIndex := rfind "." p in
  if (sepIndex <? dotIndex) && has_non_dot p (sepIndex + 1) dotIndex (String.length p)
  then drop (Z.to_nat dotIndex) p
  else EmptyString.

End PyStr.

(* ================================================================== *)
(** ** Python floats: IEEE 754 binary64

    A [float] is a [spec_float] of the Standard Library (sign, mantissa,
    exponent).  The operations the fields use are written here from their
    IEEE 754 meaning: the exact result, rounded to the nearest
    representable number, ties to the even mantissa. *)
(* ================================================================== *)

Module PyFloat.

Definition float := spec_float.

Definition prec : Z := 53.
Definition emax : Z := 1024.
(** The exponent of the subnormal numbers: -1074. *)
Definition emin : Z := 3 - emax - prec.

(** [a / b >= 2^k] for [a, b > 0]. *)
Definition ratio_ge_pow2 (a b k : Z) : bool :=
  if 0 <=? k then b * 2 ^ k <=? a else b <=? a * 2 ^ (- k).

(** [floor (log2 (a / b))] for [a, b > 0]. *)
Definition ratio_log2 (a b : Z) : Z :=
  let k := Z.log2 a - Z.log2 b in
  if ratio_ge_pow2 a b k then k else k - 1.

(** The exponent of the binary64 numbers around [a / b]. *)
Definition ratio_exp (a b : Z) : Z := Z.max (ratio_log2 a b - (prec - 1)) emin.

(** The nearest integer to [n / d] for [n >= 0], [d > 0], ties to even. *)
Definition div_half_even (n d : Z) : Z :=
  let q := n / d in
  let r := n mod d in
  match (2 * r) ?= d with
  | Lt => q
  | Gt => q + 1
  | Eq => if Z.even q then q else q + 1
  end.

(** The binary64 number nearest to [a / b] for [a, b > 0], with sign [s]. *)
Definition round_ratio (s : bool) (a b : Z) : float :=
  let e := ratio_exp a b in
  let m := if 0 <=? e then div_half_even a (b * 2 ^ e)
           else div_half_even (a * 2 ^ (- e)) b in
  let '(m, e) := if m =? 2 ^ prec then (2 ^ (prec - 1), e + 1) else (m, e) in
  match m with
  | Zpos p => if e <=? emax - prec then S754_finite s p e else S754_infinity s
  | _ => S754_zero s
  end.

(** [float(n)] for an integer, before the overflow check. *)
Definition of_Z (n : Z) : float :=
  match n with
  | Z0 => S754_zero false
  | Zpos _ => round_ratio false n 1
  | Zneg _ => round_ratio true (- n) 1
  end.

(** [a / b] for integers, [b <> 0], before the overflow check. *)
Definition truediv (a b : Z) : float :=
  let s := xorb (a <? 0) (b <? 0) in
  if a =? 0 then S754_zero s else round_ratio s (Z.abs a) (Z.abs b).

(** [x * y]. *)
Definition mul (x y : float) : float :=
  match x, y with
  | S754_nan, _ | _, S754_nan => S754_nan
  | S754_infinity sx, S754_infinity sy => S754_infinity (xorb sx sy)
  | S754_infinity sx, S754_finite sy _ _ => S754_infinity (xorb sx sy)
  | S754_finite sx _ _, S754_infinity sy => S754_infinity (xorb sx sy)
  | S754_infinity _, S754_zero _ | S754_zero _, S754_infinity _ => S754_nan
  | S754_finite sx _ _, S754_zero sy => S754_zero (xorb sx sy)
  | S754_zero sx, S754_finite sy _ _ => S754_zero (xorb sx sy)
  | S754_zero sx, S754_zero sy => S754_zero (xorb sx sy)
  | S754_finite sx mx ex, S754_finite sy my ey =>
      let m := Zpos mx * Zpos my in
      let e := ex + ey in
      if 0 <=? e then round_ratio (xorb sx sy) (m * 2 ^ e) 1
      else round_ratio (xorb sx sy) m (2 ^ (- e))
  end.

(** [math.isfinite(x)] *)
Definition isfinite (x : float) : bool :=
  match x with
  | S754_zero _ | S754_finite _ _ _ => true
  | _ => false
  end.

(** A finite number as a signed mantissa and an exponent: [z * 2^e]. *)
Definition signed (s : bool) (m : positive) : Z := if s then Zneg m else Zpos m.

(** The order of [z1 * 2^e1] and [z2 * 2^e2]. *)
Definition cmp_scaled (z1 e1 z2 e2 : Z) : comparison :=
  let e := Z.min e1 e2 in
  (z1 * 2 ^ (e1 - e)) ?= (z2 * 2 ^ (e2 - e)).

(** The order of two floats, [None] when one is a NaN. *)
Definition compare (x y : float) : option comparison :=
  match x, y with
  | S754_nan, _ | _, S754_nan => None
  | S754_infinity sx, S754_infinity sy =>
      Some (if sx then (if sy then Eq else Lt) else (if sy then Gt else Eq))
  | S754_infinity sx, _ => Some (if sx then Lt else Gt)
  | _, S754_infinity sy => Some (if sy then Gt else Lt)
  | S754_zero _, S754_zero _ => Some Eq
  | S754_zero _, S754_finite sy my ey => Some (cmp_scaled 0 0 (signed sy my) ey)
  | S754_finite sx mx ex, S754_zero _ => Some (cmp_scaled (signed sx mx) ex 0 0)
  | S754_finite sx mx ex, S754_finite sy my ey =>
      Some (cmp_scaled (signed sx mx) ex (signed sy my) ey)
  end.

(** The order of a float and an integer: Python compares the exact values. *)
Definition compare_Z (x : float) (n : Z) : option comparison :=
  match x with
  | S754_nan => None
  | S754_infinity sx => Some (if sx then Lt else Gt)
  | S754_zero _ => Some (0 ?= n)
  | S754_finite sx mx ex => Some (cmp_scaled (signed sx mx) ex n 0)
  end.

(** A non-negative dyadic number [m * 2^e] that binary64 holds exactly. *)
Definition exact (s : bool) (m e : Z) : float :=
  if m =? 0 then S754_zero s
  else if 0 <=? e then round_ratio s (m * 2 ^ e) 1 else round_ratio s m (2 ^ (- e)).

(** C's [modf]: the fractional and the integral part, each with the sign of
    [x]. *)
Definition modf (x : float) : float * float :=
  match x with
  | S754_nan => (S754_nan, S754_nan)
  | S754_infinity s => (S754_zero s, S754_infinity s)
  | S754_zero s => (S754_zero s, S754_zero s)
  | S754_finite s m e =>
      if 0 <=? e then (S754_zero s, x)
      else (exact s (Zpos m mod 2 ^ (- e)) e, exact s (Zpos m / 2 ^ (- e)) 0)
  end.

(** The integer a finite float is, when it is one. *)
Definition to_Z_exact (x : float) : option Z :=
  match x with
  | S754_zero _ => Some 0
  | S754_finite s m e =>
      if 0 <=? e then Some (signed s m * 2 ^ e)
      else if Zpos m mod 2 ^ (- e) =? 0 then Some (signed s m / 2 ^ (- e))
           else None
  | _ => None
  end.

(** The nearest integer, ties to even (CPython's [_PyTime_RoundHalfEven]);
    [None] for an infinity or a NaN. *)
Definition round_half_even (x : float) : option Z :=
  match x with
  | S754_zero _ => Some 0
  | S754_finite s m e =>
      let r := if 0 <=? e then Zpos m * 2 ^ e else div_half_even (Zpos m) (2 ^ (- e)) in
      Some (if s then - r else r)
  | _ => None
  end.

End PyFloat.

(* ================================================================== *)
(** ** Calendar dates: the helpers of CPython's [datetime] module *)
(* ================================================================== *)

Module PyDate.

(** A [datetime.datetime]; [tzinfo] is the UTC offset in seconds of an
    aware value and [None] for a naive one. *)
Record datetime := mkDatetime {
  year : Z; month : Z; day : Z;
  hour : Z; minute : Z; second : Z; microsecond : Z;
  tzinfo : option Z
}.

(** A [datetime.date]. *)
Record date := mkDate { d_year : Z; d_month : Z; d_day : Z }.

Definition _is_leap (y : Z) : bool :=
  (y mod 4 =? 0) && (negb (y mod 100 =? 0) || (y mod 400 =? 0)).

Definition _days_before_year (y : Z) : Z :=
  let y := y - 1 in y * 365 + y / 4 - y / 100 + y / 400.

Definition _DAYS_IN_MONTH (m : Z) : Z :=
  nth (Z.to_nat m) [-1; 31; 28; 31; 30; 31; 30; 31; 31; 30; 31; 30; 31] 0.

Definition _DAYS_BEFORE_MONTH (m : Z) : Z :=
  nth (Z.to_nat m) [-1; 0; 31; 59; 90; 120; 151; 181; 212; 243; 273; 304; 334] 0.

Definition _days_in_month (y m : Z) : Z :=
  if (m =? 2) && _is_leap y then 29 else _DAYS_IN_MONTH m.

Definition _days_before_month (y m : Z) : Z :=
  _DAYS_BEFORE_MONTH m + (if (2 <? m) && _is_leap y then 1 else 0).

(** The ordinal of a date: 1 for 0001-01-01. *)
Definition _ymd2ord (y m d : Z) : Z :=
  _days_before_year y + _days_before_month y m + d.

Definition _DI400Y : Z := 146097.
Definition _DI100Y : Z := 36524.
Definition _DI4Y : Z := 1461.

(** The date of an ordinal. *)
Definition _ord2ymd (n : Z) : Z * Z * Z :=
  let n := n - 1 in
  let n400 := n / _DI400Y in
  let n := n mod _DI400Y in
  let year := n400 * 400 + 1 in
  let n100 := n / _DI100Y in
  let n := n mod _DI100Y in
  let n4 := n / _DI4Y in
  let n := n mod _DI4Y in
  let n1 := n / 365 in
  let n := n mod 365 in
  let year := year + n100 * 100 + n4 * 4 + n1 in
  if (n1 =? 4) || (n100 =? 4) then (year - 1, 12, 31)
  else
    let leapyear := (n1 =? 3) && (negb (n4 =? 24) || (n100 =? 3)) in
    let month := Z.shiftr (n + 50) 5 in
    let preceding := _DAYS_BEFORE_MONTH month + (if (2 <? month) && leapyear then 1 else 0) in
    let '(month, preceding) :=
      if n <? preceding
      then (month - 1,
            preceding - (_DAYS_IN_MONTH (month - 1)
                         + (if (month - 1 =? 2) && leapyear then 1 else 0)))
      else (month, preceding) in
    (year, month, n - preceding + 1).

(** The fields a [datetime] constructor accepts. *)
Definition valid_datetime (dt : datetime) : bool :=
  (1 <=? year dt) && (year dt <=? 9999) &&
  (1 <=? month dt) && (month dt <=? 12) &&
  (1 <=? day dt) && (day dt <=? _days_in_month (year dt) (month dt)) &&
  (0 <=? hour dt) && (hour dt <? 24) &&
  (0 <=? minute dt) && (minute dt <? 60) &&
  (0 <=? second dt) && (second dt <? 60) &&
  (0 <=? microsecond dt) && (microsecond dt <? 1000000).

(** The ordinal of 1970-01-01. *)
Definition epoch_ordinal : Z := 719163.

(** The microseconds from 1970-01-01T00:00:00Z to an aware [dt]: the
    [timedelta] that [dt - _EPOCH] is, as one integer. *)
Definition epoch_microseconds (dt : datetime) (utcoffset : Z) : Z :=
  ((_ymd2ord (year dt) (month dt) (day dt) - epoch_ordinal) * 86400
   + hour dt * 3600 + minute dt * 60 + second dt - utcoffset) * 1000000
  + microsecond dt.

(** [dt.timestamp()] of an aware [dt]:
    [(dt - _EPOCH).total_seconds()], the integer division
    [microseconds / 10**6] rounded to a float. *)
Definition timestamp (dt : datetime) (utcoffset : Z) : PyFloat.float :=
  PyFloat.truediv (epoch_microseconds dt utcoffset) 1000000.

(** [time.gmtime(sec)] with the microsecond [us], as a naive [datetime];
    [None] when the year is outside 1..9999. *)
Definition gmtime_datetime (sec us : Z) : option datetime :=
  let days := sec / 86400 in
  let rem := sec mod 86400 in
  let ordinal := days + epoch_ordinal in
  if (1 <=? ordinal) && (ordinal <=? 3652059) then
    let '(y, m, d) := _ord2ymd ordinal in
    Some (mkDatetime y m d (rem / 3600) (rem mod 3600 / 60) (Z.min (rem mod 60) 59) us None)
  else None.

(** CPython's [_PyTime_DoubleToDenominator] at microseconds, rounding half
    to even: the seconds and microseconds of a float timestamp. *)
Definition double_to_timeval (d : PyFloat.float) : option (Z * Z) :=
  let '(floatpart, intpart) := PyFloat.modf d in
  let floatpart := PyFloat.mul floatpart (PyFloat.of_Z 1000000) in
  match PyFloat.round_half_even floatpart, PyFloat.to_Z_exact intpart with
  | Some us, Some sec =>
      if 1000000 <=? us then Some (sec + 1, us - 1000000)
      else if us <? 0 then Some (sec - 1, us + 1000000)
           else Some (sec, us)
  | _, _ => None
  end.

(** [datetime.utcfromtimestamp(t)] for a float [t]. *)
Definition utcfromtimestamp_float (t : PyFloat.float) : option datetime :=
  match double_to_timeval t with
  | Some (sec, us) => gmtime_datetime sec us
  | None => None
  end.

(** [datetime.utcfromtimestamp(t)] for an integer [t]. *)
Definition utcfromtimestamp_int (t : Z) : option datetime := gmtime_datetime t 0.

(** [value.replace(tzinfo=timezone.utc)], what Django's [make_aware] does
    to a naive value. *)
Definition replace_utc (dt : datetime) : datetime :=
  mkDatetime (year dt) (month dt) (day dt) (hour dt) (minute dt) (second dt)
             (microsecond dt) (Some 0).

(** [dt.date()] *)
Definition date_of (dt : datetime) : date := mkDate (year dt) (month dt) (day dt).

(** [datetime(1970, 1, 1, tzinfo=timezone.utc)] *)
Definition epoch_utc : datetime := mkDatetime 1970 1 1 0 0 0 0 (Some 0).

End PyDate.

(* ================================================================== *)
(** ** Regular expressions: [re.match]

    A pattern is kept in parsed form.  The matcher backtracks in the order
    of Python's: a star takes as many repetitions as it can first, the left
    branch of an alternative goes first.  [re.match] tries the start of the
    string only. *)
(* ================================================================== *)

Module PyRe.

Inductive regex : Type :=
| Eps                                  (* the empty pattern *)
| Char (c : ascii)                     (* a literal character *)
| Class (ranges : list (ascii * ascii)) (* [a-z0-9] *)
| Any                                  (* . *)
| Bol                                  (* ^ *)
| Eol                                  (* $ *)
| Seq (r1 r2 : regex)
| Alt (r1 r2 : regex)                  (* r1|r2 *)
| Star (r : regex).                    (* r* *)

(** [r{n}] *)
Fixpoint Rep (n : nat) (r : regex) : regex :=
  match n with
  | O => Eps
  | S k => Seq r (Rep k r)
  end.

(** The flags the matcher reads: [re.I = 2], [re.M = 8], [re.S = 16]. *)
Definition IGNORECASE (flags : Z) : bool := Z.testbit flags 1.
Definition MULTILINE (flags : Z) : bool := Z.testbit flags 3.
Definition DOTALL (flags : Z) : bool := Z.testbit flags 4.

Definition upper_char (c : ascii) : ascii :=
  if PyStr.in_range 97 122 c
     || (PyStr.in_range 224 254 c && negb (PyStr.code c =? 247))
  then PyStr.chr (PyStr.code c - 32) else c.

Definition in_ranges (ranges : list (ascii * ascii)) (c : ascii) : bool :=
  existsb (fun '(lo, hi) => PyStr.in_range (PyStr.code lo) (PyStr.code hi) c) ranges.

Definition newline : ascii := PyStr.chr 10.

(** A position in the subject: the character before it, and the rest. *)
Definition pos : Type := option ascii * string.

Definition step_char (ok : ascii -> bool) (p : pos) : list pos :=
  match snd p with
  | String d t => if ok d then [(Some d, t)] else []
  | EmptyString => []
  end.

Section Matcher.
Variable flags : Z.

Definition char_ok (c d : ascii) : bool :=
  Ascii.eqb c d
  || (IGNORECASE flags && Ascii.eqb (PyStr.lower_char c) (PyStr.lower_char d)).

Definition class_ok (ranges : list (ascii * ascii)) (d : ascii) : bool :=
  in_ranges ranges d
  || (IGNORECASE flags
      && (in_ranges ranges (PyStr.lower_char d) || in_ranges ranges (upper_char d))).

Definition any_ok (d : ascii) : bool := DOTALL flags || negb (Ascii.eqb d newline).

Definition at_bol (p : pos) : bool :=
  match fst p with
  | None => true
  | Some c => MULTILINE flags && Ascii.eqb c newline
  end.

Definition at_eol (p : pos) : bool :=
  match snd p with
  | EmptyString => true
  | String c EmptyString => Ascii.eqb c newline
  | String c _ => MULTILINE flags && Ascii.eqb c newline
  end.

(** The repetitions of a star from [p]: [body] gives the positions after
    one repetition; one that consumed nothing is dropped. *)
Fixpoint star (body : pos -> list pos) (fuel : nat) (p : pos) : list pos :=
  match fuel with
  | O => [p]
  | S k =>
      flat_map (fun q =>
                  if Nat.ltb (String.length (snd q)) (String.length (snd p))
                  then star body k q else [])
               (body p)
      ++ [p]
  end.

(** The positions where a match of [r] begun at [p] can end, best first. *)
Fixpoint run (r : regex) (p : pos) : list pos :=
  match r with
  | Eps => [p]
  | Char c => step_char (char_ok c) p
  | Class ranges => step_char (class_ok ranges) p
  | Any => step_char any_ok p
  | Bol => if at_bol p then [p] else []
  | Eol => if at_eol p then [p] else []
  | Seq r1 r2 => flat_map (run r2) (run r1 p)
  | Alt r1 r2 => run r1 p ++ run r2 p
  | Star r1 => star (run r1) (String.length (snd p)) p
  end.

(** [re.match(r, s, flags)]: the text matched, [None] for no match. *)
Definition re_match (r : regex) (s : string) : option string :=
  match run r (None, s) with
  | [] => None
  | (_, rest) :: _ =>
      Some (PyStr.take (Nat.sub (String.length s) (String.length rest)) s)
  end.
End Matcher.

(** The patterns of [fields.py]. *)
Definition hex_low : regex := Class [("0", "9"); ("a", "f")]%char.

(** ['^[0-9a-f]{6}$'] *)
Definition color_regex : regex := Seq Bol (Seq (Rep 6 hex_low) Eol).

(** [r'[a-z0-9]*'] *)
Definition hexfield_regex : regex := Star (Class [("a", "z"); ("0", "9")]%char).

(** [r"^[0-9a-f]{8}-[0-9a-f]{4}-[0-9a-f]{4}-[0-9a-f]{4}-[0-9a-f]{12}$"] *)
Definition uuid_regex : regex :=
  Seq Bol
   (Seq (Rep 8 hex_low) (Seq (Char "-")
   (Seq (Rep 4 hex_low) (Seq (Char "-")
   (Seq (Rep 4 hex_low) (Seq (Char "-")
   (Seq (Rep 4 hex_low) (Seq (Char "-")
   (Seq (Rep 12 hex_low) Eol))))))))).

End PyRe.

(* ================================================================== *)
(** ** Python values and exceptions *)
(* ================================================================== *)

(** The raw and cleaned values: [None], [bool], [int], [float], [str],
    [list], [dict] with string keys, [set] (its elements in iteration
    order), [datetime], [date], and an uploaded file (its [name] and
    [size]). *)
#[warnings="-register-all"]
Inductive pyval : Type :=
| VNone
| VBool (b : bool)
| VInt (n : Z)
| VFloat (x : PyFloat.float)
| VStr (s : string)
| VList (l : list pyval)
| VDict (d : list (string * pyval))
| VSet (l : list pyval)
| VDatetime (dt : PyDate.datetime)
| VDate (d : PyDate.date)
| VFile (name : string) (size : Z).

(** [bool(v)] *)
Definition truthy (v : pyval) : bool :=
  match v with
  | VNone => false
  | VBool b => b
  | VInt n => negb (n =? 0)
  | VFloat x => match x with S754_zero _ => false | _ => true end
  | VStr s => negb (String.eqb s "")
  | VList l => match l with [] => false | _ => true end
  | VDict d => match d with [] => false | _ => true end
  | VSet l => match l with [] => false | _ => true end
  | VDatetime _ | VDate _ => true
  | VFile name _ => negb (String.eqb name "")
  end.

Definition is_none (v : pyval) : bool :=
  match v with VNone => true | _ => false end.

Definition is_str (v : pyval) : bool :=
  match v with VStr _ => true | _ => false end.

(** [v in (None, '', [], (), {})]: Django's [EMPTY_VALUES]. *)
Definition in_EMPTY_VALUES (v : pyval) : bool :=
  match v with
  | VNone | VStr EmptyString | VList [] | VDict [] => true
  | _ => false
  end.

(** [v == n] for an integer [n]. *)
Definition eq_int (v : pyval) (n : Z) : bool :=
  match v with
  | VBool b => (if b then 1 else 0) =? n
  | VInt m => m =? n
  | VFloat x => match PyFloat.compare_Z x n with Some Eq => true | _ => false end
  | _ => false
  end.

(** The order of two numbers; [None] when a value is not a number or is a
    NaN. *)
Definition num_compare (a b : pyval) : option (option comparison) :=
  let as_int v := match v with
                  | VBool b => Some (if b then 1 else 0)
                  | VInt n => Some n
                  | _ => None
                  end in
  match a, b with
  | VFloat x, VFloat y => Some (PyFloat.compare x y)
  | VFloat x, _ => option_map (PyFloat.compare_Z x) (as_int b)
  | _, VFloat y =>
      option_map (fun n => option_map CompOpp (PyFloat.compare_Z y n)) (as_int a)
  | _, _ =>
      match as_int a, as_int b with
      | Some m, Some n => Some (Some (m ?= n))
      | _, _ => None
      end
  end.

(** [a > b] and [a < b]: [None] stands for the [TypeError] of values that
    have no order. *)
Definition py_gt (a b : pyval) : option bool :=
  option_map (fun c => match c with Some Gt => true | _ => false end) (num_compare a b).

Definition py_lt (a b : pyval) : option bool :=
  option_map (fun c => match c with Some Lt => true | _ => false end) (num_compare a b).

(** [d.get(key)] *)
Fixpoint dict_get (d : list (string * pyval)) (key : string) : pyval :=
  match d with
  | [] => VNone
  | (k, v) :: t => if String.eqb k key then v else dict_get t key
  end.

(** One message of a [ValidationError]. *)
Inductive verr : Type :=
| Required                         (* code 'required' *)
| Invalid                          (* code 'invalid': not a number, not a file *)
| MaxValue (limit value : pyval)   (* code 'max_value' *)
| MinValue (limit value : pyval)   (* code 'min_value' *)
| NullCharacters                   (* code 'null_characters_not_allowed' *)
| InvalidChoice (value : pyval)    (* code 'invalid_choice' *)
| RegexMismatch (r : PyRe.regex)   (* Value don't match regexp *)
| Future                           (* You can't search time in future *)
| BadFormat (mask : string)        (* Invalid value format *)
| BadTimezone (value : pyval)      (* Invalid timezone *)
| BadColor (value : pyval)         (* Color is invalid *)
| JsonNotParsed                    (* Json was not parsed *)
| JsonInvalid (value : pyval)      (* Invalid JSON value *)
| Schema (message : string)        (* the message of jsonschema *)
| NotArray                         (* Value is expected to be JSON array, not object *)
| ArrayOfIntegers                  (* Array of integers *)
| HexOnly                          (* Field can contain only hexadecimal small characters *)
| BadUrl                           (* URLValidator *)
| BadEmail                         (* EmailValidator *)
| FileEmpty.                       (* code 'empty' *)

(** The exceptions a [clean] can end with.  [FileTypeError] and
    [FileSizeError] come from the package's [exceptions] module; they hold
    the arguments [FileField.validate] builds them with. *)
Inductive exn : Type :=
| ValidationError (error_list : list verr)
| FileTypeError (ext : string) (valid_extensions : list string)
| FileSizeError (size actual : Z)
| TypeError
| ValueError
| AttributeError
| OverflowError.

(** A choice of a [ChoiceField]: a pair (value, label), or an option group
    whose label is a list of pairs. *)
Inductive choice : Type :=
| Choice (k v : pyval)
| OptGroup (k : pyval) (options : list (pyval * pyval)).

Inductive field_class : Type :=
| cRestCharField | cRegexField | cRestChoiceField | cRestIntegerField
| cRestFloatField | cPositiveIntegerField | cIdField | cTimestampField
| cDateTimeField | cDateField | cMonthField | cTimezoneField
| cDateUnitField | cRestBooleanField | cLowerCaseEmailField | cColorField
| cTruncatedCharField | cJsonField | cArrayField | cIdArrayField
| cIdSetField | cUrlField | cHexField | cUUIDField | cFileField.

(** A field object: its class and its attributes.  An attribute a class
    does not have keeps its default.  Django's own options that
    [fields.py] never sets ([strip], [empty_value], [min_length],
    [max_length], [localize], [allow_empty_file], extra validators) are at
    their defaults and have no attribute here. *)
Record field : Type := mkField {
  cls : field_class;
  required : bool;
  initial : pyval;
  (* RegexField *)
  regex : option PyRe.regex;   (* [None]: no pattern, or the empty string *)
  flags : Z;
  _match : option string;      (* the text of the last match object *)
  (* ChoiceField *)
  choices : list choice;
  (* IntegerField, FloatField: [VNone] when not given *)
  max_value : pyval;
  min_value : pyval;
  (* TimestampField *)
  _in_future : bool;
  (* DateTimeField *)
  mask : string;
  (* TruncatedCharField *)
  _truncate_length : option Z;
  (* JsonField *)
  _json_schema : pyval;
  (* UrlField *)
  with_underscore_domain : bool;
  (* FileField *)
  valid_extensions : option (list string);
  size : option Z
}.

(** [self._match = m] *)
Definition set_match (self : field) (m : option string) : field :=
  mkField (cls self) (required self) (initial self) (regex self) (flags self) m
          (choices self) (max_value self) (min_value self) (_in_future self)
          (mask self) (_truncate_length self) (_json_schema self)
          (with_underscore_domain self) (valid_extensions self) (size self).

(* ================================================================== *)
(** ** Methods: computations on [self] that return or raise *)
(* ================================================================== *)

Definition result (A : Type) : Type := (exn + A)%type.

(** A method body: from the field object before the call to the field
    object after it and what the call returned or raised. *)
Definition M (A : Type) : Type := field -> field * result A.

Definition ret {A} (a : A) : M A := fun self => (self, inr a).
Definition raise {A} (e : exn) : M A := fun self => (self, inl e).
Definition bind {A B} (c : M A) (k : A -> M B) : M B :=
  fun self =>
    match c self with
    | (self', inr a) => k a self'
    | (self', inl e) => (self', inl e)
    end.
Definition get_self : M field := fun self => (self, inr self).
Definition put_match (m : option string) : M unit :=
  fun self => (set_match self m, inr tt).

Notation "x <- c ;; k" := (bind c (fun x => k))
  (at level 61, c at next level, right associativity).
Notation "c ;;; k" := (bind c (fun _ => k))
  (at level 61, right associativity).

(** [raise ValidationError(message, code)] *)
Definition fail {A} (e : verr) : M A := raise (ValidationError [e]).

(** [try: ... except ValidationError: ...] is not used by [fields.py]; a
    Python exception of another class travels through every caller. *)
Definition lift_option {A} (o : option A) (e : exn) : M A :=
  match o with
  | Some a => ret a
  | None => raise e
  end.

Fixpoint mapM {A B} (f : A -> M B) (l : list A) : M (list B) :=
  match l with
  | [] => ret []
  | a :: t => b <- f a ;; r <- mapM f t ;; ret (b :: r)
  end.

(* ================================================================== *)
(** ** Django's [forms] fields and the classes of [fields.py] *)
(* ================================================================== *)

Section Fields.

(** *** What the fields take from outside *)

(** [str(v)] of a float, a container, a date or a datetime. *)
Variable py_repr : pyval -> string.
(** [float(s)] of a string; [None] for the [ValueError]. *)
Variable float_of_string : string -> option PyFloat.float.
(** [json.loads(s)]; [None] when it raises. *)
Variable json_loads : string -> option pyval.
(** [jsonschema.validate(value, schema)]: the message of the
    [ValidationError] it raises, [None] when the value conforms. *)
Variable jsonschema_validate : pyval -> pyval -> option string.
(** [datetime.strptime(s, mask)]; [None] for the [ValueError]. *)
Variable strptime : string -> string -> option PyDate.datetime.
(** [pytz.all_timezones] *)
Variable all_timezones : list string.
(** [URLValidatorWithUnderscoreDomain(schemes=['http', 'https'])] when
    the flag is set, [URLValidator(schemes=['http', 'https'])] otherwise:
    whether the validator accepts the string. *)
Variable url_validator : bool -> string -> bool.
(** Django's [validate_email]: whether it accepts the value. *)
Variable validate_email : pyval -> bool.
(** [to_timestamp(now())]: the current time. *)
Variable now_timestamp : PyFloat.float.
(** [getattr(settings, "ID_FIELD_MAX_VALUE", None)] *)
Variable ID_FIELD_MAX_VALUE : pyval.

(** [str(v)] *)
Definition str_of (v : pyval) : string :=
  match v with
  | VStr s => s
  | VNone => "None"
  | VBool b => if b then "True" else "False"
  | VInt n => PyStr.string_of_int n
  | VFile name _ => name
  | _ => py_repr v
  end.

(** *** Validators *)

(** A validator: the error messages it raises, or another exception. *)
Definition validator : Type := pyval -> exn + list verr.

(** [MaxValueValidator(limit)]: raises when [value > limit]. *)
Definition MaxValueValidator (limit : pyval) : validator :=
  fun value =>
    match py_gt value limit with
    | Some true => inr [MaxValue limit value]
    | Some false => inr []
    | None => inl TypeError
    end.

(** [MinValueValidator(limit)]: raises when [value < limit]. *)
Definition MinValueValidator (limit : pyval) : validator :=
  fun value =>
    match py_lt value limit with
    | Some true => inr [MinValue limit value]
    | Some false => inr []
    | None => inl TypeError
    end.

(** [ProhibitNullCharactersValidator()]: raises when ["\x00" in
    str(value)].  The [str] of a value that is neither a string nor a
    file is a printable text, which holds no NUL. *)
Definition ProhibitNullCharactersValidator : validator :=
  fun value =>
    match value with
    | VStr s | VFile s _ =>
        if PyStr.contains (PyStr.chr 0) s then inr [NullCharacters] else inr []
    | _ => inr []
    end.

Definition EmailValidator : validator :=
  fun value => if validate_email value then inr [] else inr [BadEmail].

(** The loop of [Field.run_validators]: the messages of every validator
    that raises a [ValidationError]; another exception ends the loop. *)
Fixpoint collect_errors (validators : list validator) (value : pyval)
  : exn + list verr :=
  match validators with
  | [] => inr []
  | v :: rest =>
      match v value with
      | inl e => inl e
      | inr errs =>
          match collect_errors rest value with
          | inl e => inl e
          | inr errs' => inr (errs ++ errs')%list
          end
      end
  end.

(** *** [django.forms.Field] *)

Definition Field_to_python (value : pyval) : M pyval := ret value.

(** [Field.validate]; [empty_values] is the class's [empty_values]. *)
Definition Field_validate (empty_values : pyval -> bool) (value : pyval) : M unit :=
  self <- get_self ;;
  if empty_values value && required self then fail Required else ret tt.

Definition Field_run_validators (empty_values : pyval -> bool)
           (validators : list validator) (value : pyval) : M unit :=
  if empty_values value then ret tt
  else match collect_errors validators value with
       | inl e => raise e
       | inr [] => ret tt
       | inr errors => raise (ValidationError errors)
       end.

(** [Field.clean]: the three methods are those of the object's class. *)
Definition Field_clean (to_python : pyval -> M pyval)
           (validate run_validators : pyval -> M unit) (value : pyval) : M pyval :=
  value <- to_python value ;;
  validate value ;;;
  run_validators value ;;;
  ret value.

(** *** [django.forms.CharField] with [strip=True], [empty_value=''] *)

Definition CharField_to_python (empty_values : pyval -> bool) (value : pyval)
  : M pyval :=
  let value := if negb (empty_values value)
               then VStr (PyStr.strip (str_of value)) else value in
  if empty_values value then ret (VStr "") else ret value.

Definition CharField_validators : list validator :=
  [ProhibitNullCharactersValidator].

(** *** [django.forms.ChoiceField] *)

Definition ChoiceField_to_python (empty_values : pyval -> bool) (value : pyval)
  : M pyval :=
  if empty_values value then ret (VStr "") else ret (VStr (str_of value)).

(** [ChoiceField.valid_value] *)
Definition valid_value (self : field) (value : pyval) : bool :=
  let text_value := str_of value in
  let hit k := String.eqb text_value (str_of k) in
  existsb (fun c =>
             match c with
             | Choice k _ => hit k
             | OptGroup _ options => existsb (fun '(k2, _) => hit k2) options
             end)
          (choices self).

Definition ChoiceField_validate (empty_values : pyval -> bool) (value : pyval)
  : M unit :=
  Field_validate empty_values value ;;;
  self <- get_self ;;
  if truthy value && negb (valid_value self value)
  then fail (InvalidChoice value) else ret tt.

(** *** [django.forms.IntegerField] *)

Fixpoint zeros_then_spaces (s : string) : bool :=
  match s with
  | EmptyString => true
  | String c t =>
      if Ascii.eqb c "0" then zeros_then_spaces t
      else PyStr.isspace c && (String.eqb (PyStr.lstrip t) "")
  end.

(** [re_decimal.sub("", s)] with [re_decimal = r"\.0*\s*$"]: drops the
    first tail made of a dot, zeros and blanks. *)
Fixpoint re_decimal_sub (s : string) : string :=
  match s with
  | EmptyString => EmptyString
  | String c t =>
      if Ascii.eqb c "." && zeros_then_spaces t then EmptyString
      else String c (re_decimal_sub t)
  end.

Definition IntegerField_to_python (value : pyval) : M pyval :=
  value <- Field_to_python value ;;
  if in_EMPTY_VALUES value then ret VNone
  else match PyStr.int_of_string (re_decimal_sub (str_of value)) with
       | Some n => ret (VInt n)
       | None => fail Invalid
       end.

(** The validators [IntegerField.__init__] appends. *)
Definition IntegerField_validators (self : field) : list validator :=
  ((if is_none (max_value self) then [] else [MaxValueValidator (max_value self)])
   ++ (if is_none (min_value self) then [] else [MinValueValidator (min_value self)]))%list.

(** *** [django.forms.FloatField] *)

(** [float(v)] *)
Definition py_float (v : pyval) : M PyFloat.float :=
  match v with
  | VFloat x => ret x
  | VBool b => ret (PyFloat.of_Z (if b then 1 else 0))
  | VInt n =>
      let x := PyFloat.of_Z n in
      if PyFloat.isfinite x then ret x else raise OverflowError
  | VStr s => lift_option (float_of_string s) ValueError
  | _ => raise TypeError
  end.

Definition FloatField_to_python (value : pyval) : M pyval :=
  value <- Field_to_python value ;;
  if in_EMPTY_VALUES value then ret VNone
  else fun self =>
         match py_float value self with
         | (self', inl ValueError) | (self', inl TypeError) => fail Invalid self'
         | (self', inl e) => raise e self'
         | (self', inr x) => ret (VFloat x) self'
         end.

Definition FloatField_validate (value : pyval) : M unit :=
  Field_validate in_EMPTY_VALUES value ;;;
  if in_EMPTY_VALUES value then ret tt
  else match value with
       | VFloat x => if PyFloat.isfinite x then ret tt else fail Invalid
       | _ => raise TypeError
       end.

(** *** [django.forms.FileField] with [max_length=None],
    [allow_empty_file=False] *)

Definition forms_FileField_to_python (data : pyval) : M pyval :=
  if in_EMPTY_VALUES data then ret VNone
  else match data with
       | VFile file_name file_size =>
           if String.eqb file_name "" then fail Invalid
           else if file_size =? 0 then fail FileEmpty
                else ret data
       | _ => fail Invalid
       end.

(** [forms.FileField.clean(data, initial)]; [data is False] clears the
    file.  [super_clean] is [Field.clean] on the object. *)
Definition forms_FileField_clean (super_clean : pyval -> M pyval)
           (data initial : pyval) : M pyval :=
  self <- get_self ;;
  match data with
  | VBool false =>
      if negb (required self) then ret (VBool false)
      else if truthy initial then ret initial else super_clean VNone
  | _ =>
      if negb (truthy data) && truthy initial then ret initial
      else super_clean data
  end.

(** *** [fields.py] *)

(** A field object as [forms.Field.__init__] leaves it, the attributes of
    the subclasses at the values their [__init__] gives when nothing is
    passed. *)
Definition new_field (c : field_class) (required : bool) (initial : pyval) : field :=
  mkField c required initial None 0 None [] VNone VNone true "" None VNone true
          None None.

(** **** [InitialFixMixin] *)

Definition InitialFixMixin_clean (super_clean : pyval -> M pyval) (value : pyval)
  : M pyval :=
  value <- super_clean value ;;
  self <- get_self ;;
  ret (if is_none value then initial self else value).

(** **** [EmptyStringFixMixing]: [empty_values = [None]] *)

Definition EmptyStringFixMixing_empty_values : pyval -> bool := is_none.

Definition EmptyStringFixMixing_to_python (super_to_python : pyval -> M pyval)
           (value : pyval) : M pyval :=
  if is_none value then ret VNone else super_to_python value.

(** [to_python], [validate] and [run_validators] are the methods of the
    object's class. *)
Definition EmptyStringFixMixing_clean (to_python : pyval -> M pyval)
           (validate run_validators : pyval -> M unit) (value : pyval) : M pyval :=
  if is_none value then
    value <- to_python value ;;
    validate value ;;;
    self <- get_self ;;
    ret (initial self)
  else Field_clean to_python validate run_validators value.

Definition EmptyStringFixMixing_validate (super_validate : pyval -> M unit)
           (value : pyval) : M unit :=
  self <- get_self ;;
  if is_none value && required self then fail Required
  else super_validate value.

(** **** [RestCharField(EmptyStringFixMixing, forms.CharField)] *)

Definition RestCharField_to_python : pyval -> M pyval :=
  EmptyStringFixMixing_to_python (CharField_to_python EmptyStringFixMixing_empty_values).

Definition RestCharField_validate : pyval -> M unit :=
  EmptyStringFixMixing_validate (Field_validate EmptyStringFixMixing_empty_values).

Definition RestCharField_run_validators : pyval -> M unit :=
  Field_run_validators EmptyStringFixMixing_empty_values CharField_validators.

Definition RestCharField_clean : pyval -> M pyval :=
  EmptyStringFixMixing_clean RestCharField_to_python RestCharField_validate
                             RestCharField_run_validators.

(** A subclass of [RestCharField] that overrides [to_python] or
    [validate] and keeps [clean]. *)
Definition RestCharField_clean_with (to_python : pyval -> M pyval)
           (validate : pyval -> M unit) : pyval -> M pyval :=
  EmptyStringFixMixing_clean to_python validate RestCharField_run_validators.

(** **** [RegexField(RestCharField)] *)

Definition RegexField_init (required : bool) (initial : pyval)
           (regex : option PyRe.regex) (flags : Z) : field :=
  mkField cRegexField required initial regex flags None [] VNone VNone true ""
          None VNone true None None.

Definition RegexField_validate (value : pyval) : M unit :=
  RestCharField_validate value ;;;
  self <- get_self ;;
  match regex self with
  | Some r =>
      if negb (is_none value) then
        let m := PyRe.re_match (flags self) r (str_of value) in
        put_match m ;;;
        match m with
        | Some _ => ret tt
        | None => fail (RegexMismatch r)
        end
      else ret tt
  | None => ret tt
  end.

Definition RegexField_clean : pyval -> M pyval :=
  RestCharField_clean_with RestCharField_to_python RegexField_validate.

(** **** [RestChoiceField(EmptyStringFixMixing, forms.ChoiceField)] *)

(** A choice as [RestChoiceField.__init__] receives it: a bare value or a
    pair. *)
Inductive raw_choice : Type :=
| Bare (ch : pyval)
| Paired (c : choice).

Definition normalize_choice (ch : raw_choice) : choice :=
  match ch with
  | Bare v => Choice v v
  | Paired c => c
  end.

Definition RestChoiceField_init (c : field_class) (required : bool) (initial : pyval)
           (choices : option (list raw_choice)) : field :=
  mkField c required initial None 0 None
          (match choices with
           | Some l => map normalize_choice l
           | None => []
           end)
          VNone VNone true "" None VNone true None None.

Definition RestChoiceField_to_python : pyval -> M pyval :=
  EmptyStringFixMixing_to_python (ChoiceField_to_python EmptyStringFixMixing_empty_values).

Definition RestChoiceField_validate (value : pyval) : M unit :=
  self <- get_self ;;
  if negb (is_none value)
     && match choices self with [] => false | _ => true end
     && negb (valid_value self value)
  then fail (InvalidChoice value)
  else EmptyStringFixMixing_validate
         (ChoiceField_validate EmptyStringFixMixing_empty_values) value.

Definition RestChoiceField_clean : pyval -> M pyval :=
  EmptyStringFixMixing_clean RestChoiceField_to_python RestChoiceField_validate
    (Field_run_validators EmptyStringFixMixing_empty_values []).

(** **** [RestIntegerField(InitialFixMixin, forms.IntegerField)] *)

Definition RestIntegerField_init (c : field_class) (required : bool) (initial : pyval)
           (max_value min_value : pyval) : field :=
  mkField c required initial None 0 None [] max_value min_value true "" None
          VNone true None None.

Definition IntegerField_run_validators (value : pyval) : M unit :=
  self <- get_self ;;
  Field_run_validators in_EMPTY_VALUES (IntegerField_validators self) value.

Definition RestIntegerField_clean : pyval -> M pyval :=
  InitialFixMixin_clean
    (Field_clean IntegerField_to_python (Field_validate in_EMPTY_VALUES)
                 IntegerField_run_validators).

(** **** [RestFloatField(InitialFixMixin, forms.FloatField)] *)

Definition RestFloatField_clean : pyval -> M pyval :=
  InitialFixMixin_clean
    (Field_clean FloatField_to_python FloatField_validate
                 IntegerField_run_validators).

(** **** [PositiveIntegerField(RestIntegerField)]: [min_value] is
    [None] when the keyword is not passed. *)

Definition PositiveIntegerField_init (c : field_class) (required : bool)
           (initial : pyval) (with_zero : bool) (max_value : pyval)
           (min_value : option pyval) : field :=
  RestIntegerField_init c required initial max_value
    (match min_value with
     | Some m => m
     | None => VInt (if with_zero then 0 else 1)
     end).

(** **** [IdField(PositiveIntegerField)]: [with_zero] and [max_value]
    are [None] when the keyword is not passed. *)

Definition IdField_init (required : bool) (initial : pyval)
           (with_zero : option bool) (max_value min_value : option pyval) : field :=
  PositiveIntegerField_init cIdField required initial
    (match with_zero with Some b => b | None => false end)
    (match max_value with
     | Some m => m
     | None => ID_FIELD_MAX_VALUE
     end)
    min_value.

(** **** [compatibility.to_timestamp] *)

Definition to_timestamp (dt : PyDate.datetime) : PyFloat.float :=
  PyDate.timestamp dt (match PyDate.tzinfo dt with
                       | Some offset => offset
                       | None => 0
                       end).

(** **** [TimestampField(RestFloatField)] *)

(** [initial] is [None] when the keyword is not passed; the result is
    [None] when an assertion fails. *)
Definition TimestampField_init (required : bool) (initial : option pyval)
           (in_future : bool) : option field :=
  let make i :=
    mkField cTimestampField required i None 0 None [] (VInt 2147483647) (VInt 0)
            in_future "" None VNone true None None in
  match initial with
  | None => Some (make VNone)
  | Some (VDatetime dt) => Some (make (VFloat (to_timestamp dt)))
  | Some (VInt n) => Some (make (VInt n))
  | Some (VBool b) => Some (make (VBool b))
  | Some (VFloat x) => Some (make (VFloat x))
  | Some _ => None
  end.

Definition TimestampField_validate (value : pyval) : M unit :=
  FloatField_validate value ;;;
  self <- get_self ;;
  if negb (is_none value) && negb (_in_future self) then
    match py_gt value (VFloat now_timestamp) with
    | Some true => fail Future
    | Some false => ret tt
    | None => raise TypeError
    end
  else ret tt.

(** [datetime.utcfromtimestamp(value)] *)
Definition utcfromtimestamp (value : pyval) : M PyDate.datetime :=
  match value with
  | VFloat x =>
      match x with
      | S754_nan => raise ValueError
      | S754_infinity _ => raise OverflowError
      | _ => lift_option (PyDate.utcfromtimestamp_float x) ValueError
      end
  | VInt n => lift_option (PyDate.utcfromtimestamp_int n) ValueError
  | VBool b => lift_option (PyDate.utcfromtimestamp_int (if b then 1 else 0)) ValueError
  | _ => raise TypeError
  end.

(** [make_aware(dt, timezone.utc)] *)
Definition make_aware_utc (dt : PyDate.datetime) : M PyDate.datetime :=
  match PyDate.tzinfo dt with
  | Some _ => raise ValueError
  | None => ret (PyDate.replace_utc dt)
  end.

Definition TimestampField_clean (value : pyval) : M pyval :=
  value <- InitialFixMixin_clean
             (Field_clean FloatField_to_python TimestampField_validate
                          IntegerField_run_validators) value ;;
  if eq_int value 0 then ret (VDatetime PyDate.epoch_utc)
  else if negb (is_none value) then
         dt <- utcfromtimestamp value ;;
         dt <- make_aware_utc dt ;;
         ret (VDatetime dt)
       else ret value.

(** **** [DateTimeField(RestCharField)], [DateField], [MonthField] *)

Definition DateTimeField_init (c : field_class) (required : bool) (initial : pyval)
           (mask : string) : field :=
  mkField c required initial None 0 None [] VNone VNone true mask None VNone true
          None None.

(** The default masks of the three classes. *)
Definition DateTimeField_mask : string := "%Y-%m-%dT%H:%M:%S".
Definition DateField_mask : string := "%Y-%m-%d".
Definition MonthField_mask : string := "%Y-%m".

(** [isinstance(value, datetime)] and [isinstance(value, date)]: a
    [datetime] is a [date]. *)
Definition is_datetime (v : pyval) : bool :=
  match v with VDatetime _ => true | _ => false end.
Definition is_date (v : pyval) : bool :=
  match v with VDatetime _ | VDate _ => true | _ => false end.

(** [DateTimeField.clean]; [base_type] is the class attribute, as its
    [isinstance] test. *)
Definition DateTimeField_clean (base_type : pyval -> bool) (value : pyval) : M pyval :=
  value <- RestCharField_clean value ;;
  self <- get_self ;;
  if negb (is_none value) && negb (base_type value) then
    match value with
    | VStr s =>
        match strptime s (mask self) with
        | Some dt => dt <- make_aware_utc dt ;; ret (VDatetime dt)
        | None => fail (BadFormat (mask self))
        end
    | _ => fail (BadFormat (mask self))
    end
  else ret value.

Definition date_if_datetime (value : pyval) : pyval :=
  match value with
  | VDatetime dt => VDate (PyDate.date_of dt)
  | _ => value
  end.

Definition DateField_clean (value : pyval) : M pyval :=
  value <- DateTimeField_clean is_date value ;;
  ret (date_if_datetime value).

Definition MonthField_clean (value : pyval) : M pyval :=
  value <- DateTimeField_clean is_datetime value ;;
  ret (date_if_datetime value).

(** **** [TimezoneField(RestCharField)] *)

Definition TimezoneField_validate (value : pyval) : M unit :=
  RestCharField_validate value ;;;
  if truthy value
     && negb (match value with
              | VStr s => existsb (String.eqb s) all_timezones
              | _ => false
              end)
  then fail (BadTimezone value) else ret tt.

Definition TimezoneField_clean : pyval -> M pyval :=
  RestCharField_clean_with RestCharField_to_python TimezoneField_validate.

(** **** [DateUnitField(RestChoiceField)] *)

Definition UNIT_CHOICES : list raw_choice :=
  [Bare (VStr "hour"); Bare (VStr "day"); Bare (VStr "week")].

Definition DateUnitField_init (required : bool) (initial : pyval) : field :=
  RestChoiceField_init cDateUnitField required initial (Some UNIT_CHOICES).

(** **** [RestBooleanField(RestCharField)] *)

Definition RestBooleanField_to_python (value : pyval) : M pyval :=
  match value with
  | VNone => ret VNone
  | VStr s =>
      let l := PyStr.lower s in
      if String.eqb l "false" || String.eqb l "0" || String.eqb l ""
      then ret (VBool false) else ret (VBool (truthy value))
  | _ => ret (VBool (truthy value))
  end.

Definition RestBooleanField_clean : pyval -> M pyval :=
  RestCharField_clean_with RestBooleanField_to_python RestCharField_validate.

(** **** [LowerCaseEmailField(forms.EmailField)] *)

Definition LowerCaseEmailField_to_python (value : pyval) : M pyval :=
  match value with
  | VStr s => ret (VStr (PyStr.lower s))
  | _ => ret value
  end.

Definition LowerCaseEmailField_clean (value : pyval) : M pyval :=
  self <- get_self ;;
  if negb (is_none value) then
    Field_clean LowerCaseEmailField_to_python (Field_validate in_EMPTY_VALUES)
      (Field_run_validators in_EMPTY_VALUES
         [EmailValidator; ProhibitNullCharactersValidator])
      value
  else if required self then fail Required
       else ret (initial self).

(** **** [ColorField(RestCharField)] *)

Definition ColorField_validate (value : pyval) : M unit :=
  RestCharField_validate value ;;;
  if truthy value then
    match value with
    | VStr s =>
        match PyRe.re_match 0 PyRe.color_regex s with
        | Some _ => ret tt
        | None => fail (BadColor value)
        end
    | _ => raise TypeError
    end
  else ret tt.

Definition ColorField_clean : pyval -> M pyval :=
  RestCharField_clean_with RestCharField_to_python ColorField_validate.

(** **** [TruncatedCharField(RestCharField)] *)

(** [truncate_length] is [None] for Python's [None]; the result is [None]
    when the assertion fails. *)
Definition TruncatedCharField_init (required : bool) (initial : pyval)
           (truncate_length : option Z) : option field :=
  let make :=
    mkField cTruncatedCharField required initial None 0 None [] VNone VNone true
            "" truncate_length VNone true None None in
  match truncate_length with
  | None => Some make
  | Some n => if 0 <? n then Some make else None
  end.

Definition TruncatedCharField_to_python (value : pyval) : M pyval :=
  self <- get_self ;;
  value <- match _truncate_length self with
           | Some n =>
               if truthy value then
                 match value with
                 | VStr s => ret (VStr (PyStr.slice_to n s))
                 | VList l => ret (VList (firstn (Z.to_nat n) l))
                 | _ => raise TypeError
                 end
               else ret value
           | None => ret value
           end ;;
  RestCharField_to_python value.

Definition TruncatedCharField_clean : pyval -> M pyval :=
  RestCharField_clean_with TruncatedCharField_to_python RestCharField_validate.

(** **** [JsonField(RestCharField)] *)

Definition JsonField_init (c : field_class) (required : bool) (initial : pyval)
           (json_schema : pyval) : field :=
  mkField c required initial None 0 None [] VNone VNone true "" None json_schema
          true None None.

Definition JsonField_to_python (value : pyval) : M pyval :=
  match value with
  | VNone | VList _ | VDict _ => ret value
  | VStr s =>
      match json_loads s with
      | Some v => ret v
      | None => fail JsonNotParsed
      end
  | _ => fail (JsonInvalid value)
  end.

Definition JsonField_validate (value : pyval) : M unit :=
  RestCharField_validate value ;;;
  self <- get_self ;;
  if truthy (_json_schema self) && negb (is_none value) then
    match jsonschema_validate value (_json_schema self) with
    | Some message => fail (Schema message)
    | None => ret tt
    end
  else ret tt.

Definition JsonField_clean : pyval -> M pyval :=
  RestCharField_clean_with JsonField_to_python JsonField_validate.

(** **** [ArrayField(JsonField)] *)

(** The schema [ArrayField.__init__] builds. *)
Definition array_schema (item_schema min_items max_items : pyval) : pyval :=
  VDict ([("type", VStr "array"); ("minItems", min_items)]
         ++ (if truthy max_items then [("maxItems", max_items)] else [])
         ++ (if truthy item_schema then [("items", item_schema)] else []))%list.

(** The defaults: [item_schema=None], [min_items=0], [max_items=None]. *)
Definition ArrayField_init (c : field_class) (required : bool) (initial : pyval)
           (item_schema min_items max_items : pyval) : field :=
  JsonField_init c required initial (array_schema item_schema min_items max_items).

(** [d.get(key)] on a value: only a [dict] has the method. *)
Definition py_get (d : pyval) (key : string) : M pyval :=
  match d with
  | VDict l => ret (dict_get l key)
  | _ => raise AttributeError
  end.

(** [[int(item) for item in data]] *)
Fixpoint ints_of (data : list string) : option (list pyval) :=
  match data with
  | [] => Some []
  | item :: rest =>
      match PyStr.int_of_string item, ints_of rest with
      | Some n, Some r => Some (VInt n :: r)
      | _, _ => None
      end
  end.

Definition ArrayField_to_python (value : pyval) : M pyval :=
  match value with
  | VNone | VList _ => JsonField_to_python value
  | VDict _ => fail NotArray
  | VStr s =>
      if PyStr.startswith "[" s || PyStr.endswith "]" s then JsonField_to_python value
      else if PyStr.startswith "{" s && PyStr.endswith "}" s then fail NotArray
      else
        let data := PyStr.split "," s in
        self <- get_self ;;
        item_schema <- (if truthy (_json_schema self)
                        then py_get (_json_schema self) "items" else ret VNone) ;;
        is_int <- (if truthy item_schema
                   then t <- py_get item_schema "type" ;;
                        ret (match t with
                             | VStr k => String.eqb k "integer"
                             | _ => false
                             end)
                   else ret false) ;;
        if is_int then
          match ints_of data with
          | Some l => ret (VList l)
          | None => fail ArrayOfIntegers
          end
        else ret (VList (map VStr data))
  | _ => fail (JsonInvalid value)
  end.

Definition ArrayField_clean : pyval -> M pyval :=
  RestCharField_clean_with ArrayField_to_python JsonField_validate.

(** **** [IdArrayField(ArrayField)] and [IdSetField(IdArrayField)] *)

(** A call of a method of another object: [self] is untouched. *)
Definition call_on {A} (obj : field) (c : M A) : M A :=
  fun self => (self, snd (c obj)).

Definition IdArrayField_clean (value : pyval) : M pyval :=
  let value := match value with VSet l => VList l | _ => value end in
  res <- ArrayField_clean value ;;
  match res with
  | VList l =>
      let id_field := IdField_init true VNone None None None in
      r <- mapM (fun item => call_on id_field (RestIntegerField_clean item)) l ;;
      ret (VList r)
  | _ => ret res
  end.

(** [a == b] for numbers. *)
Definition num_eqb (a b : pyval) : bool :=
  match num_compare a b with
  | Some (Some Eq) => true
  | _ => false
  end.

(** [set(l)] for a list of numbers: one element per value. *)
Fixpoint set_of_list (l : list pyval) : list pyval :=
  match l with
  | [] => []
  | a :: t => a :: filter (fun b => negb (num_eqb a b)) (set_of_list t)
  end.

Definition IdSetField_clean (value : pyval) : M pyval :=
  res <- IdArrayField_clean value ;;
  match res with
  | VList l => ret (VSet (set_of_list l))
  | _ => ret res
  end.

(** **** [UrlField(RegexField)] *)

Definition UrlField_init (required : bool) (initial : pyval)
           (regex : option PyRe.regex) (flags : Z) (with_underscore_domain : bool)
  : field :=
  mkField cUrlField required initial regex flags None [] VNone VNone true ""
          None VNone with_underscore_domain None None.

Definition UrlField_to_python (value : pyval) : M pyval :=
  let value := match value with
               | VStr s => VStr (PyStr.strip s)
               | _ => value
               end in
  RestCharField_to_python value.

Definition UrlField_validate (value : pyval) : M unit :=
  RegexField_validate value ;;;
  self <- get_self ;;
  match value with
  | VStr s =>
      if url_validator (with_underscore_domain self) s then ret tt else fail BadUrl
  | _ => ret tt
  end.

Definition UrlField_clean : pyval -> M pyval :=
  RestCharField_clean_with UrlField_to_python UrlField_validate.

(** **** [HexField(RestCharField)] *)

Definition HexField_validate (value : pyval) : M unit :=
  RestCharField_validate value ;;;
  match value with
  | VStr s =>
      match PyRe.re_match 0 PyRe.hexfield_regex s with
      | Some _ => ret tt
      | None => fail HexOnly
      end
  | _ => ret tt
  end.

Definition HexField_clean : pyval -> M pyval :=
  RestCharField_clean_with RestCharField_to_python HexField_validate.

(** **** [UUIDField(RegexField)] *)

Definition UUIDField_init (required : bool) (initial : pyval) (flags : Z) : field :=
  mkField cUUIDField required initial (Some PyRe.uuid_regex) flags None [] VNone
          VNone true "" None VNone true None None.

(** **** [FileField(forms.FileField)] *)


(** [os.path.splitext(value.name)[1][1:].lower()] *)
Definition file_ext (name : string) : string :=
  PyStr.lower (PyStr.drop 1 (PyStr.splitext_ext name)).

Definition FileField_validate (value : pyval) : M unit :=
  Field_validate in_EMPTY_VALUES value ;;;
  self <- get_self ;;
  (match valid_extensions self with
   | Some exts =>
       if truthy value then
         match value with
         | VFile name _ =>
             let ext := file_ext name in
             if negb (existsb (String.eqb ext) exts)
             then raise (FileTypeError ext exts) else ret tt
         | _ => raise AttributeError
         end
       else ret tt
   | None => ret tt
   end) ;;;
  match size self with
  | Some limit =>
      if truthy value then
        match value with
        | VFile _ actual =>
            if limit <? actual then raise (FileSizeError limit actual) else ret tt
        | _ => raise AttributeError
        end
      else ret tt
  | None => ret tt
  end.

(** [FileField.clean(data, initial)]; [initial] is [VNone] when the
    argument is not passed. *)
Definition FileField_clean (data initial_arg : pyval) : M pyval :=
  self <- get_self ;;
  forms_FileField_clean
    (Field_clean forms_FileField_to_python FileField_validate
                 (Field_run_validators in_EMPTY_VALUES []))
    data
    (if negb (is_none initial_arg) then initial_arg else initial self).

(** *** [field.clean(value)]: the method of the object's class *)

Definition clean_method (c : field_class) : pyval -> M pyval :=
  match c with
  | cRestCharField => RestCharField_clean
  | cRegexField | cUUIDField => RegexField_clean
  | cRestChoiceField | cDateUnitField => RestChoiceField_clean
  | cRestIntegerField | cPositiveIntegerField | cIdField => RestIntegerField_clean
  | cRestFloatField => RestFloatField_clean
  | cTimestampField => TimestampField_clean
  | cDateTimeField => DateTimeField_clean is_datetime
  | cDateField => DateField_clean
  | cMonthField => MonthField_clean
  | cTimezoneField => TimezoneField_clean
  | cRestBooleanField => RestBooleanField_clean
  | cLowerCaseEmailField => LowerCaseEmailField_clean
  | cColorField => ColorField_clean
  | cTruncatedCharField => TruncatedCharField_clean
  | cJsonField => JsonField_clean
  | cArrayField => ArrayField_clean
  | cIdArrayField => IdArrayField_clean
  | cIdSetField => IdSetField_clean
  | cUrlField => UrlField_clean
  | cHexField => HexField_clean
  | cFileField => fun data => FileField_clean data VNone
  end.

(** [self.clean(value)]: the field object after the call, and the value
    returned or the exception raised. *)
Definition clean (self : field) (value : pyval) : field * result pyval :=
  clean_method (cls self) value self.

End Fields.

(* ================================================================== *)
(** ** Proof tools *)
(* ================================================================== *)

(** Unfolds the method bodies down to the monad's functions. *)
Ltac unfold_methods :=
  unfold clean, clean_method,
    RestBooleanField_clean, ColorField_clean, HexField_clean, RegexField_clean,
    TimezoneField_clean, TruncatedCharField_clean, JsonField_clean,
    ArrayField_clean, UrlField_clean, RestChoiceField_clean,
    RestCharField_clean, RestCharField_clean_with,
    RestIntegerField_clean, RestFloatField_clean,
    EmptyStringFixMixing_clean, InitialFixMixin_clean, Field_clean,
    RestCharField_validate, RestCharField_to_python, RestCharField_run_validators,
    EmptyStringFixMixing_validate, EmptyStringFixMixing_to_python,
    EmptyStringFixMixing_empty_values,
    Field_validate, Field_run_validators, Field_to_python,
    IntegerField_run_validators, CharField_validators in *.

Ltac unfold_monad :=
  unfold bind, ret, raise, fail, get_self, put_match, lift_option, call_on in *.

Ltac msimpl := repeat (progress (unfold_monad; simpl)).


(** *** The monad's equations *)

Lemma bind_returns {A B} (c : M A) (k : A -> M B) self self' a :
  c self = (self', inr a) -> bind c k self = k a self'.
Proof. intro H. unfold bind. rewrite H. reflexivity. Qed.

Lemma bind_raises {A B} (c : M A) (k : A -> M B) self self' e :
  c self = (self', inl e) -> bind c k self = (self', inl e).
Proof. intro H. unfold bind. rewrite H. reflexivity. Qed.

(** A computation that reads [self] and does not change it. *)
Definition reads {A} (c : M A) (f : field -> result A) : Prop :=
  forall self, c self = (self, f self).

Lemma bind_reads {A B} (c : M A) (k : A -> M B) f self :
  reads c f ->
  bind c k self = match f self with
                  | inr a => k a self
                  | inl e => (self, inl e)
                  end.
Proof. intro H. unfold bind. rewrite H. reflexivity. Qed.

(** *** The methods of [RestCharField] as functions of [self] *)

Definition required_check (value : pyval) (self : field) : result unit :=
  if is_none value && required self then inl (ValidationError [Required]) else inr tt.

Lemma RestCharField_validate_reads (value : pyval) :
  reads (RestCharField_validate value) (required_check value).
Proof.
  intro self. unfold_methods. unfold required_check. msimpl.
  destruct (is_none value && required self) eqn:E; msimpl; rewrite ?E; reflexivity.
Qed.

(** What [ProhibitNullCharactersValidator] says of a cleaned value. *)
Definition null_check (value : pyval) : result unit :=
  match value with
  | VStr s | VFile s _ =>
      if PyStr.contains (PyStr.chr 0) s then inl (ValidationError [NullCharacters])
      else inr tt
  | _ => inr tt
  end.

Lemma RestCharField_run_validators_reads (value : pyval) :
  reads (RestCharField_run_validators value)
        (fun _ => if is_none value then inr tt else null_check value).
Proof.
  intro self. unfold_methods. unfold null_check.
  destruct value; msimpl; try reflexivity;
    destruct (PyStr.contains _ _); reflexivity.
Qed.

(** [EmptyStringFixMixing.clean] on [None], for a [to_python] that keeps
    [None] and a [validate] that only reads. *)
Lemma EmptyStringFixMixing_clean_None to_python validate run_validators check self :
  to_python VNone self = (self, inr VNone) ->
  reads (validate VNone) check ->
  EmptyStringFixMixing_clean to_python validate run_validators VNone self =
  (self, match check self with
         | inl e => inl e
         | inr _ => inr (initial self)
         end).
Proof.
  intros Hp Hv. unfold EmptyStringFixMixing_clean. simpl.
  rewrite (bind_returns _ _ _ _ _ Hp).
  rewrite (bind_reads _ _ _ _ Hv).
  destruct (check self); reflexivity.
Qed.

(** [EmptyStringFixMixing.clean] on a value that is not [None]. *)
Lemma EmptyStringFixMixing_clean_value to_python validate run_validators value self :
  is_none value = false ->
  EmptyStringFixMixing_clean to_python validate run_validators value self =
  Field_clean to_python validate run_validators value self.
Proof. intro H. unfold EmptyStringFixMixing_clean. rewrite H. reflexivity. Qed.

(** [Field.clean] when the three methods only read [self]. *)
Lemma Field_clean_reads to_python validate run_validators value self a fv fr :
  to_python value self = (self, inr a) ->
  reads (validate a) fv ->
  reads (run_validators a) fr ->
  Field_clean to_python validate run_validators value self =
  (self, match fv self with
         | inl e => inl e
         | inr _ => match fr self with
                    | inl e => inl e
                    | inr _ => inr a
                    end
         end).
Proof.
  intros Hp Hv Hr. unfold Field_clean.
  rewrite (bind_returns _ _ _ _ _ Hp).
  rewrite (bind_reads _ _ _ _ Hv). destruct (fv self); [reflexivity|].
  rewrite (bind_reads _ _ _ _ Hr). destruct (fr self); reflexivity.
Qed.

(* ================================================================== *)
(** ** The boolean field *)
(* ================================================================== *)

(** The strings [RestBooleanField.to_python] reads as false: ['false'],
    ['0'] and [''] in any case. *)
Definition false_word (s : string) : bool :=
  let l := PyStr.lower s in
  String.eqb l "false" || String.eqb l "0" || String.eqb l "".

Lemma RestBooleanField_to_python_spec (value : pyval) (self : field) :
  RestBooleanField_to_python value self =
  (self, inr match value with
             | VNone => VNone
             | VStr s => VBool (negb (false_word s))
             | _ => VBool (truthy value)
             end).
Proof.
  destruct value; try reflexivity.
  unfold RestBooleanField_to_python, false_word.
  destruct (_ || _) eqn:E; [reflexivity|].
  unfold ret. do 3 f_equal. simpl.
  destruct s; [discriminate E | reflexivity].
Qed.

(** C2. [RestBooleanField.clean]: [None] raises the required error on a
    required field and gives [initial] otherwise ([None] when the field
    was built without one); a string is false exactly when it is 'false',
    '0' or '' in some case, any other string is true; every other value
    goes through [bool].  The field object is not changed. *)
Theorem RestBooleanField_clean_spec (self : field) (value : pyval) :
  RestBooleanField_clean value self =
  (self,
   match value with
   | VNone => if required self then inl (ValidationError [Required])
              else inr (initial self)
   | VStr s => inr (VBool (negb (false_word s)))
   | _ => inr (VBool (truthy value))
   end)
  /\ RestBooleanField_clean (VStr "true") self = (self, inr (VBool true))
  /\ RestBooleanField_clean (VStr "1") self = (self, inr (VBool true))
  /\ RestBooleanField_clean (VStr "anything_else") self = (self, inr (VBool true))
  /\ RestBooleanField_clean (VStr "false") self = (self, inr (VBool false))
  /\ RestBooleanField_clean (VStr "FaLsE") self = (self, inr (VBool false))
  /\ RestBooleanField_clean (VStr "0") self = (self, inr (VBool false))
  /\ RestBooleanField_clean (VStr "") self = (self, inr (VBool false))
  /\ RestBooleanField_clean VNone (new_field cRestBooleanField false VNone)
     = (new_field cRestBooleanField false VNone, inr VNone).
Proof.
  assert (H : forall v, RestBooleanField_clean v self =
    (self,
     match v with
     | VNone => if required self then inl (ValidationError [Required])
                else inr (initial self)
     | VStr s => inr (VBool (negb (false_word s)))
     | _ => inr (VBool (truthy v))
     end)).
  { intro v. unfold RestBooleanField_clean, RestCharField_clean_with.
    destruct v;
      try (rewrite EmptyStringFixMixing_clean_value by reflexivity;
           erewrite Field_clean_reads;
           [ | apply RestBooleanField_to_python_spec
             | apply RestCharField_validate_reads
             | apply RestCharField_run_validators_reads ];
           reflexivity).
    erewrite EmptyStringFixMixing_clean_None;
      [ | reflexivity | apply RestCharField_validate_reads ].
    unfold required_check. simpl. destruct (required self); reflexivity. }
  split; [apply H|].
  repeat split; try (rewrite H; reflexivity).
Qed.

(* ================================================================== *)
(** ** An instance of the outside world, for closed examples

    The theorems hold for every [json.loads], [jsonschema.validate],
    [strptime], clock and so on.  A closed example needs one of each:
    a JSON reader for arrays of integers and the empty object, a schema
    checker for the keywords [ArrayField] writes, and a fixed clock. *)
(* ================================================================== *)

Module Sample.

(** The integers of ["1, 2, 3"]. *)
Definition ints_of_items (s : string) : option (list pyval) :=
  if String.eqb (PyStr.strip s) "" then Some []
  else ints_of (map PyStr.strip (PyStr.split "," s)).

Fixpoint last_char (s : string) : option ascii :=
  match s with
  | EmptyString => None
  | String c EmptyString => Some c
  | String _ t => last_char t
  end.

(** [s[1:-1]] *)
Definition inner (s : string) : string :=
  PyStr.take (Nat.sub (String.length s) 2) (PyStr.drop 1 s).

Definition json_loads (s : string) : option pyval :=
  let t := PyStr.strip s in
  if PyStr.startswith "[" t && PyStr.endswith "]" t && Nat.leb 2 (String.length t)
  then option_map VList (ints_of_items (inner t))
  else if String.eqb t "{}" then Some (VDict []) else None.

Definition item_ok (type : pyval) (v : pyval) : bool :=
  match type, v with
  | VStr "integer", VInt _ => true
  | VStr "integer", _ => false
  | VStr "string", VStr _ => true
  | VStr "string", _ => false
  | _, _ => true
  end.

Definition jsonschema_validate (value schema : pyval) : option string :=
  match schema with
  | VDict d =>
      match dict_get d "type", value with
      | VStr "array", VList l =>
          let n := Z.of_nat (List.length l) in
          let too_short := match dict_get d "minItems" with
                           | VInt k => n <? k
                           | _ => false
                           end in
          let too_long := match dict_get d "maxItems" with
                          | VInt k => k <? n
                          | _ => false
                          end in
          let bad_item := match dict_get d "items" with
                          | VDict i => negb (forallb (item_ok (dict_get i "type")) l)
                          | _ => false
                          end in
          if too_short then Some "too short"
          else if too_long then Some "too long"
          else if bad_item then Some "wrong item type"
          else None
      | VStr "array", _ => Some "not of type array"
      | _, _ => None
      end
  | _ => None
  end.

Definition py_repr (v : pyval) : string := "".
Definition float_of_string (s : string) : option PyFloat.float :=
  option_map PyFloat.of_Z (PyStr.int_of_string s).
Definition strptime (s mask : string) : option PyDate.datetime := None.
Definition all_timezones : list string := ["UTC"; "Europe/Moscow"].
Definition url_validator (underscore : bool) (s : string) : bool :=
  PyStr.startswith "h" s.
Definition validate_email (v : pyval) : bool :=
  match v with VStr s => PyStr.contains "@" s | _ => false end.
(** 2026-11-03T00:00:00Z *)
Definition now_timestamp : PyFloat.float := PyFloat.of_Z 1793664000.
Definition ID_FIELD_MAX_VALUE : pyval := VNone.

(** [field.clean(value)] in this world. *)
Definition clean : field -> pyval -> field * result pyval :=
  clean py_repr float_of_string json_loads jsonschema_validate strptime
        all_timezones url_validator validate_email now_timestamp ID_FIELD_MAX_VALUE.

End Sample.

(* ================================================================== *)
(** ** Cleaning an absent value *)
(* ================================================================== *)



(** A computation that leaves the field object as it found it. *)
Definition keeps_self {A} (c : M A) : Prop := forall self, fst (c self) = self.

Lemma keeps_self_bind {A B} (c : M A) (k : A -> M B) :
  keeps_self c -> (forall a, keeps_self (k a)) -> keeps_self (bind c k).
Proof.
  intros Hc Hk self. unfold bind. specialize (Hc self).
  destruct (c self) as [self' [e|a]]; simpl in *; subst; [reflexivity | apply Hk].
Qed.

Lemma keeps_self_ret {A} (a : A) : keeps_self (ret a).
Proof. intro; reflexivity. Qed.

Lemma keeps_self_raise {A} (e : exn) : keeps_self (@raise A e).
Proof. intro; reflexivity. Qed.

Lemma keeps_self_get : keeps_self get_self.
Proof. intro; reflexivity. Qed.

Lemma keeps_self_call_on {A} obj (c : M A) : keeps_self (call_on obj c).
Proof. intro; reflexivity. Qed.

Lemma keeps_self_mapM {A B} (f : A -> M B) (l : list A) :
  (forall a, keeps_self (f a)) -> keeps_self (mapM f l).
Proof.
  intro Hf. induction l as [|a t IH]; simpl.
  - apply keeps_self_ret.
  - apply keeps_self_bind; [apply Hf | intro b].
    apply keeps_self_bind; [apply IH | intro r; apply keeps_self_ret].
Qed.

Lemma keeps_self_FloatField_to_python float_of_string value :
  keeps_self (FloatField_to_python float_of_string value).
Proof.
  intro self. unfold FloatField_to_python, Field_to_python, bind, ret.
  destruct (in_EMPTY_VALUES value); [reflexivity|].
  unfold py_float. destruct value; try reflexivity.
  - destruct (PyFloat.isfinite _); reflexivity.
  - destruct (float_of_string s); reflexivity.
Qed.

(** Splits a goal [keeps_self c] along the structure of [c]. *)
Ltac keeps_step :=
  lazymatch goal with
  | |- keeps_self (ret _) => apply keeps_self_ret
  | |- keeps_self (raise _) => apply keeps_self_raise
  | |- keeps_self (fail _) => apply keeps_self_raise
  | |- keeps_self get_self => apply keeps_self_get
  | |- keeps_self (call_on _ _) => apply keeps_self_call_on
  | |- keeps_self (FloatField_to_python _ _) => apply keeps_self_FloatField_to_python
  | |- keeps_self (bind _ _) => apply keeps_self_bind; [ | intro ]
  | |- keeps_self (mapM _ _) => apply keeps_self_mapM; intro
  | |- keeps_self (lift_option ?o _) => destruct o; simpl
  | |- keeps_self (if ?b then _ else _) => destruct b
  | |- keeps_self (match ?x with _ => _ end) => destruct x
  end; cbv beta zeta.

Ltac keeps := cbv beta zeta; repeat keeps_step.

Section CleanNone.
Variable py_repr : pyval -> string.
Variable float_of_string : string -> option PyFloat.float.
Variable json_loads : string -> option pyval.
Variable jsonschema_validate : pyval -> pyval -> option string.
Variable strptime : string -> string -> option PyDate.datetime.
Variable all_timezones : list string.
Variable url_validator : bool -> string -> bool.
Variable validate_email : pyval -> bool.
Variable now_timestamp : PyFloat.float.
Variable ID_FIELD_MAX_VALUE : pyval.


(** A [validate] that runs the required test of [RestCharField] and then
    finds nothing to check in [None]. *)
Ltac validate_None super_reads :=
  let self := fresh "self" in
  intro self;
  rewrite (bind_reads _ _ _ _ super_reads);
  unfold required_check; simpl;
  destruct (required self); [reflexivity|];
  msimpl; rewrite ?andb_false_r;
  repeat match goal with
         | |- context [match ?x with _ => _ end] => destruct x; msimpl
         end; reflexivity.

Lemma RegexField_validate_None :
  reads (RegexField_validate py_repr VNone) (required_check VNone).
Proof.
  unfold RegexField_validate.
  validate_None (RestCharField_validate_reads VNone).
Qed.





Lemma JsonField_validate_None :
  reads (JsonField_validate jsonschema_validate VNone) (required_check VNone).
Proof.
  unfold JsonField_validate.
  validate_None (RestCharField_validate_reads VNone).
Qed.























End CleanNone.


(* ================================================================== *)
(** ** String fields: the empty string, the hex field *)
(* ================================================================== *)

Section StringFields.
Variable py_repr : pyval -> string.

Lemma RestCharField_to_python_str (s : string) self :
  RestCharField_to_python py_repr (VStr s) self = (self, inr (VStr (PyStr.strip s))).
Proof. reflexivity. Qed.

(** [clean] of a string in a subclass of [RestCharField] that keeps
    [to_python] and whose [validate] only reads. *)
Lemma RestCharField_clean_with_str validate check (s : string) self :
  reads (validate (VStr (PyStr.strip s))) check ->
  RestCharField_clean_with (RestCharField_to_python py_repr) validate (VStr s) self =
  (self, match check self with
         | inl e => inl e
         | inr _ => match null_check (VStr (PyStr.strip s)) with
                    | inl e => inl e
                    | inr _ => inr (VStr (PyStr.strip s))
                    end
         end).
Proof.
  intro Hv. unfold RestCharField_clean_with.
  rewrite EmptyStringFixMixing_clean_value by reflexivity.
  erewrite Field_clean_reads;
    [ | apply RestCharField_to_python_str | apply Hv
      | apply RestCharField_run_validators_reads ].
  reflexivity.
Qed.

(** A star matches every string, if only the empty prefix. *)
Lemma re_match_Star flags r s : PyRe.re_match flags (PyRe.Star r) s <> None.
Proof.
  unfold PyRe.re_match. simpl.
  assert (H : forall body fuel p, PyRe.star body fuel p <> []).
  { intros body fuel p. destruct fuel; simpl; [discriminate|].
    intro E. apply app_eq_nil in E. destruct E as [_ E]. discriminate. }
  specialize (H (PyRe.run flags r) (String.length s) (None, s)).
  destruct (PyRe.star _ _ _) as [|[? ?] ?]; [contradiction | discriminate].
Qed.

Lemma HexField_validate_str (s : string) :
  reads (HexField_validate (VStr s)) (fun _ => inr tt).
Proof.
  intro self. unfold HexField_validate.
  rewrite (bind_reads _ _ _ _ (RestCharField_validate_reads _)).
  unfold required_check. simpl.
  pose proof (re_match_Star 0 (PyRe.Class [("a", "z"); ("0", "9")]%char) s) as H.
  unfold PyRe.hexfield_regex.
  destruct (PyRe.re_match _ _ _); [reflexivity | contradiction].
Qed.

(** The hex field accepts every string: the pattern is not anchored and
    may match nothing, so [re.match] always finds a match. *)
Lemma HexField_clean_str (s : string) self :
  HexField_clean py_repr (VStr s) self =
  (self, match null_check (VStr (PyStr.strip s)) with
         | inl e => inl e
         | inr _ => inr (VStr (PyStr.strip s))
         end).
Proof.
  unfold HexField_clean.
  rewrite (RestCharField_clean_with_str _ _ _ _ (HexField_validate_str _)).
  reflexivity.
Qed.

(** C6, what the code does: [HexField().clean] returns strings that are
    not lowercase hexadecimal, here "XYZ!" and "ghi", where the claim has
    it raise. *)
Theorem HexField_accepts_non_hex self :
  HexField_clean py_repr (VStr "XYZ!") self = (self, inr (VStr "XYZ!"))
  /\ HexField_clean py_repr (VStr "ghi") self = (self, inr (VStr "ghi")).
Proof. split; rewrite HexField_clean_str; reflexivity. Qed.

Lemma ColorField_validate_str (s : string) :
  reads (ColorField_validate (VStr s))
        (fun _ => if String.eqb s "" then inr tt
                  else match PyRe.re_match 0 PyRe.color_regex s with
                       | Some _ => inr tt
                       | None => inl (ValidationError [BadColor (VStr s)])
                       end).
Proof.
  intro self. unfold ColorField_validate.
  rewrite (bind_reads _ _ _ _ (RestCharField_validate_reads _)).
  unfold required_check. simpl.
  destruct (String.eqb s ""); simpl; [reflexivity|].
  destruct (PyRe.re_match _ _ _); reflexivity.
Qed.

Lemma TimezoneField_validate_empty all_timezones :
  reads (TimezoneField_validate all_timezones (VStr "")) (fun _ => inr tt).
Proof.
  intro self. unfold TimezoneField_validate.
  rewrite (bind_reads _ _ _ _ (RestCharField_validate_reads _)).
  reflexivity.
Qed.

(** [RegexField.clean] of the empty string: the pattern is tried. *)
Lemma RegexField_clean_empty self :
  RegexField_clean py_repr (VStr "") self =
  match regex self with
  | None => (self, inr (VStr ""))
  | Some r =>
      match PyRe.re_match (flags self) r "" with
      | Some m => (set_match self (Some m), inr (VStr ""))
      | None => (set_match self None, inl (ValidationError [RegexMismatch r]))
      end
  end.
Proof.
  unfold RegexField_clean, RestCharField_clean_with.
  rewrite EmptyStringFixMixing_clean_value by reflexivity.
  unfold Field_clean.
  rewrite (bind_returns _ _ _ _ _ (RestCharField_to_python_str "" self)).
  change (PyStr.strip "") with "".
  unfold RegexField_validate.
  unfold bind at 1. unfold bind at 1.
  rewrite (RestCharField_validate_reads (VStr "") self).
  unfold required_check. simpl. msimpl.
  destruct (regex self) as [r|]; msimpl; [|reflexivity].
  destruct (PyRe.re_match (flags self) r "") as [m|]; reflexivity.
Qed.

(** C10 (amended).  The color field returns a provided [''] as it is,
    required or not, though [''] does not match its pattern: its check
    runs on truthy values only.  So do the hex field, the timezone field
    and the plain string field.  A regex field (and so the UUID field)
    does try its pattern on ['']: it returns [''] when the pattern
    matches it and raises when not. *)
Theorem clean_empty_string all_timezones self :
  ColorField_clean py_repr (VStr "") self = (self, inr (VStr ""))
  /\ PyRe.re_match 0 PyRe.color_regex "" = None
  /\ HexField_clean py_repr (VStr "") self = (self, inr (VStr ""))
  /\ TimezoneField_clean py_repr all_timezones (VStr "") self = (self, inr (VStr ""))
  /\ RestCharField_clean py_repr (VStr "") self = (self, inr (VStr ""))
  /\ RegexField_clean py_repr (VStr "") self =
     match regex self with
     | None => (self, inr (VStr ""))
     | Some r =>
         match PyRe.re_match (flags self) r "" with
         | Some m => (set_match self (Some m), inr (VStr ""))
         | None => (set_match self None, inl (ValidationError [RegexMismatch r]))
         end
     end.
Proof.
  refine (conj _ (conj _ (conj _ (conj _ (conj _ _))))).
  - unfold ColorField_clean.
    rewrite (RestCharField_clean_with_str _ _ _ _ (ColorField_validate_str _)).
    reflexivity.
  - reflexivity.
  - rewrite HexField_clean_str. reflexivity.
  - unfold TimezoneField_clean.
    rewrite (RestCharField_clean_with_str _ _ "" _ (TimezoneField_validate_empty _)).
    reflexivity.
  - unfold RestCharField_clean.
    change (EmptyStringFixMixing_clean (RestCharField_to_python py_repr)
              RestCharField_validate RestCharField_run_validators)
      with (RestCharField_clean_with (RestCharField_to_python py_repr)
              RestCharField_validate).
    rewrite (RestCharField_clean_with_str _ _ "" _ (RestCharField_validate_reads _)).
    reflexivity.
  - apply RegexField_clean_empty.
Qed.

End StringFields.

(** C10, the claim as it stands fails for another pattern-checking string
    field on the same mixin: a required UUID field raises on ['']. *)
Lemma UUIDField_rejects_empty_string :
  snd (Sample.clean (UUIDField_init true VNone 0) (VStr ""))
  = inl (ValidationError [RegexMismatch PyRe.uuid_regex]).
Proof. reflexivity. Qed.

(* ================================================================== *)
(** ** The file field *)
(* ================================================================== *)

(** [FileField.clean] of an uploaded file, every case: a file without a
    name counts as no file; an empty file is refused by Django; then the
    extension, then the size. *)
Lemma FileField_clean_file (self : field) (name : string) (sz : Z) :
  FileField_clean (VFile name sz) VNone self =
  (self,
   if String.eqb name "" then
     if truthy (initial self) then inr (initial self)
     else inl (ValidationError [Invalid])
   else if sz =? 0 then inl (ValidationError [FileEmpty])
   else
     match valid_extensions self with
     | Some exts =>
         if existsb (String.eqb (file_ext name)) exts then
           match size self with
           | Some limit =>
               if limit <? sz then inl (FileSizeError limit sz)
               else inr (VFile name sz)
           | None => inr (VFile name sz)
           end
         else inl (FileTypeError (file_ext name) exts)
     | None =>
         match size self with
         | Some limit =>
             if limit <? sz then inl (FileSizeError limit sz)
             else inr (VFile name sz)
         | None => inr (VFile name sz)
         end
     end).
Proof.
  unfold FileField_clean, forms_FileField_clean, Field_clean,
    forms_FileField_to_python, FileField_validate, Field_validate,
    Field_run_validators.
  msimpl.
  destruct (String.eqb name "") eqn:En; msimpl.
  - destruct (truthy (initial self)); msimpl; reflexivity.
  - rewrite ?En. destruct (sz =? 0); msimpl; [reflexivity|].
    destruct (valid_extensions self) as [exts|]; msimpl; rewrite ?En; msimpl.
    + destruct (existsb _ exts); msimpl; [|reflexivity].
      destruct (size self) as [limit|]; msimpl; rewrite ?En; msimpl; [|reflexivity].
      destruct (limit <? sz); reflexivity.
    + destruct (size self) as [limit|]; msimpl; rewrite ?En; msimpl; [|reflexivity].
      destruct (limit <? sz); reflexivity.
Qed.


(** [FileField(valid_extensions=['pdf', 'png'], max_size=100)] *)
Definition pdf_png_field : field :=
  mkField cFileField true VNone None 0 None [] VNone VNone true "" None VNone true
          (Some ["pdf"; "png"]) (Some 100).



(* ================================================================== *)
(** ** The array field *)
(* ================================================================== *)


(** [ArrayField()] and [ArrayField(item_schema={'type': 'integer'})], with
    any [required] and [initial]. *)
Definition plain_array (required : bool) (initial : pyval) : field :=
  ArrayField_init cArrayField required initial VNone (VInt 0) VNone.

Section ArrayField.
Variable json_loads : string -> option pyval.
Variable jsonschema_validate : pyval -> pyval -> option string.

(** The schema test of [JsonField.validate] on a value that is there. *)
Definition schema_check (value : pyval) (self : field) : result unit :=
  if truthy (_json_schema self) then
    match jsonschema_validate value (_json_schema self) with
    | Some message => inl (ValidationError [Schema message])
    | None => inr tt
    end
  else inr tt.

Lemma JsonField_validate_value (value : pyval) :
  is_none value = false ->
  reads (JsonField_validate jsonschema_validate value) (schema_check value).
Proof.
  intros Hv self. unfold JsonField_validate.
  rewrite (bind_reads _ _ _ _ (RestCharField_validate_reads _)).
  unfold required_check, schema_check. rewrite Hv. msimpl.
  rewrite andb_true_r.
  destruct (truthy (_json_schema self)); [|reflexivity].
  destruct (jsonschema_validate _ _); reflexivity.
Qed.

(** [ArrayField.clean] of a value that is not [None], once [to_python] has
    given the list [l]. *)
Lemma ArrayField_clean_list (value : pyval) (l : list pyval) self :
  is_none value = false ->
  ArrayField_to_python json_loads value self = (self, inr (VList l)) ->
  ArrayField_clean json_loads jsonschema_validate value self =
  (self, match schema_check (VList l) self with
         | inl e => inl e
         | inr _ => inr (VList l)
         end).
Proof.
  intros Hv Hp. unfold ArrayField_clean, RestCharField_clean_with.
  rewrite EmptyStringFixMixing_clean_value by exact Hv.
  erewrite Field_clean_reads;
    [ | exact Hp | apply JsonField_validate_value; reflexivity
      | apply RestCharField_run_validators_reads ].
  destruct (schema_check (VList l) self); reflexivity.
Qed.


(** The comma-separated form, for a field built by [ArrayField.__init__]:
    strings, or integers when the item schema has the type 'integer'. *)
Definition is_plain (s : string) : bool :=
  negb (PyStr.startswith "[" s || PyStr.endswith "]" s)
  && negb (PyStr.startswith "{" s && PyStr.endswith "}" s).


Lemma ArrayField_to_python_strings (s : string) min_items max_items self :
  is_plain s = true ->
  _json_schema self = array_schema VNone min_items max_items ->
  ArrayField_to_python json_loads (VStr s) self =
  (self, inr (VList (map VStr (PyStr.split "," s)))).
Proof.
  unfold is_plain. intros Hs Hj.
  apply andb_prop in Hs. destruct Hs as [H1 H2].
  apply negb_true_iff in H1. apply negb_true_iff in H2.
  unfold ArrayField_to_python. rewrite H1, H2. msimpl. rewrite Hj.
  unfold array_schema.
  destruct (truthy max_items); reflexivity.
Qed.


End ArrayField.


(* ================================================================== *)
(** ** Patterns made of single characters: the UUID pattern *)
(* ================================================================== *)

(** One character of a pattern: a literal or a class. *)
Inductive atom : Type :=
| ALit (c : ascii)
| ASet (ranges : list (ascii * ascii)).

Definition atom_regex (a : atom) : PyRe.regex :=
  match a with
  | ALit c => PyRe.Char c
  | ASet ranges => PyRe.Class ranges
  end.

(** The atoms in a row, then [k]. *)
Definition atoms_then (atoms : list atom) (k : PyRe.regex) : PyRe.regex :=
  fold_right (fun a r => PyRe.Seq (atom_regex a) r) k atoms.

Definition atom_ok (flags : Z) (a : atom) (c : ascii) : bool :=
  match a with
  | ALit d => PyRe.char_ok flags d c
  | ASet ranges => PyRe.class_ok flags ranges c
  end.

(** Reads the atoms off the front of the subject. *)
Fixpoint eat (flags : Z) (atoms : list atom) (p : PyRe.pos) : option PyRe.pos :=
  match atoms with
  | [] => Some p
  | a :: rest =>
      match snd p with
      | String c t => if atom_ok flags a c then eat flags rest (Some c, t) else None
      | EmptyString => None
      end
  end.

(** The whole string is the atoms, one character each. *)
Fixpoint has_shape (flags : Z) (atoms : list atom) (s : string) : bool :=
  match atoms, s with
  | [], EmptyString => true
  | a :: rest, String c t => atom_ok flags a c && has_shape flags rest t
  | _, _ => false
  end.

Section Linear.
Variable flags : Z.

Lemma flat_map_one {A B} (f : A -> list B) (a : A) : flat_map f [a] = f a.
Proof. simpl. apply app_nil_r. Qed.

Lemma flat_map_twice {A B C} (f : A -> list B) (g : B -> list C) (l : list A) :
  flat_map g (flat_map f l) = flat_map (fun a => flat_map g (f a)) l.
Proof.
  induction l as [|a l IH]; simpl; [reflexivity|].
  rewrite flat_map_app, IH. reflexivity.
Qed.

(** Two patterns that end at the same positions from everywhere. *)
Definition same_run (r r' : PyRe.regex) : Prop :=
  forall p, PyRe.run flags r p = PyRe.run flags r' p.

Lemma same_run_refl r : same_run r r.
Proof. intro; reflexivity. Qed.

Lemma same_run_trans r1 r2 r3 : same_run r1 r2 -> same_run r2 r3 -> same_run r1 r3.
Proof. intros H1 H2 p. rewrite H1. apply H2. Qed.

Lemma same_run_Seq a k k' : same_run k k' -> same_run (PyRe.Seq a k) (PyRe.Seq a k').
Proof. intros H p. simpl. apply flat_map_ext. exact H. Qed.

Lemma same_run_assoc a b k :
  same_run (PyRe.Seq (PyRe.Seq a b) k) (PyRe.Seq a (PyRe.Seq b k)).
Proof. intro p. simpl. apply flat_map_twice. Qed.

Lemma same_run_Eps k : same_run (PyRe.Seq PyRe.Eps k) k.
Proof. intro p. simpl. apply app_nil_r. Qed.

(** [r{n}] of a one-character [r] is [n] atoms. *)
Lemma same_run_Rep n a k k' :
  same_run k k' ->
  same_run (PyRe.Seq (PyRe.Rep n (atom_regex a)) k) (atoms_then (repeat a n) k').
Proof.
  intro H. induction n as [|n IH]; simpl.
  - eapply same_run_trans; [apply same_run_Eps | exact H].
  - eapply same_run_trans; [apply same_run_assoc|].
    apply same_run_Seq. exact IH.
Qed.


Lemma run_Bol_start k s :
  PyRe.run flags (PyRe.Seq PyRe.Bol k) (None, s) = PyRe.run flags k (None, s).
Proof. simpl. apply app_nil_r. Qed.

(** The matcher on a row of atoms: it reads them off, then goes on. *)
Lemma run_atoms_then atoms k p :
  PyRe.run flags (atoms_then atoms k) p =
  match eat flags atoms p with
  | Some q => PyRe.run flags k q
  | None => []
  end.
Proof.
  revert p. induction atoms as [|a atoms IH]; intro p; simpl; [reflexivity|].
  destruct p as [prev s].
  destruct a; simpl; unfold PyRe.step_char; simpl;
    (destruct s as [|ch t]; [reflexivity|]);
    match goal with
    | |- context [if ?b then _ else _] => destruct b
    end; simpl; rewrite ?app_nil_r; auto.
Qed.

(** What is left after the atoms is the end of the subject. *)
Lemma eat_last atoms p q :
  eat flags atoms p = Some q -> snd q <> EmptyString ->
  Sample.last_char (snd p) = Sample.last_char (snd q).
Proof.
  revert p. induction atoms as [|a atoms IH]; intros [prev s] H Hq; simpl in H.
  - injection H as <-. reflexivity.
  - destruct s as [|c t]; [discriminate|].
    destruct (atom_ok flags a c); [|discriminate].
    specialize (IH _ H Hq). simpl in IH. simpl.
    destruct t as [|d t']; [|exact IH].
    destruct atoms; simpl in H; [injection H as <-; contradiction | discriminate].
Qed.

Lemma eat_length atoms p q :
  eat flags atoms p = Some q ->
  String.length (snd p) = (List.length atoms + String.length (snd q))%nat.
Proof.
  revert p. induction atoms as [|a atoms IH]; intros [prev s] H; simpl in H.
  - injection H as <-. reflexivity.
  - destruct s as [|c t]; [discriminate|].
    destruct (atom_ok flags a c); [|discriminate].
    specialize (IH _ H). simpl in *. rewrite IH. reflexivity.
Qed.

Lemma eat_has_shape atoms prev s :
  has_shape flags atoms s =
  match eat flags atoms (prev, s) with
  | Some (_, EmptyString) => true
  | _ => false
  end.
Proof.
  revert prev s. induction atoms as [|a atoms IH]; intros prev s; simpl.
  - destruct s; reflexivity.
  - destruct s as [|c t]; [reflexivity|].
    destruct (atom_ok flags a c); simpl; [apply IH | reflexivity].
Qed.

End Linear.

Lemma take_all (s : string) : PyStr.take (String.length s) s = s.
Proof. induction s as [|c t IH]; simpl; [reflexivity | rewrite IH; reflexivity]. Qed.

(** [rstrip] leaves no blank at the end. *)
Lemma rstrip_last (s : string) (c : ascii) :
  Sample.last_char (PyStr.rstrip s) = Some c -> PyStr.isspace c = false.
Proof.
  induction s as [|d t IH]; simpl; [discriminate|].
  destruct (PyStr.rstrip t) as [|e t'] eqn:E.
  - destruct (PyStr.isspace d) eqn:Ed; simpl; [discriminate|].
    intro H. injection H as <-. exact Ed.
  - simpl. exact IH.
Qed.

(** The atoms of the UUID pattern: 8-4-4-4-12 lowercase hexadecimal
    digits between hyphens. *)
Definition hex_atom : atom := ASet [("0", "9"); ("a", "f")]%char.
Definition uuid_atoms : list atom :=
  (repeat hex_atom 8 ++ [ALit "-"] ++ repeat hex_atom 4 ++ [ALit "-"]
   ++ repeat hex_atom 4 ++ [ALit "-"] ++ repeat hex_atom 4 ++ [ALit "-"]
   ++ repeat hex_atom 12)%list.




(** A character that is neither a blank nor NUL. *)
Definition plain_char (c : ascii) : bool :=
  negb (PyStr.isspace c) && negb (Ascii.eqb (PyStr.chr 0) c).

Fixpoint all_plain (s : string) : bool :=
  match s with
  | EmptyString => true
  | String c t => plain_char c && all_plain t
  end.

Lemma uuid_atom_plain (a : atom) (c : ascii) :
  In a uuid_atoms -> atom_ok 0 a c = true -> plain_char c = true.
Proof.
  intros Ha H.
  assert (E : a = hex_atom \/ a = ALit "-").
  { unfold uuid_atoms in Ha. simpl in Ha.
    repeat (destruct Ha as [Ha|Ha]; [auto|]). contradiction. }
  destruct E; subst a; revert H;
    destruct c as [[] [] [] [] [] [] [] []]; vm_compute;
    intro H; try reflexivity; discriminate H.
Qed.

Lemma has_shape_all_plain (atoms : list atom) (s : string) :
  (forall a c, In a atoms -> atom_ok 0 a c = true -> plain_char c = true) ->
  has_shape 0 atoms s = true -> all_plain s = true.
Proof.
  revert s. induction atoms as [|a atoms IH]; intros s Hp H.
  - destruct s; [reflexivity | discriminate].
  - destruct s as [|c t]; [discriminate|]. simpl in *.
    apply andb_prop in H. destruct H as [Hc Ht].
    rewrite (Hp a c (or_introl eq_refl) Hc). simpl.
    apply IH; [|exact Ht]. intros a' c' Hin. apply Hp. right. exact Hin.
Qed.

Lemma all_plain_no_nul (s : string) :
  all_plain s = true -> PyStr.contains (PyStr.chr 0) s = false.
Proof.
  induction s as [|c t IH]; cbn [PyStr.contains all_plain]; [reflexivity|].
  intro H. apply andb_prop in H. destruct H as [Hc Ht].
  unfold plain_char in Hc. apply andb_prop in Hc. destruct Hc as [_ Hn].
  apply negb_true_iff in Hn. rewrite Hn. apply IH. exact Ht.
Qed.

Lemma all_plain_rstrip (s : string) : all_plain s = true -> PyStr.rstrip s = s.
Proof.
  induction s as [|c t IH]; simpl; [reflexivity|].
  intro H. apply andb_prop in H. destruct H as [Hc Ht].
  rewrite (IH Ht). unfold plain_char in Hc. apply andb_prop in Hc.
  destruct Hc as [Hs _]. apply negb_true_iff in Hs.
  destruct t; [rewrite Hs|]; reflexivity.
Qed.

Lemma all_plain_strip (s : string) : all_plain s = true -> PyStr.strip s = s.
Proof.
  intro H. unfold PyStr.strip.
  assert (L : PyStr.lstrip s = s).
  { destruct s as [|c t]; [reflexivity|]. simpl in *.
    apply andb_prop in H. destruct H as [Hc _].
    unfold plain_char in Hc. apply andb_prop in Hc. destruct Hc as [Hs _].
    apply negb_true_iff in Hs. rewrite Hs. reflexivity. }
  rewrite L. apply all_plain_rstrip. exact H.
Qed.


(** [RegexField.validate] of a string on a field with a pattern: the
    match is stored, found or not. *)
Lemma RegexField_validate_str (py_repr : pyval -> string) (r : PyRe.regex)
      (t : string) (self : field) :
  regex self = Some r ->
  RegexField_validate py_repr (VStr t) self =
  (set_match self (PyRe.re_match (flags self) r t),
   match PyRe.re_match (flags self) r t with
   | Some _ => inr tt
   | None => inl (ValidationError [RegexMismatch r])
   end).
Proof.
  intro Hr. unfold RegexField_validate.
  rewrite (bind_reads _ _ _ _ (RestCharField_validate_reads _)).
  unfold required_check. simpl. unfold bind at 1, get_self. rewrite Hr.
  simpl. unfold bind, put_match.
  destruct (PyRe.re_match (flags self) r t); reflexivity.
Qed.

(** [RegexField.clean] of a string on a field with a pattern. *)
Lemma RegexField_clean_str (py_repr : pyval -> string) (r : PyRe.regex)
      (s : string) (self : field) :
  regex self = Some r ->
  RegexField_clean py_repr (VStr s) self =
  let t := PyStr.strip s in
  (set_match self (PyRe.re_match (flags self) r t),
   match PyRe.re_match (flags self) r t with
   | Some _ => match null_check (VStr t) with
               | inl e => inl e
               | inr _ => inr (VStr t)
               end
   | None => inl (ValidationError [RegexMismatch r])
   end).
Proof.
  intro Hr. unfold RegexField_clean, RestCharField_clean_with.
  rewrite EmptyStringFixMixing_clean_value by reflexivity.
  unfold Field_clean.
  rewrite (bind_returns _ _ _ _ _ (RestCharField_to_python_str py_repr s self)).
  cbv zeta. set (t := PyStr.strip s).
  unfold bind at 1. rewrite (RegexField_validate_str py_repr r t self Hr).
  destruct (PyRe.re_match (flags self) r t); [|reflexivity].
  rewrite (bind_reads _ _ _ _ (RestCharField_run_validators_reads _)).
  simpl is_none. cbv iota.
  destruct (null_check (VStr t)); reflexivity.
Qed.




(* ================================================================== *)
(** ** What a call of [clean] changes and what it depends on *)
(* ================================================================== *)

(** A computation that changes no attribute of the field object but
    [_match], and whose outcome does not depend on [_match]. *)
Definition steady {A} (c : M A) : Prop :=
  forall self, exists r, forall m, exists m',
        c (set_match self m) = (set_match self m', r).

Lemma set_match_self (self : field) : set_match self (_match self) = self.
Proof. destruct self; reflexivity. Qed.

Lemma steady_ret {A} (a : A) : steady (ret a).
Proof. intro self. exists (inr a). intro m. exists m. reflexivity. Qed.

Lemma steady_raise {A} (e : exn) : steady (@raise A e).
Proof. intro self. exists (inl e). intro m. exists m. reflexivity. Qed.

Lemma steady_put (x : option string) : steady (put_match x).
Proof. intro self. exists (inr tt). intro m. exists x. reflexivity. Qed.

Lemma steady_call_on {A} obj (c : M A) : steady (call_on obj c).
Proof. intro self. exists (snd (c obj)). intro m. exists m. reflexivity. Qed.

Lemma steady_bind {A B} (c : M A) (k : A -> M B) :
  steady c -> (forall a, steady (k a)) -> steady (bind c k).
Proof.
  intros Hc Hk self. destruct (Hc self) as [[e|a] Hr].
  - exists (inl e). intro m. destruct (Hr m) as [m' E]. exists m'.
    unfold bind. rewrite E. reflexivity.
  - destruct (Hk a self) as [r' Hr']. exists r'. intro m.
    destruct (Hr m) as [m' E]. destruct (Hr' m') as [m'' E'].
    exists m''. unfold bind. rewrite E. exact E'.
Qed.

(** Reading [self]: what follows may use every attribute but [_match]. *)
Lemma steady_get_bind {B} (k : field -> M B) :
  (forall self m, k (set_match self m) = k self) ->
  (forall self, steady (k self)) ->
  steady (bind get_self k).
Proof.
  intros Hk Hs self. destruct (Hs self self) as [r Hr]. exists r. intro m.
  destruct (Hr m) as [m' E]. exists m'.
  unfold bind, get_self. rewrite Hk. exact E.
Qed.

Lemma steady_mapM {A B} (f : A -> M B) (l : list A) :
  (forall a, steady (f a)) -> steady (mapM f l).
Proof.
  intro Hf. induction l as [|a t IH]; simpl.
  - apply steady_ret.
  - apply steady_bind; [apply Hf | intro b].
    apply steady_bind; [apply IH | intro r; apply steady_ret].
Qed.

(** [try: float(value) except (ValueError, TypeError)] in
    [FloatField.to_python]. *)
Lemma steady_FloatField_to_python float_of_string value :
  steady (FloatField_to_python float_of_string value).
Proof.
  unfold FloatField_to_python, Field_to_python.
  apply steady_bind; [apply steady_ret | intro a].
  destruct (in_EMPTY_VALUES a); [apply steady_ret|].
  intro self.
  assert (P : exists r, forall s, py_float float_of_string a s = (s, r)).
  { unfold py_float. destruct a; try (eexists; intro; reflexivity).
    - destruct (PyFloat.isfinite _); eexists; intro; reflexivity.
    - destruct (float_of_string s); eexists; intro; reflexivity. }
  destruct P as [r P].
  exists (match r with
          | inl ValueError | inl TypeError => inl (ValidationError [Invalid])
          | inl e => inl e
          | inr x => inr (VFloat x)
          end).
  intro m. exists m. rewrite P. destruct r as [[]|]; reflexivity.
Qed.

(** Splits a goal [steady c] along the structure of [c]. *)
Ltac steady_step :=
  lazymatch goal with
  | |- steady (ret _) => apply steady_ret
  | |- steady (raise _) => apply steady_raise
  | |- steady (fail _) => apply steady_raise
  | |- steady (put_match _) => apply steady_put
  | |- steady (call_on _ _) => apply steady_call_on
  | |- steady (FloatField_to_python _ _) => apply steady_FloatField_to_python
  | |- steady (bind get_self _) =>
      apply steady_get_bind; [ intros; reflexivity | intro ]
  | |- steady (bind _ _) => apply steady_bind; [ | intro ]
  | |- steady (mapM _ _) => apply steady_mapM; intro
  | |- steady (lift_option ?o _) => destruct o; simpl
  | |- steady (if ?b then _ else _) => destruct b
  | |- steady (match ?x with _ => _ end) => destruct x
  end; cbv beta zeta.

Ltac steady_tac := cbv beta zeta; repeat steady_step.

(** The classes whose [validate] stores a match. *)
Definition stores_match (c : field_class) : bool :=
  match c with
  | cRegexField | cUUIDField | cUrlField => true
  | _ => false
  end.

Ltac unfold_fields :=
  unfold clean_method,
    RestBooleanField_clean, ColorField_clean, HexField_clean, RegexField_clean,
    TimezoneField_clean, TruncatedCharField_clean, JsonField_clean,
    ArrayField_clean, UrlField_clean, RestChoiceField_clean,
    IdSetField_clean, IdArrayField_clean, DateField_clean, MonthField_clean,
    DateTimeField_clean, TimestampField_clean, LowerCaseEmailField_clean,
    FileField_clean, forms_FileField_clean,
    RestCharField_clean, RestCharField_clean_with,
    RestIntegerField_clean, RestFloatField_clean,
    EmptyStringFixMixing_clean, InitialFixMixin_clean, Field_clean,
    RestBooleanField_to_python, TruncatedCharField_to_python,
    JsonField_to_python, ArrayField_to_python, UrlField_to_python,
    LowerCaseEmailField_to_python, RestChoiceField_to_python,
    IntegerField_to_python, forms_FileField_to_python,
    ChoiceField_to_python, CharField_to_python,
    ColorField_validate, HexField_validate, RegexField_validate,
    TimezoneField_validate, JsonField_validate, UrlField_validate,
    RestChoiceField_validate, ChoiceField_validate, TimestampField_validate,
    FloatField_validate, FileField_validate,
    RestCharField_validate, RestCharField_to_python, RestCharField_run_validators,
    EmptyStringFixMixing_validate, EmptyStringFixMixing_to_python,
    EmptyStringFixMixing_empty_values,
    Field_validate, Field_run_validators, Field_to_python,
    IntegerField_run_validators, CharField_validators,
    utcfromtimestamp, make_aware_utc, py_get.

Section Purity.
Variable py_repr : pyval -> string.
Variable float_of_string : string -> option PyFloat.float.
Variable json_loads : string -> option pyval.
Variable jsonschema_validate : pyval -> pyval -> option string.
Variable strptime : string -> string -> option PyDate.datetime.
Variable all_timezones : list string.
Variable url_validator : bool -> string -> bool.
Variable validate_email : pyval -> bool.
Variable now_timestamp : PyFloat.float.
Variable ID_FIELD_MAX_VALUE : pyval.

Lemma steady_clean_method (c : field_class) (value : pyval) :
  steady (clean_method py_repr float_of_string json_loads jsonschema_validate
                       strptime all_timezones url_validator validate_email
                       now_timestamp ID_FIELD_MAX_VALUE c value).
Proof.
  destruct c; repeat (progress unfold_fields); steady_tac.
Qed.

Lemma keeps_clean_method (c : field_class) (value : pyval) :
  stores_match c = false ->
  keeps_self (clean_method py_repr float_of_string json_loads jsonschema_validate
                           strptime all_timezones url_validator validate_email
                           now_timestamp ID_FIELD_MAX_VALUE c value).
Proof.
  destruct c; intro H; try discriminate H; repeat (progress unfold_fields); keeps.
Qed.

(** C9 (amended).  With the clock and the settings fixed, what [clean]
    returns or raises is a function of the field's configuration and the
    raw value: it does not depend on the stored match.  A call changes no
    attribute of the field object but [_match], and changes nothing at all
    for a class other than [RegexField], [UUIDField] and [UrlField].  So a
    call made after another one on the same object returns what it would
    have returned alone. *)
Theorem clean_pure (self : field) (value : pyval) :
  let clean := clean py_repr float_of_string json_loads jsonschema_validate strptime
                     all_timezones url_validator validate_email now_timestamp
                     ID_FIELD_MAX_VALUE in
  let r := clean self value in
  fst r = set_match self (_match (fst r))
  /\ (if stores_match (cls self) then True else fst r = self)
  /\ (forall m, snd (clean (set_match self m) value) = snd r)
  /\ (forall value2, snd (clean (fst r) value2) = snd (clean self value2)).
Proof.
  cbv zeta. unfold clean.
  destruct (steady_clean_method (cls self) value self) as [r Hr].
  assert (H0 := Hr (_match self)). rewrite set_match_self in H0.
  destruct H0 as [m' E]. rewrite E. simpl.
  refine (conj eq_refl (conj _ (conj _ _))).
  - destruct (stores_match (cls self)) eqn:Es; [exact I|].
    pose proof (keeps_clean_method (cls self) value Es self) as K.
    rewrite E in K. exact K.
  - intro m. destruct (Hr m) as [m1 E1]. simpl. rewrite E1. reflexivity.
  - intro value2.
    destruct (steady_clean_method (cls self) value2 self) as [r2 Hr2].
    assert (H2 := Hr2 (_match self)). rewrite set_match_self in H2.
    destruct H2 as [m2 E2]. rewrite E2.
    destruct (Hr2 m') as [m3 E3]. simpl. rewrite E3. reflexivity.
Qed.

End Purity.

(** C9, the claim as it stands fails: a UUID field is not left unchanged
    by [clean], it keeps the last match; two calls in the two orders leave
    two different field objects; and with [in_future=False] the answer of a
    timestamp field to one value changes with the clock. *)
Lemma clean_changes_regex_field :
  let f := UUIDField_init true VNone 0 in
  let a := VStr "123e4567-e89b-12d3-a456-426614174000" in
  let b := VStr "00000000-0000-0000-0000-000000000000" in
  _match f = None
  /\ _match (fst (Sample.clean f a)) = Some "123e4567-e89b-12d3-a456-426614174000"
  /\ fst (Sample.clean f a) <> f
  /\ fst (Sample.clean (fst (Sample.clean f a)) b)
     <> fst (Sample.clean (fst (Sample.clean f b)) a)
  /\ option_map (fun t => snd (TimestampField_clean Sample.float_of_string
                                 (PyFloat.of_Z 1000) (VInt 2000) t))
                (TimestampField_init true None false)
     = Some (inl (ValidationError [Future]))
  /\ option_map (fun t => snd (TimestampField_clean Sample.float_of_string
                                 (PyFloat.of_Z 3000) (VInt 2000) t))
                (TimestampField_init true None false)
     = Some (inr (VDatetime (PyDate.mkDatetime 1970 1 1 0 33 20 0 (Some 0)))).
Proof.
  cbv zeta. refine (conj eq_refl (conj eq_refl (conj _ (conj _ (conj _ _))))).
  - intro H. apply (f_equal _match) in H. discriminate H.
  - intro H. apply (f_equal _match) in H. discriminate H.
  - reflexivity.
  - reflexivity.
Qed.

(* ================================================================== *)
(** ** Rounding to binary64: bounds and exact cases *)
(* ================================================================== *)

Module PyFloatFacts.
Import PyFloat.

(** The operations agree with the library's on floats, at a few values. *)
Example truediv_SFdiv :
  map (fun '(a, b) => truediv a b)
      [(1, 3); (1893456000123456, 1000000); (2147483647999999, 1000000);
       (1, 1000000); (-7, 3); (2147483647000000, 1000000)]
  = map (fun '(a, b) => SFdiv prec emax (of_Z a) (of_Z b))
        [(1, 3); (1893456000123456, 1000000); (2147483647999999, 1000000);
         (1, 1000000); (-7, 3); (2147483647000000, 1000000)].
Proof. vm_compute. reflexivity. Qed.

Example mul_SFmul :
  map (fun '(a, b) => mul (truediv a 1000000) (of_Z b))
      [(1, 3); (123456, 1000000); (999999, 1000000); (-7, 3); (500000, 1000000)]
  = map (fun '(a, b) => SFmul prec emax (truediv a 1000000) (of_Z b))
        [(1, 3); (123456, 1000000); (999999, 1000000); (-7, 3); (500000, 1000000)].
Proof. vm_compute. reflexivity. Qed.

Example of_Z_binary_normalize :
  map of_Z [1; 3; 1000000; 9007199254740993; -9007199254740995; 2147483648]
  = map (fun a => binary_normalize prec emax a 0 false)
        [1; 3; 1000000; 9007199254740993; -9007199254740995; 2147483648].
Proof. vm_compute. reflexivity. Qed.

Lemma pow2_pos (k : Z) : 0 <= k -> 0 < 2 ^ k.
Proof. intro. apply Z.pow_pos_nonneg; lia. Qed.
Lemma pow2_split (i j : Z) : 0 <= i -> 0 <= j -> 2 ^ (i + j) = 2 ^ i * 2 ^ j.
Proof. intros. apply Z.pow_add_r; lia. Qed.
Lemma pow2_succ (i : Z) : 0 <= i -> 2 ^ (i + 1) = 2 * 2 ^ i.
Proof. intros. rewrite pow2_split by lia. change (2 ^ 1) with 2. lia. Qed.

(** Hides the powers of two, so that what is left is polynomial. *)
Ltac hide_pows :=
  repeat match goal with
         | H : context [2 ^ ?e] |- _ =>
             let p := fresh "p" in set (p := 2 ^ e) in *; clearbody p
         | |- context [2 ^ ?e] =>
             let p := fresh "p" in set (p := 2 ^ e) in *; clearbody p
         end.

(** Multiplying both sides of a bound by a positive number. *)
Lemma scale_bounds (x y z c : Z) :
  0 < c -> x <= y < z -> x * c <= y * c < z * c.
Proof. intros. split; nia. Qed.

Lemma ratio_log2_spec (a b K : Z) :
  0 < a -> 0 < b -> 0 <= K -> 0 <= K + ratio_log2 a b ->
  b * 2 ^ (K + ratio_log2 a b) <= a * 2 ^ K
  /\ a * 2 ^ K < b * 2 ^ (K + ratio_log2 a b + 1).
Proof.
  intros Ha Hb HK. unfold ratio_log2, ratio_ge_pow2.
  pose proof (Z.log2_spec a Ha) as [A1 A2].
  pose proof (Z.log2_spec b Hb) as [B1 B2].
  pose proof (Z.log2_nonneg a) as La. pose proof (Z.log2_nonneg b) as Lb.
  set (la := Z.log2 a) in *. set (lb := Z.log2 b) in *.
  rewrite Z.pow_succ_r in A2, B2 by lia.
  set (k := la - lb).
  destruct (Z.leb_spec 0 k) as [Hk|Hk].
  - (* la >= lb: 2^la = 2^lb * 2^k *)
    assert (Ek : 2 ^ la = 2 ^ lb * 2 ^ k)
      by (rewrite <- pow2_split by lia; f_equal; lia).
    pose proof (pow2_pos k Hk) as Pk. pose proof (pow2_pos lb Lb) as Plb.
    destruct (Z.leb_spec (b * 2 ^ k) a) as [T|T]; intro HL.
    + assert (Key : b * 2 ^ k <= a < (2 * b) * 2 ^ k) by (hide_pows; nia).
      apply (scale_bounds _ _ _ (2 ^ K) (pow2_pos K HK)) in Key.
      replace (K + k + 1) with ((K + k) + 1) by lia.
      rewrite pow2_succ by lia. rewrite (pow2_split K k) by lia. hide_pows. lia.
    + replace (K + (k - 1) + 1) with (K + k) by lia.
      destruct (Z.eq_dec k 0) as [Z0|NZ].
      * assert (E1 : 2 ^ k = 1) by (rewrite Z0; reflexivity).
        rewrite E1 in *.
        assert (Key : b <= a * 2 < b * 2) by (hide_pows; lia).
        assert (0 < 2 ^ (K - 1)) by (apply pow2_pos; lia).
      apply (scale_bounds _ _ _ (2 ^ (K - 1))) in Key; [|assumption].
        replace (K + (k - 1)) with (K - 1) by lia.
        replace (K + k) with ((K - 1) + 1) by lia.
        replace (2 ^ K) with (2 ^ ((K - 1) + 1)) by (f_equal; lia).
        rewrite pow2_succ by lia. hide_pows. lia.
      * replace k with ((k - 1) + 1) in Ek, T by lia.
        rewrite pow2_succ in Ek, T by lia.
        pose proof (pow2_pos (k - 1) ltac:(lia)).
        assert (Key : b * 2 ^ (k - 1) <= a < (b * 2) * 2 ^ (k - 1)) by (hide_pows; nia).
      apply (scale_bounds _ _ _ (2 ^ K) (pow2_pos K HK)) in Key.
        replace (K + k) with ((K + (k - 1)) + 1) by lia.
        rewrite pow2_succ by lia. rewrite (pow2_split K (k - 1)) by lia. hide_pows. lia.
  - (* la < lb: 2^lb = 2^la * 2^(-k) *)
    assert (Ek : 2 ^ lb = 2 ^ la * 2 ^ (- k))
      by (rewrite <- pow2_split by lia; f_equal; lia).
    pose proof (pow2_pos (- k) ltac:(lia)) as Pk.
    pose proof (pow2_pos la La) as Pla.
    destruct (Z.leb_spec b (a * 2 ^ (- k))) as [T|T]; intro HL.
    + (* L = k < 0, K >= -k *)
      assert (Key : b <= a * 2 ^ (- k) < b * 2) by (hide_pows; nia).
      assert (0 < 2 ^ (K + k)) by (apply pow2_pos; lia).
      apply (scale_bounds _ _ _ (2 ^ (K + k))) in Key; [|assumption].
      replace (2 ^ K) with (2 ^ (- k) * 2 ^ (K + k))
        by (rewrite <- pow2_split by lia; f_equal; lia).
      replace (K + k + 1) with ((K + k) + 1) by lia.
      rewrite pow2_succ by lia. hide_pows. lia.
    + (* L = k - 1 *)
      assert (Key : b <= (a * 2 ^ (- k)) * 2 < b * 2) by (hide_pows; nia).
      assert (0 < 2 ^ (K + (k - 1))) by (apply pow2_pos; lia).
      apply (scale_bounds _ _ _ (2 ^ (K + (k - 1)))) in Key; [|assumption].
      replace (K + (k - 1) + 1) with ((K + (k - 1)) + 1) by lia.
      replace (2 ^ K) with (2 ^ (- k) * 2 ^ ((K + (k - 1)) + 1))
        by (rewrite <- pow2_split by lia; f_equal; lia).
      rewrite !pow2_succ by lia. hide_pows. lia.
Qed.

Lemma div_half_even_spec (n d : Z) :
  0 <= n -> 0 < d ->
  2 * Z.abs (div_half_even n d * d - n) <= d
  /\ n / d <= div_half_even n d <= n / d + 1.
Proof.
  intros Hn Hd. unfold div_half_even.
  pose proof (Z.div_mod n d ltac:(lia)) as E.
  pose proof (Z.mod_pos_bound n d Hd) as B.
  set (q := n / d) in *. set (r := n mod d) in *.
  clearbody q r. subst n.
  destruct (Z.compare_spec (2 * r) d) as [C|C|C];
    [destruct (Z.even q)| |]; split; lia.
Qed.

Lemma div_half_even_exact (c d : Z) : 0 < d -> div_half_even (c * d) d = c.
Proof.
  intro Hd. unfold div_half_even.
  rewrite Z.div_mul by lia. rewrite Z.mod_mul by lia.
  change (2 * 0) with 0. destruct (Z.compare_spec 0 d); lia.
Qed.

(** The rounding of [a / b] when its order of magnitude [L] is that of a
    normal number below [2^52]: the mantissa is the nearest integer to
    [a * 2^k / b] with [k = 52 - L], moved to the next exponent when it
    reaches [2^53]. *)
Lemma round_ratio_small (s : bool) (a b : Z) :
  0 < a -> 0 < b ->
  -1022 <= ratio_log2 a b <= 51 ->
  let k := 52 - ratio_log2 a b in
  let m0 := div_half_even (a * 2 ^ k) b in
  2 ^ 52 <= m0 <= 2 ^ 53
  /\ round_ratio s a b =
     if m0 =? 2 ^ 53 then S754_finite s (Z.to_pos (2 ^ 52)) (1 - k)
     else S754_finite s (Z.to_pos m0) (- k).
Proof.
  intros Ha Hb HL k m0.
  assert (Hk : 1 <= k <= 1074) by (unfold k; lia).
  destruct (ratio_log2_spec a b k Ha Hb ltac:(lia) ltac:(unfold k; lia)) as [Lo Hi].
  replace (k + ratio_log2 a b) with 52 in Lo, Hi by (unfold k; lia).
  pose proof (pow2_pos k ltac:(lia)) as Pk.
  assert (Hn : 0 <= a * 2 ^ k) by nia.
  destruct (div_half_even_spec (a * 2 ^ k) b Hn Hb) as [_ [Q1 Q2]].
  fold m0 in Q1, Q2.
  assert (D1 : 2 ^ 52 <= a * 2 ^ k / b)
    by (apply Z.div_le_lower_bound; lia).
  assert (D2 : a * 2 ^ k / b < 2 ^ 53)
    by (apply Z.div_lt_upper_bound; [lia|]; change (52 + 1) with 53 in Hi; lia).
  split; [lia|].
  unfold round_ratio, ratio_exp, emin, prec, emax.
  change (53 - 1) with 52. change (3 - 1024 - 53) with (-1074).
  replace (Z.max (ratio_log2 a b - 52) (-1074)) with (- k) by (unfold k; lia).
  destruct (Z.leb_spec 0 (- k)) as [C|C]; [lia|].
  rewrite Z.opp_involutive. fold m0.
  destruct (Z.eqb_spec m0 (2 ^ 53)) as [E|E].
  - change (2 ^ 52) with 4503599627370496.
    destruct (Z.leb_spec (- k + 1) (1024 - 53)); [|lia].
    replace (- k + 1) with (1 - k) by lia. reflexivity.
  - destruct m0 as [|p|p] eqn:Em; try lia.
    destruct (Z.leb_spec (- k) (1024 - 53)); [|lia].
    reflexivity.
Qed.

Lemma pow2_mono (i j : Z) : 0 <= i <= j -> 2 ^ i <= 2 ^ j.
Proof. intros. apply Z.pow_le_mono_r; lia. Qed.

(** Bounds on [a / b] bound its order of magnitude. *)
Lemma ratio_log2_lt (a b u : Z) :
  0 < a -> 0 < b -> 0 <= u -> a < b * 2 ^ u -> ratio_log2 a b < u.
Proof.
  intros Ha Hb Hu H.
  destruct (Z.lt_ge_cases (ratio_log2 a b) u) as [|C]; [assumption|exfalso].
  destruct (ratio_log2_spec a b 0 Ha Hb ltac:(lia) ltac:(lia)) as [Lo _].
  change (2 ^ 0) with 1 in Lo. rewrite Z.add_0_l in Lo.
  pose proof (pow2_mono u (ratio_log2 a b) ltac:(lia)). nia.
Qed.

Lemma ratio_log2_ge (a b l : Z) :
  0 < a -> 0 < b -> 0 <= l -> b <= a * 2 ^ l -> - l <= ratio_log2 a b.
Proof.
  intros Ha Hb Hl H.
  destruct (Z.le_gt_cases (- l) (ratio_log2 a b)) as [|C]; [assumption|exfalso].
  destruct (ratio_log2_spec a b (- ratio_log2 a b) Ha Hb ltac:(lia) ltac:(lia))
    as [_ Hi].
  replace (- ratio_log2 a b + ratio_log2 a b + 1) with 1 in Hi by lia.
  change (2 ^ 1) with 2 in Hi.
  pose proof (pow2_mono (l + 1) (- ratio_log2 a b) ltac:(lia)) as M.
  rewrite pow2_succ in M by lia.
  pose proof (pow2_pos l Hl). nia.
Qed.

Lemma ratio_log2_pow2 (z k : Z) :
  0 < z -> 0 <= k -> ratio_log2 z (2 ^ k) = Z.log2 z - k.
Proof.
  intros Hz Hk. unfold ratio_log2, ratio_ge_pow2.
  rewrite Z.log2_pow2 by lia.
  pose proof (Z.log2_spec z Hz) as [A _].
  pose proof (Z.log2_nonneg z) as Lz.
  destruct (Z.leb_spec 0 (Z.log2 z - k)) as [C|C].
  - rewrite <- pow2_split by lia.
    replace (k + (Z.log2 z - k)) with (Z.log2 z) by lia.
    destruct (Z.leb_spec (2 ^ Z.log2 z) z); lia.
  - replace (2 ^ k) with (2 ^ Z.log2 z * 2 ^ (- (Z.log2 z - k)))
      by (rewrite <- pow2_split by lia; f_equal; lia).
    pose proof (pow2_pos (- (Z.log2 z - k)) ltac:(lia)).
    destruct (Z.leb_spec (2 ^ Z.log2 z * 2 ^ (- (Z.log2 z - k)))
                         (z * 2 ^ (- (Z.log2 z - k)))); [lia|nia].
Qed.

(** A dyadic number with a mantissa below [2^53] is its own rounding. *)
Lemma round_ratio_exact (s : bool) (z k : Z) :
  0 < z < 2 ^ 53 -> 0 <= k -> -1022 <= Z.log2 z - k <= 51 ->
  round_ratio s z (2 ^ k) =
  S754_finite s (Z.to_pos (z * 2 ^ (52 - Z.log2 z))) (Z.log2 z - k - 52).
Proof.
  intros Hz Hk HL.
  pose proof (pow2_pos k Hk) as Pk.
  pose proof (ratio_log2_pow2 z k ltac:(lia) Hk) as EL.
  destruct (round_ratio_small s z (2 ^ k) ltac:(lia) Pk ltac:(lia)) as [_ E].
  rewrite EL in E. rewrite E. clear E.
  pose proof (Z.log2_spec z ltac:(lia)) as [A1 A2].
  pose proof (Z.log2_nonneg z) as Lz.
  assert (Lz' : Z.log2 z <= 52).
  { destruct (Z.le_gt_cases (Z.log2 z) 52) as [|C]; [assumption|exfalso].
    pose proof (pow2_mono 53 (Z.log2 z) ltac:(lia)). lia. }
  replace (52 - (Z.log2 z - k)) with ((52 - Z.log2 z) + k) by lia.
  rewrite pow2_split by lia. rewrite Z.mul_assoc.
  rewrite div_half_even_exact by lia.
  assert (B : z * 2 ^ (52 - Z.log2 z) < 2 ^ 53).
  { replace 53 with ((Z.log2 z + 1) + (52 - Z.log2 z)) at 1 by lia.
    rewrite pow2_split by lia. rewrite Z.pow_succ_r in A2 by lia.
    rewrite pow2_succ by lia.
    pose proof (pow2_pos (52 - Z.log2 z) ltac:(lia)). nia. }
  destruct (Z.eqb_spec (z * 2 ^ (52 - Z.log2 z)) (2 ^ 53)); [lia|].
  f_equal. lia.
Qed.

(** *** Rounding twice lands on the microsecond *)

Lemma abs_scale (x y c : Z) : 0 < c -> 2 * Z.abs x <= y -> 2 * Z.abs (x * c) <= y * c.
Proof.
  intros Hc H. rewrite Z.abs_mul, (Z.abs_eq c) by lia.
  replace (2 * (Z.abs x * c)) with ((2 * Z.abs x) * c) by ring.
  apply Z.mul_le_mono_nonneg_r; lia.
Qed.

Lemma abs_unscale (x y c : Z) : 0 < c -> 2 * Z.abs (x * c) <= y * c -> 2 * Z.abs x <= y.
Proof.
  intros Hc H. rewrite Z.abs_mul, (Z.abs_eq c) in H by lia.
  replace (2 * (Z.abs x * c)) with ((2 * Z.abs x) * c) in H by ring.
  apply Z.mul_le_mono_pos_r in H; lia.
Qed.

(** The nearest integer to a number within a quarter of [U] is [U]: the
    last step of the conversion back to microseconds. *)
Lemma nearest_is (r my Y a b W P U : Z) :
  0 < b -> 2 ^ 32 <= Y -> 2 ^ 21 <= P ->
  2 * Z.abs (r * Y - my) <= Y ->
  2 * Z.abs (my * b - a * Y) <= b ->
  a * P = W * b ->
  2 * Z.abs (W - U * P) <= 1000000 ->
  r = U.
Proof.
  intros Hb HY HP H1 H2 H3 H4.
  change (2 ^ 32) with 4294967296 in HY. change (2 ^ 21) with 2097152 in HP.
  (* my * P is within P / 2 of W * Y *)
  assert (H5 : 2 * Z.abs (my * P - W * Y) <= P).
  { apply (abs_unscale _ _ b Hb).
    assert (E : a * Y * P = W * Y * b)
      by (replace (a * Y * P) with ((a * P) * Y) by ring; rewrite H3; ring).
    replace ((my * P - W * Y) * b) with ((my * b - a * Y) * P) by lia.
    rewrite (Z.mul_comm P b). apply abs_scale; lia. }
  apply (abs_scale _ _ P ltac:(lia)) in H1.
  apply (abs_scale _ _ Y ltac:(lia)) in H4.
  set (YP := Y * P) in *.
  replace ((r * Y - my) * P) with (r * YP - my * P) in H1 by (unfold YP; ring).
  replace ((W - U * P) * Y) with (W * Y - U * YP) in H4 by (unfold YP; ring).
  assert (H8 : 2 * Z.abs ((r - U) * YP) <= YP + P + 1000000 * Y).
  { replace ((r - U) * YP) with (r * YP - U * YP) by ring. lia. }
  assert (HYP : 0 < YP) by (unfold YP; apply Z.mul_pos_pos; lia).
  rewrite Z.abs_mul, (Z.abs_eq YP) in H8 by lia.
  destruct (Z.eq_dec r U) as [|NE]; [assumption|exfalso].
  assert (A1 : 1 * YP <= Z.abs (r - U) * YP)
    by (apply Z.mul_le_mono_nonneg_r; lia).
  assert (A2 : YP <= P + 1000000 * Y) by lia.
  (* (Y - 1) * (P - 1000000) <= 1000000 is absurd *)
  assert (A3 : 4294967295 * 1097152 <= (Y - 1) * (P - 1000000)).
  { apply Z.mul_le_mono_nonneg; lia. }
  replace ((Y - 1) * (P - 1000000)) with (YP - 1000000 * Y - P + 1000000) in A3
    by (unfold YP; ring).
  lia.
Qed.

(** The float of a count [N] of microseconds in seconds: [m * 2^-k] with
    [m * 10^6] within half of [10^6] of [N * 2^k]. *)
Lemma truediv_microseconds (N : Z) :
  0 < N <= 2147483647 * 1000000 ->
  exists m k,
    truediv N 1000000 = S754_finite false (Z.to_pos m) (- k)
    /\ 21 <= k <= 72 /\ 0 < m < 2 ^ 53
    /\ 2 * Z.abs (m * 1000000 - N * 2 ^ k) <= 1000000.
Proof.
  intro HN. unfold truediv.
  destruct (Z.ltb_spec N 0) as [|_]; [lia|].
  change (1000000 <? 0) with false. simpl xorb.
  destruct (Z.eqb_spec N 0) as [|_]; [lia|].
  rewrite (Z.abs_eq N) by lia. change (Z.abs 1000000) with 1000000.
  assert (L1 : - 20 <= ratio_log2 N 1000000)
    by (apply (ratio_log2_ge N 1000000 20); try lia; change (2 ^ 20) with 1048576; lia).
  assert (L2 : ratio_log2 N 1000000 < 31)
    by (apply ratio_log2_lt; try lia; change (2 ^ 31) with 2147483648; lia).
  destruct (round_ratio_small false N 1000000 ltac:(lia) ltac:(lia) ltac:(lia))
    as [[M1 M2] E].
  set (k := 52 - ratio_log2 N 1000000) in *.
  assert (Hk : 22 <= k <= 72) by (unfold k; lia).
  pose proof (pow2_pos k ltac:(lia)) as Pk.
  destruct (div_half_even_spec (N * 2 ^ k) 1000000 ltac:(nia) ltac:(lia)) as [R _].
  set (m0 := div_half_even (N * 2 ^ k) 1000000) in *.
  rewrite E. destruct (Z.eqb_spec m0 (2 ^ 53)) as [E53|NE53].
  - exists (2 ^ 52), (k - 1).
    replace (- (k - 1)) with (1 - k) by lia.
    split; [reflexivity|]. split; [lia|]. split; [split; reflexivity|].
    replace (2 ^ k) with (2 * 2 ^ (k - 1)) in R
      by (rewrite <- pow2_succ by lia; f_equal; lia).
    rewrite E53 in R. change (2 ^ 53) with (2 * 2 ^ 52) in R.
    set (x := 2 ^ 52 * 1000000 - N * 2 ^ (k - 1)).
    replace (2 * 2 ^ 52 * 1000000 - N * (2 * 2 ^ (k - 1))) with (2 * x) in R
      by (unfold x; ring).
    lia.
  - exists m0, k. split; [reflexivity|]. split; [lia|]. split; [|exact R].
    change (2 ^ 52) with 4503599627370496 in M1. lia.
Qed.

(** An integer below [2^52] as a float, and back. *)
Lemma to_Z_exact_int (n : Z) :
  0 <= n < 2 ^ 52 -> to_Z_exact (exact false n 0) = Some n.
Proof.
  intro Hn. unfold exact.
  destruct (Z.eqb_spec n 0) as [->|NZ]; [reflexivity|].
  change (0 <=? 0) with true. cbv iota. change (2 ^ 0) with 1.
  rewrite Z.mul_1_r.
  pose proof (Z.log2_nonneg n) as L0.
  assert (L1 : Z.log2 n < 52) by (apply Z.log2_lt_pow2; lia).
  change 1 with (2 ^ 0) at 1.
  rewrite round_ratio_exact by (change (2 ^ 53) with (2 * 2 ^ 52); lia).
  pose proof (pow2_pos (52 - Z.log2 n) ltac:(lia)) as Pp.
  unfold to_Z_exact, signed.
  destruct (Z.leb_spec 0 (Z.log2 n - 0 - 52)) as [|_]; [lia|].
  rewrite Z2Pos.id by nia.
  replace (- (Z.log2 n - 0 - 52)) with (52 - Z.log2 n) by lia.
  rewrite Z.mod_mul by lia. rewrite Z.eqb_refl.
  rewrite Z.div_mul by lia. reflexivity.
Qed.

(** [float(10**6)] *)
Lemma of_Z_million : of_Z 1000000 = S754_finite false 8589934592000000 (-33).
Proof. reflexivity. Qed.

(** The fractional part [F * 2^-k] of a timestamp, times [10^6], rounds to
    the microsecond [U] it is within a quarter of. *)
Lemma frac_microseconds (F k U : Z) :
  21 <= k <= 72 -> 0 <= F < 2 ^ k -> F < 2 ^ 53 -> 0 <= U < 1000000 ->
  2 * Z.abs (F * 1000000 - U * 2 ^ k) <= 1000000 ->
  round_half_even (mul (exact false F (- k)) (of_Z 1000000)) = Some U.
Proof.
  intros Hk HF HF53 HU R.
  pose proof (pow2_mono 21 k ltac:(lia)) as P21.
  pose proof (pow2_mono k 72 ltac:(lia)) as P72.
  change (2 ^ 21) with 2097152 in P21.
  change (2 ^ 72) with 4722366482869645213696 in P72.
  rewrite of_Z_million. unfold exact.
  destruct (Z.eqb_spec F 0) as [F0|FN].
  - (* no fractional part *)
    subst F. simpl. f_equal.
    set (P := 2 ^ k) in *. clearbody P.
    assert (0 <= U * P) by (apply Z.mul_nonneg_nonneg; lia).
    destruct (Z.eq_dec U 0) as [->|NU]; [reflexivity|exfalso].
    assert (1 * P <= U * P) by (apply Z.mul_le_mono_nonneg_r; lia).
    lia.
  - destruct (Z.leb_spec 0 (- k)) as [|_]; [lia|].
    rewrite Z.opp_involutive.
    pose proof (Z.log2_nonneg F) as L0.
    assert (L1 : Z.log2 F < k) by (apply Z.log2_lt_pow2; lia).
    assert (L1' : Z.log2 F < 53) by (apply Z.log2_lt_pow2; lia).
    rewrite round_ratio_exact by lia.
    set (lF := Z.log2 F) in *.
    pose proof (pow2_pos (52 - lF) ltac:(lia)) as Pq.
    unfold mul. simpl xorb.
    rewrite Z2Pos.id by (apply Z.mul_pos_pos; lia).
    destruct (Z.leb_spec 0 (lF - k - 52 + -33)) as [|_]; [lia|].
    replace (- (lF - k - 52 + -33)) with ((52 - lF) + 33 + k) by lia.
    rewrite !pow2_split by lia.
    change (2 ^ 33) with 8589934592.
    set (P := 2 ^ k) in *.
    set (Q := 2 ^ (52 - lF) * 8589934592).
    replace (F * 2 ^ (52 - lF) * 8589934592000000) with ((F * 1000000) * Q)
      by (unfold Q; ring).
    set (W := F * 1000000) in *.
    set (a := W * Q). set (b := Q * P).
    assert (HQ : 0 < Q) by (unfold Q; lia).
    assert (HP : 0 < P) by lia.
    assert (Hb : 0 < b) by (unfold b; apply Z.mul_pos_pos; lia).
    assert (HW : 1000000 <= W) by (unfold W; lia).
    assert (Ha : 0 < a) by (unfold a; apply Z.mul_pos_pos; lia).
    assert (Eab : a * P = W * b) by (unfold a, b; ring).
    assert (L2 : ratio_log2 a b < 20).
    { apply ratio_log2_lt; try lia. change (2 ^ 20) with 1048576.
      unfold a, b.
      assert (W < P * 1048576) by (unfold W; lia).
      replace (Q * P * 1048576) with ((P * 1048576) * Q) by ring.
      apply Z.mul_lt_mono_pos_r; lia. }
    assert (L3 : - 53 <= ratio_log2 a b).
    { apply (ratio_log2_ge a b 53); try lia.
      change (2 ^ 53) with 9007199254740992. unfold a, b.
      assert (P <= W * 9007199254740992) by lia.
      replace (W * Q * 9007199254740992) with ((W * 9007199254740992) * Q) by ring.
      rewrite (Z.mul_comm Q P).
      apply Z.mul_le_mono_nonneg_r; lia. }
    destruct (round_ratio_small false a b Ha Hb ltac:(lia)) as [[M1 M2] E].
    set (ky := 52 - ratio_log2 a b) in *.
    assert (Hky : 33 <= ky <= 105) by (unfold ky; lia).
    pose proof (pow2_pos ky ltac:(lia)) as Pky.
    destruct (div_half_even_spec (a * 2 ^ ky) b
                ltac:(apply Z.mul_nonneg_nonneg; lia) Hb) as [Ry _].
    set (my0 := div_half_even (a * 2 ^ ky) b) in *.
    rewrite E. change (2 ^ 52) with 4503599627370496 in *.
    destruct (Z.eqb_spec my0 (2 ^ 53)) as [E53|NE53].
    + (* the mantissa went up to 2^53 *)
      unfold round_half_even.
      destruct (Z.leb_spec 0 (1 - ky)) as [|_]; [lia|].
      f_equal.
      replace (- (1 - ky)) with (ky - 1) by lia.
      pose proof (pow2_mono 32 (ky - 1) ltac:(lia)) as PY.
      change (Z.pos (Z.to_pos 4503599627370496)) with 4503599627370496.
      set (Y := 2 ^ (ky - 1)) in *.
      destruct (div_half_even_spec 4503599627370496 Y ltac:(lia)
                  ltac:(change (2 ^ 32) with 4294967296 in PY; lia)) as [Rr _].
      apply (nearest_is _ 4503599627370496 Y a b W P U); try assumption.
      replace (2 ^ ky) with (2 * Y) in Ry
          by (unfold Y; rewrite <- pow2_succ by lia; f_equal; lia).
      rewrite E53 in Ry. change (2 ^ 53) with (2 * 4503599627370496) in Ry.
      set (x := 4503599627370496 * b - a * Y).
      replace (2 * 4503599627370496 * b - a * (2 * Y)) with (2 * x) in Ry
        by (unfold x; ring).
      lia.
    + unfold round_half_even.
      destruct (Z.leb_spec 0 (- ky)) as [|_]; [lia|].
      f_equal. rewrite Z.opp_involutive.
      rewrite Z2Pos.id by lia.
      pose proof (pow2_mono 32 ky ltac:(lia)) as PY.
      set (Y := 2 ^ ky) in *.
      destruct (div_half_even_spec my0 Y ltac:(lia)
                  ltac:(change (2 ^ 32) with 4294967296 in PY; lia)) as [Rr _].
      apply (nearest_is _ my0 Y a b W P U); assumption.
Qed.

End PyFloatFacts.

(* ================================================================== *)
(** ** Facts on the calendar helpers *)
(* ================================================================== *)

Module PyDateFacts.
Import PyFloat PyFloatFacts PyDate.

(** The integers [lo .. lo + n - 1]. *)
Definition Zrange (lo n : nat) : list Z := map Z.of_nat (seq lo n).

Lemma In_Zrange (lo n : nat) (z : Z) :
  Z.of_nat lo <= z < Z.of_nat lo + Z.of_nat n -> In z (Zrange lo n).
Proof.
  intro H. unfold Zrange. apply in_map_iff. exists (Z.to_nat z).
  split; [lia|apply in_seq; lia].
Qed.

(** [_ord2ymd] undoes [_ymd2ord] at one date. *)
Definition date_round_trips (y m d : Z) : bool :=
  let '(y', m', d') := _ord2ymd (_ymd2ord y m d) in
  (y' =? y) && (m' =? m) && (d' =? d).

Definition year_round_trips (y : Z) : bool :=
  forallb (fun m =>
             forallb (fun d => (_days_in_month y m <? d) || date_round_trips y m d)
                     (Zrange 1 31))
          (Zrange 1 12).

(** Every date of the years a 32-bit timestamp reaches, by evaluation. *)
Lemma years_round_trip : forallb year_round_trips (Zrange 1970 69) = true.
Proof. vm_compute. reflexivity. Qed.

Lemma month_cases (m : Z) :
  1 <= m <= 12 -> In m [1; 2; 3; 4; 5; 6; 7; 8; 9; 10; 11; 12].
Proof. intro H. apply (In_Zrange 1 12). lia. Qed.

Lemma month_days (y m d : Z) :
  1 <= m <= 12 -> 1 <= d <= _days_in_month y m ->
  1 <= _days_before_month y m + d <= 365 + (if _is_leap y then 1 else 0)
  /\ d <= 31.
Proof.
  intros Hm. apply month_cases in Hm.
  unfold _days_in_month, _days_before_month, _DAYS_IN_MONTH, _DAYS_BEFORE_MONTH.
  destruct (_is_leap y); simpl in Hm;
    repeat (destruct Hm as [<-|Hm];
            [cbv [nth Z.to_nat Pos.to_nat Pos.iter_op Init.Nat.add Z.eqb Z.ltb
                  Z.compare Pos.compare Pos.compare_cont Pos.eqb andb]; lia|]);
    destruct Hm.
Qed.

Lemma _ord2ymd_ymd2ord (y m d : Z) :
  1970 <= y <= 2038 -> 1 <= m <= 12 -> 1 <= d <= _days_in_month y m ->
  _ord2ymd (_ymd2ord y m d) = (y, m, d).
Proof.
  intros Hy Hm Hd.
  destruct (month_days y m d Hm Hd) as [_ Hd31].
  pose proof years_round_trip as H.
  rewrite forallb_forall in H. specialize (H y (In_Zrange 1970 69 y ltac:(lia))).
  unfold year_round_trips in H.
  rewrite forallb_forall in H. specialize (H m (In_Zrange 1 12 m ltac:(lia))).
  rewrite forallb_forall in H. specialize (H d (In_Zrange 1 31 d ltac:(lia))).
  destruct (Z.ltb_spec (_days_in_month y m) d) as [|_]; [lia|].
  simpl in H. unfold date_round_trips in H.
  destruct (_ord2ymd (_ymd2ord y m d)) as [[y' m'] d'].
  apply andb_prop in H as [H Hd']. apply andb_prop in H as [Hy' Hm'].
  apply Z.eqb_eq in Hy', Hm', Hd'. congruence.
Qed.

(** The years of the ordinals a 32-bit timestamp reaches. *)
Lemma year_of_ordinal (y m d : Z) :
  1 <= m <= 12 -> 1 <= d <= _days_in_month y m ->
  epoch_ordinal <= _ymd2ord y m d <= epoch_ordinal + 24855 ->
  1970 <= y <= 2038.
Proof.
  intros Hm Hd. destruct (month_days y m d Hm Hd) as [B _].
  unfold _ymd2ord, epoch_ordinal. rewrite <- Z.add_assoc.
  set (r := _days_before_month y m + d) in *. clearbody r.
  intros Ho.
  assert (Hr : r <= 366) by (revert B; destruct (_is_leap y); lia).
  unfold _days_before_year in Ho. cbv zeta in Ho.
  destruct (Z.eq_dec y 1969) as [->|Ny].
  - change (_is_leap 1969) with false in B. cbv iota in B.
    Z.div_mod_to_equations. lia.
  - Z.div_mod_to_equations. lia.
Qed.

(** *** The seconds and microseconds of a timestamp *)

Lemma double_to_timeval_microseconds (S U : Z) :
  0 <= S -> 0 <= U < 1000000 ->
  0 < S * 1000000 + U <= 2147483647 * 1000000 ->
  PyDate.double_to_timeval (truediv (S * 1000000 + U) 1000000) = Some (S, U).
Proof.
  intros HS HU HN.
  destruct (truediv_microseconds _ HN) as (m & k & E & Hk & Hm & R).
  unfold PyDate.double_to_timeval. rewrite E. unfold modf.
  destruct (Z.leb_spec 0 (- k)) as [|_]; [lia|].
  rewrite Z.opp_involutive, Z2Pos.id by lia.
  pose proof (pow2_mono 21 k ltac:(lia)) as P21.
  change (2 ^ 21) with 2097152 in P21.
  assert (HS' : S <= 2147483647) by lia.
  remember (2 ^ k) as P eqn:EP.
  assert (HUP : 0 <= U * P <= 999999 * P).
  { split; [apply Z.mul_nonneg_nonneg; lia|apply Z.mul_le_mono_nonneg_r; lia]. }
  replace ((S * 1000000 + U) * P) with (1000000 * (S * P) + U * P) in R by ring.
  set (SP := S * P) in *.
  assert (B : SP <= m < SP + P) by lia.
  assert (Ediv : m / P = S).
  { symmetry. apply (Z.div_unique m P S (m - SP)); [lia|unfold SP; ring]. }
  assert (Emod : m mod P = m - SP).
  { symmetry. apply (Z.mod_unique m P S (m - SP)); [lia|unfold SP; ring]. }
  rewrite Ediv, Emod.
  rewrite to_Z_exact_int by (change (2 ^ 52) with 4503599627370496; lia).
  rewrite (frac_microseconds (m - SP) k U) by lia.
  destruct (Z.leb_spec 1000000 U) as [|_]; [lia|].
  destruct (Z.ltb_spec U 0) as [|_]; [lia|]. reflexivity.
Qed.

End PyDateFacts.

(* ================================================================== *)
(** ** Numeric fields: printing and reading an integer *)
(* ================================================================== *)

Module PyStrFacts.
Import PyStr.

(** A string of decimal digits, and the number it writes after [acc]. *)
Fixpoint all_digits (s : string) : bool :=
  match s with
  | EmptyString => true
  | String c t => isdigit c && all_digits t
  end.

Fixpoint digits_value (acc : Z) (s : string) : Z :=
  match s with
  | EmptyString => acc
  | String c t => digits_value (10 * acc + digit_val c) t
  end.

Lemma int_digits_value (s : string) : forall acc,
  all_digits s = true -> int_digits acc false s = Some (digits_value acc s).
Proof.
  induction s as [|c t IH]; intros acc H; simpl in *; [reflexivity|].
  apply andb_prop in H as [Hc Ht]. rewrite Hc. apply IH, Ht.
Qed.

Lemma int_unsigned_value (s : string) :
  s <> EmptyString -> all_digits s = true ->
  int_unsigned s = Some (digits_value 0 s).
Proof.
  destruct s as [|c t]; [congruence|]. intros _ H. simpl in *.
  apply andb_prop in H as [Hc Ht]. rewrite Hc. apply int_digits_value, Ht.
Qed.

Lemma digit_chr (d : Z) :
  0 <= d < 10 -> isdigit (chr (48 + d)) = true /\ digit_val (chr (48 + d)) = d.
Proof.
  intro H.
  assert (E : d = 0 \/ d = 1 \/ d = 2 \/ d = 3 \/ d = 4 \/ d = 5 \/ d = 6
              \/ d = 7 \/ d = 8 \/ d = 9) by lia.
  repeat (destruct E as [->|E]; [split; reflexivity|]). subst d. split; reflexivity.
Qed.

(** The digits [str] writes: [fuel] steps are enough below [2^fuel]. *)
Lemma digits_of_pos_spec (fuel : nat) : forall n acc,
  0 <= n < 2 ^ Z.of_nat fuel -> all_digits acc = true ->
  all_digits (digits_of_pos fuel n acc) = true
  /\ exists P, forall a,
       digits_value a (digits_of_pos fuel n acc) = digits_value (a * P + n) acc.
Proof.
  induction fuel as [|k IH]; intros n acc Hn Hacc.
  - simpl in *. split; [exact Hacc|]. exists 1. intro a. f_equal. lia.
  - cbn [digits_of_pos]. cbv zeta.
    assert (Hd : 0 <= n mod 10 < 10) by (apply Z.mod_pos_bound; lia).
    destruct (digit_chr _ Hd) as [D1 D2].
    destruct (Z.ltb_spec n 10) as [Hlt|Hge].
    + split; [cbn [all_digits]; rewrite D1; exact Hacc|].
      exists 10. intro a. cbn [digits_value]. rewrite D2. f_equal.
      rewrite Z.mod_small by lia. lia.
    + assert (Hq : 0 <= n / 10 < 2 ^ Z.of_nat k).
      { rewrite Nat2Z.inj_succ, Z.pow_succ_r in Hn by lia.
        split; [apply Z.div_pos; lia|].
        apply Z.div_lt_upper_bound; lia. }
      destruct (IH (n / 10) (String (chr (48 + n mod 10)) acc) Hq) as [A [P HP]].
      { cbn [all_digits]. rewrite D1. exact Hacc. }
      split; [exact A|]. exists (10 * P). intro a. rewrite HP. cbn [digits_value].
      rewrite D2. f_equal. pose proof (Z.div_mod n 10 ltac:(lia)). lia.
Qed.

Lemma digits_of_pos_nonempty (fuel : nat) : forall n acc,
  (fuel <> O \/ acc <> EmptyString) -> digits_of_pos fuel n acc <> EmptyString.
Proof.
  induction fuel as [|k IH]; intros n acc H.
  - simpl. destruct H; congruence.
  - cbn [digits_of_pos]. cbv zeta. destruct (n <? 10); [discriminate|].
    apply IH. right. discriminate.
Qed.

(** [str(n)] of a natural number [n]. *)
Definition digits_of (n : Z) : string :=
  digits_of_pos (Z.to_nat (Z.log2 n) + 1) n EmptyString.

Lemma digits_of_spec (n : Z) :
  0 <= n ->
  digits_of n <> EmptyString /\ all_digits (digits_of n) = true
  /\ digits_value 0 (digits_of n) = n.
Proof.
  intro Hn. unfold digits_of.
  split; [apply digits_of_pos_nonempty; left; lia|].
  assert (B : 0 <= n < 2 ^ Z.of_nat (Z.to_nat (Z.log2 n) + 1)).
  { split; [exact Hn|].
    pose proof (Z.log2_nonneg n).
    replace (Z.of_nat (Z.to_nat (Z.log2 n) + 1)) with (Z.succ (Z.log2 n)) by lia.
    destruct (Z.eq_dec n 0) as [->|NZ]; [reflexivity|].
    apply Z.log2_spec. lia. }
  destruct (digits_of_pos_spec _ n EmptyString B eq_refl) as [A [P HP]].
  split; [exact A|]. rewrite HP. simpl. lia.
Qed.

End PyStrFacts.

Import PyStrFacts.

Lemma digit_char (c : ascii) :
  PyStr.isdigit c = true ->
  plain_char c = true /\ Ascii.eqb c "." = false.
Proof.
  destruct c as [[] [] [] [] [] [] [] []]; vm_compute; intro H;
    try discriminate H; split; reflexivity.
Qed.

Lemma all_digits_plain (s : string) : all_digits s = true -> all_plain s = true.
Proof.
  induction s as [|c t IH]; cbn [all_digits all_plain]; [reflexivity|].
  intro H. apply andb_prop in H as [Hc Ht].
  destruct (digit_char c Hc) as [-> _]. apply IH, Ht.
Qed.

Lemma re_decimal_sub_digits (s : string) :
  all_digits s = true -> re_decimal_sub s = s.
Proof.
  induction s as [|c t IH]; cbn [all_digits re_decimal_sub]; [reflexivity|].
  intro H. apply andb_prop in H as [Hc Ht].
  destruct (digit_char c Hc) as [_ ->]. cbn [andb]. f_equal. apply IH, Ht.
Qed.

(** [int] of a string of digits, and of one with a minus sign. *)
Lemma int_of_string_digits (s : string) :
  s <> EmptyString -> all_digits s = true ->
  PyStr.int_of_string s = Some (digits_value 0 s).
Proof.
  intros Hs H. unfold PyStr.int_of_string.
  rewrite (all_plain_strip s (all_digits_plain s H)).
  rewrite <- (int_unsigned_value s Hs H).
  destruct s as [|c t]; [congruence|].
  cbn [all_digits] in H. apply andb_prop in H as [Hc _].
  destruct c as [[] [] [] [] [] [] [] []]; try reflexivity;
    vm_compute in Hc; discriminate Hc.
Qed.

Lemma int_of_string_minus (s : string) :
  s <> EmptyString -> all_digits s = true ->
  PyStr.int_of_string (String "-" s) = Some (- digits_value 0 s).
Proof.
  intros Hs H. unfold PyStr.int_of_string.
  rewrite (all_plain_strip (String "-" s))
    by (cbn [all_plain]; rewrite (all_digits_plain s H); reflexivity).
  cbv iota. rewrite (int_unsigned_value s Hs H). reflexivity.
Qed.

(** [int(re_decimal.sub('', str(n)))] is [n]. *)
Lemma int_of_string_of_int (n : Z) :
  PyStr.int_of_string (re_decimal_sub (PyStr.string_of_int n)) = Some n.
Proof.
  unfold PyStr.string_of_int. destruct (Z.ltb_spec n 0) as [Hn|Hn].
  - fold (digits_of (- n)).
    destruct (digits_of_spec (- n) ltac:(lia)) as (N & A & V).
    cbn [re_decimal_sub]. change (Ascii.eqb "-" ".") with false. cbn [andb].
    rewrite (re_decimal_sub_digits _ A), (int_of_string_minus _ N A), V.
    f_equal. lia.
  - fold (digits_of n).
    destruct (digits_of_spec n Hn) as (N & A & V).
    rewrite (re_decimal_sub_digits _ A), (int_of_string_digits _ N A), V.
    reflexivity.
Qed.

(* ================================================================== *)
(** ** Numeric fields: the float of an integer *)
(* ================================================================== *)

Module PyFloatInt.
Import PyFloat PyFloatFacts.

(** [float(n)] is exact below [2^52]. *)
Lemma of_Z_exact (n : Z) :
  0 < Z.abs n < 2 ^ 52 ->
  of_Z n = S754_finite (n <? 0)
             (Z.to_pos (Z.abs n * 2 ^ (52 - Z.log2 (Z.abs n))))
             (Z.log2 (Z.abs n) - 52).
Proof.
  intro H.
  assert (L : 0 <= Z.log2 (Z.abs n) < 52)
    by (split; [apply Z.log2_nonneg|apply Z.log2_lt_pow2; lia]).
  assert (B : 0 < Z.abs n < 2 ^ 53)
    by (change (2 ^ 53) with (2 * 2 ^ 52); lia).
  pose proof (round_ratio_exact (n <? 0) (Z.abs n) 0 B ltac:(lia) ltac:(lia)) as E.
  change (2 ^ 0) with 1 in E.
  replace (Z.log2 (Z.abs n) - 0 - 52) with (Z.log2 (Z.abs n) - 52) in E by lia.
  destruct n as [|p|p]; [simpl in H; lia| |]; exact E.
Qed.

Lemma isfinite_of_Z (n : Z) : Z.abs n < 2 ^ 52 -> isfinite (of_Z n) = true.
Proof.
  intro H. destruct (Z.eq_dec n 0) as [->|NZ]; [reflexivity|].
  rewrite of_Z_exact by lia. reflexivity.
Qed.

(** Python orders [float(n)] and an integer [m] as [n] and [m]. *)
Lemma compare_Z_of_Z (n m : Z) :
  Z.abs n < 2 ^ 52 -> compare_Z (of_Z n) m = Some (n ?= m).
Proof.
  intro H. destruct (Z.eq_dec n 0) as [->|NZ]; [reflexivity|].
  rewrite of_Z_exact by lia. unfold compare_Z, cmp_scaled. f_equal.
  assert (L : 0 <= Z.log2 (Z.abs n) < 52)
    by (split; [apply Z.log2_nonneg|apply Z.log2_lt_pow2; lia]).
  set (l := Z.log2 (Z.abs n)) in *.
  rewrite Z.min_l by lia.
  replace (l - 52 - (l - 52)) with 0 by lia.
  replace (0 - (l - 52)) with (52 - l) by lia.
  pose proof (pow2_pos (52 - l) ltac:(lia)) as Pp.
  set (P := 2 ^ (52 - l)) in *.
  change (2 ^ 0) with 1. rewrite Z.mul_1_r.
  assert (Hs : signed (n <? 0) (Z.to_pos (Z.abs n * P)) = n * P).
  { assert (0 < Z.abs n * P) by (apply Z.mul_pos_pos; lia).
    unfold signed. destruct (Z.ltb_spec n 0).
    - rewrite <- Pos2Z.opp_pos, Z2Pos.id by lia. rewrite Z.abs_neq by lia. ring.
    - rewrite Z2Pos.id by lia. rewrite Z.abs_eq by lia. reflexivity. }
  rewrite Hs. symmetry. apply Zmult_compare_compat_r. lia.
Qed.

End PyFloatInt.

(* ================================================================== *)
(** ** Numeric fields: the range validators *)
(* ================================================================== *)

(** A bound of a numeric field: an integer, or [None] for no bound. *)
Definition bound (b : option Z) : pyval :=
  match b with
  | Some n => VInt n
  | None => VNone
  end.

(** [value > max_value] and [value < min_value], where there is a bound. *)
Definition above (hi : option Z) (v : pyval) : option bool :=
  match hi with
  | Some h => py_gt v (VInt h)
  | None => Some false
  end.

Definition below (lo : option Z) (v : pyval) : option bool :=
  match lo with
  | Some l => py_lt v (VInt l)
  | None => Some false
  end.

(** The messages of the two range validators. *)
Definition range_errors (lo hi : option Z) (a b : bool) (v : pyval) : list verr :=
  ((if a then [MaxValue (bound hi) v] else [])
   ++ (if b then [MinValue (bound lo) v] else []))%list.

Definition errors_result (errs : list verr) : result unit :=
  match errs with
  | [] => inr tt
  | _ => inl (ValidationError errs)
  end.

Lemma IntegerField_run_validators_reads (v : pyval) :
  reads (IntegerField_run_validators v)
        (fun self =>
           if in_EMPTY_VALUES v then inr tt
           else match collect_errors (IntegerField_validators self) v with
                | inl e => inl e
                | inr errs => errors_result errs
                end).
Proof.
  intro self. unfold IntegerField_run_validators, Field_run_validators.
  unfold bind, get_self. 
  destruct (in_EMPTY_VALUES v); [reflexivity|].
  destruct (collect_errors (IntegerField_validators self) v) as [e|[|e errs]];
    reflexivity.
Qed.

Lemma collect_errors_range (self : field) (v : pyval) (lo hi : option Z) (a b : bool) :
  max_value self = bound hi -> min_value self = bound lo ->
  above hi v = Some a -> below lo v = Some b ->
  collect_errors (IntegerField_validators self) v = inr (range_errors lo hi a b v).
Proof.
  intros Hmax Hmin Ha Hb. unfold IntegerField_validators, range_errors.
  rewrite Hmax, Hmin.
  destruct hi as [h|], lo as [l|]; cbn [bound is_none app collect_errors];
    unfold MaxValueValidator, MinValueValidator; cbn [above below] in Ha, Hb;
    rewrite ?Ha, ?Hb; try (injection Ha as <-); try (injection Hb as <-);
    try (destruct a); try (destruct b); reflexivity.
Qed.

(** A number that Python orders among the integers as [n]. *)
Definition weighs (v : pyval) (n : Z) : Prop :=
  forall m, num_compare v (VInt m) = Some (Some (n ?= m)).


Lemma weighs_float (n : Z) :
  Z.abs n < 2 ^ 52 -> weighs (VFloat (PyFloat.of_Z n)) n.
Proof. intros H m. simpl. rewrite (PyFloatInt.compare_Z_of_Z n m H). reflexivity. Qed.

Definition over (hi : option Z) (n : Z) : bool :=
  match hi with
  | Some h => h <? n
  | None => false
  end.

Definition under (lo : option Z) (n : Z) : bool :=
  match lo with
  | Some l => n <? l
  | None => false
  end.

Lemma above_weighs (hi : option Z) (v : pyval) (n : Z) :
  weighs v n -> above hi v = Some (over hi n).
Proof.
  intro W. destruct hi as [h|]; [|reflexivity]. unfold above, py_gt, over.
  rewrite W. simpl. rewrite <- Z.gtb_ltb. reflexivity.
Qed.

Lemma below_weighs (lo : option Z) (v : pyval) (n : Z) :
  weighs v n -> below lo v = Some (under lo n).
Proof.
  intro W. destruct lo as [l|]; [|reflexivity]. unfold below, py_lt, under.
  rewrite W. reflexivity.
Qed.






Section NumericFields.
Variable py_repr : pyval -> string.
Variable float_of_string : string -> option PyFloat.float.
Variable now_timestamp : PyFloat.float.

Lemma IntegerField_to_python_int (n : Z) (self : field) :
  IntegerField_to_python py_repr (VInt n) self = (self, inr (VInt n)).
Proof.
  unfold IntegerField_to_python, Field_to_python, bind, ret.
  cbn [in_EMPTY_VALUES str_of]. rewrite int_of_string_of_int. reflexivity.
Qed.

Lemma Field_validate_value (v : pyval) :
  in_EMPTY_VALUES v = false ->
  reads (Field_validate in_EMPTY_VALUES v) (fun _ => inr tt).
Proof. intros H self. unfold Field_validate, bind, get_self. rewrite H. reflexivity. Qed.


Lemma InitialFixMixin_clean_reads (super_clean : pyval -> M pyval) value self r :
  super_clean value self = (self, r) ->
  InitialFixMixin_clean super_clean value self =
  (self, match r with
         | inr v => inr (if is_none v then initial self else v)
         | inl e => inl e
         end).
Proof.
  intro H. unfold InitialFixMixin_clean, bind, get_self, ret. rewrite H.
  destruct r; reflexivity.
Qed.



Lemma FloatField_to_python_int (n : Z) (self : field) :
  Z.abs n < 2 ^ 52 ->
  FloatField_to_python float_of_string (VInt n) self =
  (self, inr (VFloat (PyFloat.of_Z n))).
Proof.
  intro H. unfold FloatField_to_python, Field_to_python, bind, ret, py_float.
  cbn [in_EMPTY_VALUES]. rewrite (PyFloatInt.isfinite_of_Z n H). reflexivity.
Qed.

Lemma FloatField_validate_finite (x : PyFloat.float) :
  PyFloat.isfinite x = true ->
  reads (FloatField_validate (VFloat x)) (fun _ => inr tt).
Proof.
  intros H self. unfold FloatField_validate.
  rewrite (bind_reads _ _ _ _ (Field_validate_value (VFloat x) eq_refl)).
  cbn [in_EMPTY_VALUES]. rewrite H. reflexivity.
Qed.


End NumericFields.

(* ================================================================== *)
(** ** The timestamp field *)
(* ================================================================== *)

Module TimestampFacts.
Import PyFloat PyFloatFacts PyDate PyDateFacts.

(** The float of a timestamp inside the 32-bit range: positive, finite and
    not above the upper bound. *)
Lemma truediv_in_range (N : Z) :
  0 < N <= 2147483647 * 1000000 ->
  exists p e,
    truediv N 1000000 = S754_finite false p e
    /\ compare_Z (S754_finite false p e) 0 = Some Gt
    /\ py_gt (VFloat (S754_finite false p e)) (VInt 2147483647) = Some false.
Proof.
  intro HN. destruct (truediv_microseconds N HN) as (m & k & E & Hk & Hm & R).
  exists (Z.to_pos m), (- k). split; [exact E|].
  pose proof (pow2_pos k ltac:(lia)) as Pk.
  unfold py_gt, num_compare, option_map, compare_Z, cmp_scaled, signed.
  rewrite Z.min_l by lia. rewrite Z2Pos.id by lia.
  replace (- k - - k) with 0 by lia. replace (0 - - k) with k by lia.
  change (2 ^ 0) with 1. rewrite Z.mul_1_r. split.
  - f_equal. rewrite Z.mul_0_l. apply Z.compare_gt_iff. lia.
  - f_equal. set (P := 2 ^ k) in *. clearbody P.
    destruct (Z.compare_spec m (2147483647 * P)) as [_|_|G]; try reflexivity.
    exfalso.
    assert (N * P <= 2147483647 * 1000000 * P)
      by (apply Z.mul_le_mono_nonneg_r; lia).
    lia.
Qed.

(** The seconds from 1970-01-01T00:00:00 to the fields of [dt]. *)
Definition epoch_seconds (dt : datetime) : Z :=
  (_ymd2ord (year dt) (month dt) (day dt) - epoch_ordinal) * 86400
  + hour dt * 3600 + minute dt * 60 + second dt.

Lemma epoch_microseconds_seconds (dt : datetime) :
  epoch_microseconds dt 0 = epoch_seconds dt * 1000000 + microsecond dt.
Proof. unfold epoch_microseconds, epoch_seconds. ring. Qed.

Lemma valid_datetime_bounds (dt : datetime) :
  valid_datetime dt = true ->
  1 <= month dt <= 12 /\ 1 <= day dt <= _days_in_month (year dt) (month dt)
  /\ 0 <= hour dt < 24 /\ 0 <= minute dt < 60 /\ 0 <= second dt < 60
  /\ 0 <= microsecond dt < 1000000.
Proof.
  unfold valid_datetime. rewrite !andb_true_iff, !Z.leb_le, !Z.ltb_lt. lia.
Qed.

(** [gmtime] gives back the fields of a valid [dt] of the 32-bit range. *)
Lemma gmtime_datetime_epoch_seconds (dt : datetime) :
  valid_datetime dt = true -> 0 <= epoch_seconds dt <= 2147483647 ->
  gmtime_datetime (epoch_seconds dt) (microsecond dt) =
  Some (mkDatetime (year dt) (month dt) (day dt) (hour dt) (minute dt)
                   (second dt) (microsecond dt) None).
Proof.
  intros Hv Hs. destruct (valid_datetime_bounds dt Hv) as (Hm & Hd & Hh & Hmi & Hse & _).
  unfold gmtime_datetime, epoch_seconds in *.
  set (o := _ymd2ord (year dt) (month dt) (day dt)) in *.
  set (t := hour dt * 3600 + minute dt * 60 + second dt).
  assert (Ht : 0 <= t < 86400) by (unfold t; lia).
  replace ((o - epoch_ordinal) * 86400 + hour dt * 3600 + minute dt * 60 + second dt)
    with ((o - epoch_ordinal) * 86400 + t) in * by (unfold t; ring).
  assert (Ho : epoch_ordinal <= o <= epoch_ordinal + 24855)
    by (unfold epoch_ordinal in *; lia).
  assert (D1 : ((o - epoch_ordinal) * 86400 + t) / 86400 = o - epoch_ordinal)
    by (symmetry; apply (Z.div_unique _ 86400 _ t); lia).
  assert (D2 : ((o - epoch_ordinal) * 86400 + t) mod 86400 = t)
    by (symmetry; apply (Z.mod_unique _ 86400 (o - epoch_ordinal)); lia).
  rewrite D1, D2.
  replace (o - epoch_ordinal + epoch_ordinal) with o by lia.
  pose proof (year_of_ordinal _ _ _ Hm Hd Ho) as Hy.
  destruct (Z.leb_spec 1 o) as [_|]; [|unfold epoch_ordinal in *; lia].
  destruct (Z.leb_spec o 3652059) as [_|]; [|unfold epoch_ordinal in *; lia].
  cbn [andb]. unfold o. rewrite (_ord2ymd_ymd2ord _ _ _ Hy Hm Hd).
  assert (E1 : t / 3600 = hour dt)
    by (symmetry; apply (Z.div_unique t 3600 _ (minute dt * 60 + second dt)); unfold t; lia).
  assert (E2 : t mod 3600 = minute dt * 60 + second dt)
    by (symmetry; apply (Z.mod_unique t 3600 (hour dt)); unfold t; lia).
  assert (E3 : (minute dt * 60 + second dt) / 60 = minute dt)
    by (symmetry; apply (Z.div_unique _ 60 _ (second dt)); lia).
  assert (E4 : t mod 60 = second dt)
    by (symmetry; apply (Z.mod_unique t 60 (hour dt * 60 + minute dt)); unfold t; lia).
  rewrite E1, E2, E3, E4, Z.min_l by lia. reflexivity.
Qed.

End TimestampFacts.

Lemma bind_result {A B} (c : M A) (k : A -> M B) self self' r :
  c self = (self', r) ->
  bind c k self = match r with
                  | inr a => k a self'
                  | inl e => (self', inl e)
                  end.
Proof. intro H. unfold bind. rewrite H. destruct r; reflexivity. Qed.

Section TimestampField.
Variable float_of_string : string -> option PyFloat.float.
Variable now_timestamp : PyFloat.float.

(** The check of [TimestampField.validate] on a float [x]. *)
Definition future_check (x : PyFloat.float) (self : field) : result unit :=
  if negb (_in_future self) then
    match py_gt (VFloat x) (VFloat now_timestamp) with
    | Some true => inl (ValidationError [Future])
    | Some false => inr tt
    | None => inl TypeError
    end
  else inr tt.

(** The field lets the time [x] pass: the future is allowed, or [x] is not
    after the clock. *)
Definition not_future (self : field) (x : PyFloat.float) : Prop :=
  _in_future self = true \/ py_gt (VFloat x) (VFloat now_timestamp) = Some false.

Lemma future_check_not_future (x : PyFloat.float) (self : field) :
  not_future self x -> future_check x self = inr tt.
Proof.
  unfold future_check. intros [H|H]; rewrite H; [reflexivity|].
  destruct (negb (_in_future self)); reflexivity.
Qed.

Lemma TimestampField_validate_finite (x : PyFloat.float) :
  PyFloat.isfinite x = true ->
  reads (TimestampField_validate now_timestamp (VFloat x)) (future_check x).
Proof.
  intros H self. unfold TimestampField_validate.
  rewrite (bind_reads _ _ _ _ (FloatField_validate_finite x H)).
  unfold bind, get_self, future_check. cbn [is_none negb andb].
  destruct (negb (_in_future self)); [|reflexivity].
  destruct (py_gt _ _) as [[]|]; reflexivity.
Qed.

(** What [TimestampField.clean] makes of a float that passed the checks. *)
Definition to_datetime (x : PyFloat.float) : result pyval :=
  if eq_int (VFloat x) 0 then inr (VDatetime PyDate.epoch_utc)
  else match PyDate.utcfromtimestamp_float x with
       | Some dt => inr (VDatetime (PyDate.replace_utc dt))
       | None => inl ValueError
       end.

Lemma gmtime_datetime_naive (sec us : Z) (dt : PyDate.datetime) :
  PyDate.gmtime_datetime sec us = Some dt -> PyDate.tzinfo dt = None.
Proof.
  unfold PyDate.gmtime_datetime. destruct (_ && _); [|discriminate].
  destruct (PyDate._ord2ymd _) as [[y m] d]. intro H. injection H as <-. reflexivity.
Qed.

Lemma utcfromtimestamp_float_naive (x : PyFloat.float) (dt : PyDate.datetime) :
  PyDate.utcfromtimestamp_float x = Some dt -> PyDate.tzinfo dt = None.
Proof.
  unfold PyDate.utcfromtimestamp_float.
  destruct (PyDate.double_to_timeval x) as [[sec us]|]; [|discriminate].
  apply gmtime_datetime_naive.
Qed.

(** [TimestampField.clean] on a value that [to_python] turns into the finite
    float [x]. *)
Lemma TimestampField_clean_number (v : pyval) (x : PyFloat.float)
      (lo hi : option Z) (a b : bool) (self : field) :
  FloatField_to_python float_of_string v self = (self, inr (VFloat x)) ->
  PyFloat.isfinite x = true ->
  max_value self = bound hi -> min_value self = bound lo ->
  above hi (VFloat x) = Some a -> below lo (VFloat x) = Some b ->
  TimestampField_clean float_of_string now_timestamp v self =
  (self, match future_check x self with
         | inl e => inl e
         | inr _ =>
             match range_errors lo hi a b (VFloat x) with
             | [] => to_datetime x
             | errs => inl (ValidationError errs)
             end
         end).
Proof.
  intros Hp Hf Hmax Hmin Ha Hb. unfold TimestampField_clean.
  assert (Hs : InitialFixMixin_clean
                 (Field_clean (FloatField_to_python float_of_string)
                              (TimestampField_validate now_timestamp)
                              IntegerField_run_validators) v self =
               (self, match future_check x self with
                      | inl e => inl e
                      | inr _ =>
                          match range_errors lo hi a b (VFloat x) with
                          | [] => inr (VFloat x)
                          | errs => inl (ValidationError errs)
                          end
                      end)).
  { erewrite InitialFixMixin_clean_reads
      by (apply (Field_clean_reads _ _ _ _ _ _ _ _ Hp
                   (TimestampField_validate_finite x Hf)
                   (IntegerField_run_validators_reads (VFloat x)))).
    cbn [in_EMPTY_VALUES].
    rewrite (collect_errors_range self (VFloat x) lo hi a b Hmax Hmin Ha Hb).
    destruct (future_check x self); [reflexivity|].
    destruct (range_errors lo hi a b (VFloat x)); reflexivity. }
  rewrite (bind_result _ _ _ _ _ Hs).
  destruct (future_check x self); [reflexivity|].
  destruct (range_errors lo hi a b (VFloat x)); [|reflexivity].
  unfold to_datetime. destruct (eq_int (VFloat x) 0); [reflexivity|].
  cbn [is_none negb]. unfold utcfromtimestamp.
  destruct x as [s| s| |s m e]; try discriminate Hf.
  - destruct (PyDate.utcfromtimestamp_float (S754_zero s)) as [dt|] eqn:E;
      [|reflexivity].
    unfold bind, lift_option, ret, make_aware_utc.
    rewrite (utcfromtimestamp_float_naive _ _ E). reflexivity.
  - destruct (PyDate.utcfromtimestamp_float (S754_finite s m e)) as [dt|] eqn:E;
      [|reflexivity].
    unfold bind, lift_option, ret, make_aware_utc.
    rewrite (utcfromtimestamp_float_naive _ _ E). reflexivity.
Qed.

Lemma TimestampField_clean_zero (v : pyval) (self : field) :
  FloatField_to_python float_of_string v self = (self, inr (VFloat (S754_zero false))) ->
  max_value self = VInt 2147483647 -> min_value self = VInt 0 ->
  not_future self (S754_zero false) ->
  TimestampField_clean float_of_string now_timestamp v self =
  (self, inr (VDatetime PyDate.epoch_utc)).
Proof.
  intros Hp Hmax Hmin Hn.
  rewrite (TimestampField_clean_number v _ (Some 0) (Some 2147483647) false false
             self Hp eq_refl Hmax Hmin eq_refl eq_refl).
  rewrite (future_check_not_future _ _ Hn). reflexivity.
Qed.

(** A clock that a positive time is not after is not before the epoch. *)
Lemma not_future_zero (p : positive) (e : Z) (self : field) :
  not_future self (S754_finite false p e) -> not_future self (S754_zero false).
Proof.
  intros [H|H]; [left; exact H|right].
  unfold py_gt, num_compare, option_map in *.
  destruct now_timestamp as [s|s| |s m e']; cbn [PyFloat.compare] in *.
  - exfalso. unfold PyFloat.cmp_scaled, PyFloat.signed in H.
    pose proof (PyFloatFacts.pow2_pos (e - Z.min e 0) ltac:(lia)) as P.
    rewrite Z.mul_0_l in H.
    assert (G : (Z.pos p * 2 ^ (e - Z.min e 0) ?= 0) = Gt)
      by (apply Z.compare_gt_iff; lia).
    rewrite G in H. discriminate H.
  - destruct s; [discriminate H|reflexivity].
  - reflexivity.
  - unfold PyFloat.cmp_scaled, PyFloat.signed in *.
    pose proof (PyFloatFacts.pow2_pos (e' - Z.min 0 e') ltac:(lia)) as P1.
    pose proof (PyFloatFacts.pow2_pos (e' - Z.min e e') ltac:(lia)) as P2.
    pose proof (PyFloatFacts.pow2_pos (e - Z.min e e') ltac:(lia)) as P3.
    rewrite Z.mul_0_l. destruct s.
    + exfalso.
      assert (G : (Z.pos p * 2 ^ (e - Z.min e e') ?= Z.neg m * 2 ^ (e' - Z.min e e')) = Gt)
        by (apply Z.compare_gt_iff; lia).
      rewrite G in H. discriminate H.
    + assert (L : (0 ?= Z.pos m * 2 ^ (e' - Z.min 0 e')) = Lt)
        by (apply Z.compare_lt_iff; lia).
      rewrite L. reflexivity.
Qed.

End TimestampField.

(** C3 (amended).  On a timestamp field with the bounds 0 and 2147483647
    that lets the time of [dt] pass (the future is allowed, or [dt] is not
    after the clock), [clean(to_timestamp(dt))] returns [dt] itself, for
    every valid UTC-aware [dt] from the epoch to 2147483647 seconds after
    it, microseconds included; and [clean(0)] returns
    1970-01-01T00:00:00Z.  The field object is left as it is. *)
Theorem TimestampField_round_trip
        (float_of_string : string -> option PyFloat.float)
        (now_timestamp : PyFloat.float) (self : field) (dt : PyDate.datetime) :
  max_value self = VInt 2147483647 -> min_value self = VInt 0 ->
  not_future now_timestamp self (to_timestamp dt) ->
  PyDate.valid_datetime dt = true -> PyDate.tzinfo dt = Some 0 ->
  0 <= PyDate.epoch_microseconds dt 0 <= 2147483647 * 1000000 ->
  TimestampField_clean float_of_string now_timestamp (VFloat (to_timestamp dt)) self
  = (self, inr (VDatetime dt))
  /\ TimestampField_clean float_of_string now_timestamp (VInt 0) self
     = (self, inr (VDatetime PyDate.epoch_utc)).
Proof.
  intros Hmax Hmin Hn Hv Htz Hr.
  unfold to_timestamp, PyDate.timestamp in *. rewrite Htz in *.
  rewrite TimestampFacts.epoch_microseconds_seconds in *.
  destruct (TimestampFacts.valid_datetime_bounds dt Hv) as (_ & _ & _ & _ & _ & Hus).
  set (S := TimestampFacts.epoch_seconds dt) in *.
  set (U := PyDate.microsecond dt) in *.
  assert (HS : 0 <= S <= 2147483647) by lia.
  pose proof (TimestampFacts.gmtime_datetime_epoch_seconds dt Hv HS) as Hg.
  fold S U in Hg.
  assert (Edt : PyDate.replace_utc
                  (PyDate.mkDatetime (PyDate.year dt) (PyDate.month dt) (PyDate.day dt)
                     (PyDate.hour dt) (PyDate.minute dt) (PyDate.second dt) U None)
                = dt).
  { unfold U. destruct dt. simpl in *. subst. reflexivity. }
  destruct (Z.eq_dec (S * 1000000 + U) 0) as [E0|NZ].
  - (* the epoch itself *)
    rewrite E0 in *. change (PyFloat.truediv 0 1000000) with (S754_zero false) in *.
    assert (S = 0 /\ U = 0) as [ES EU] by lia.
    rewrite ES, EU in *. 
    assert (Ee : dt = PyDate.epoch_utc).
    { rewrite <- Edt.
      change (PyDate.gmtime_datetime 0 0)
        with (Some (PyDate.mkDatetime 1970 1 1 0 0 0 0 None)) in Hg.
      injection Hg as <- <- <- <- <- <-. reflexivity. }
    rewrite Ee.
    split; apply TimestampField_clean_zero; auto.
  - assert (HN : 0 < S * 1000000 + U <= 2147483647 * 1000000) by lia.
    destruct (TimestampFacts.truediv_in_range _ HN) as (p & e & Ex & C0 & Chi).
    pose proof (PyDateFacts.double_to_timeval_microseconds S U ltac:(lia) Hus HN) as Hd.
    rewrite Ex in *. split.
    + rewrite (TimestampField_clean_number float_of_string now_timestamp
                 (VFloat (S754_finite false p e)) (S754_finite false p e)
                 (Some 0) (Some 2147483647) false false self
                 eq_refl eq_refl Hmax Hmin Chi).
      * rewrite (future_check_not_future _ _ _ Hn). cbn [range_errors app].
        unfold to_datetime, eq_int. rewrite C0.
        unfold PyDate.utcfromtimestamp_float. rewrite Hd, Hg, Edt. reflexivity.
      * unfold below, py_lt, num_compare, option_map. rewrite C0. reflexivity.
    + apply TimestampField_clean_zero; auto.
      apply (not_future_zero _ p e). exact Hn.
Qed.

(** [TimestampField()]: the future is allowed unless [in_future=False] is
    passed. *)
Definition timestamp_field (in_future : bool) : field :=
  mkField cTimestampField true VNone None 0 None [] (VInt 2147483647) (VInt 0)
          in_future "" None VNone true None None.

(** 2017-05-17T12:30:45.123456Z, before the clock of [Sample], and
    2030-01-01T00:00:00Z, after it. *)
Definition dt_2017 : PyDate.datetime :=
  PyDate.mkDatetime 2017 5 17 12 30 45 123456 (Some 0).

Definition dt_2030 : PyDate.datetime :=
  PyDate.mkDatetime 2030 1 1 0 0 0 0 (Some 0).

(** A field made with [in_future=False] gives 2017-05-17T12:30:45.123456Z
    back at a clock of 2026, and one that allows the future gives
    2030-01-01T00:00:00Z back. *)
Lemma TimestampField_round_trip_witness :
  TimestampField_init true None false = Some (timestamp_field false)
  /\ TimestampField_clean Sample.float_of_string Sample.now_timestamp
       (VFloat (to_timestamp dt_2017)) (timestamp_field false)
     = (timestamp_field false, inr (VDatetime dt_2017))
  /\ TimestampField_clean Sample.float_of_string Sample.now_timestamp
       (VFloat (to_timestamp dt_2030)) (timestamp_field true)
     = (timestamp_field true, inr (VDatetime dt_2030)).
Proof.
  refine (conj eq_refl (conj _ _)).
  - exact (proj1 (TimestampField_round_trip Sample.float_of_string
                    Sample.now_timestamp (timestamp_field false) dt_2017
                    eq_refl eq_refl (or_intror eq_refl) eq_refl eq_refl
                    ltac:(vm_compute; split; discriminate))).
  - exact (proj1 (TimestampField_round_trip Sample.float_of_string
                    Sample.now_timestamp (timestamp_field true) dt_2030
                    eq_refl eq_refl (or_introl eq_refl) eq_refl eq_refl
                    ltac:(vm_compute; split; discriminate))).
Defined.

(** C3, the claim as it stands fails: a field made with [in_future=False]
    refuses the timestamp of 2030-01-01T00:00:00Z, a valid UTC datetime of
    the 32-bit range, at a clock of 2026. *)
Lemma TimestampField_rejects_future_time :
  PyDate.valid_datetime dt_2030 = true
  /\ PyDate.tzinfo dt_2030 = Some 0
  /\ PyDate.epoch_microseconds dt_2030 0 = 1893456000 * 1000000
  /\ option_map (fun self => snd (Sample.clean self (VFloat (to_timestamp dt_2030))))
                (TimestampField_init true None false)
     = Some (inl (ValidationError [Future])).
Proof. repeat split. Qed.

(* ================================================================== *)
(** ** Range boundaries *)
(* ================================================================== *)






Section RangeBoundaries.
Variable py_repr : pyval -> string.
Variable float_of_string : string -> option PyFloat.float.
Variable json_loads : string -> option pyval.
Variable jsonschema_validate : pyval -> pyval -> option string.
Variable strptime : string -> string -> option PyDate.datetime.
Variable all_timezones : list string.
Variable url_validator : bool -> string -> bool.
Variable validate_email : pyval -> bool.
Variable now_timestamp : PyFloat.float.
Variable ID_FIELD_MAX_VALUE : pyval.



End RangeBoundaries.




(* ================================================================== *)
(** * Further properties of the fields *)
(* ================================================================== *)

(* ================================================================== *)
(** ** The color field and the timezone field on every string *)
(* ================================================================== *)

(** [re.match] with an anchored row of one-character atoms, on a string
    that does not end in a blank. *)
Lemma re_match_atoms (r : PyRe.regex) (atoms : list atom) (s : string) :
  same_run 0 r (PyRe.Seq PyRe.Bol (atoms_then atoms PyRe.Eol)) ->
  (forall c, Sample.last_char s = Some c -> PyStr.isspace c = false) ->
  PyRe.re_match 0 r s = if has_shape 0 atoms s then Some s else None.
Proof.
  intros Hr Hlast. unfold PyRe.re_match.
  rewrite Hr, run_Bol_start, run_atoms_then, (eat_has_shape 0 atoms None s).
  destruct (eat 0 atoms (None, s)) as [[prev rest]|] eqn:E; [|reflexivity].
  simpl PyRe.run. unfold PyRe.at_eol. simpl snd.
  destruct rest as [|c rest'].
  - rewrite Nat.sub_0_r, take_all. reflexivity.
  - pose proof (eat_last 0 _ _ _ E) as Hl. simpl in Hl.
    destruct rest'; simpl; [|reflexivity].
    destruct (Ascii.eqb c PyRe.newline) eqn:Ec; [|reflexivity].
    apply Ascii.eqb_eq in Ec. subst c.
    specialize (Hl ltac:(discriminate)).
    specialize (Hlast _ Hl). discriminate Hlast.
Qed.

Lemma strip_last (s : string) (c : ascii) :
  Sample.last_char (PyStr.strip s) = Some c -> PyStr.isspace c = false.
Proof. apply rstrip_last. Qed.

(** Six lowercase hexadecimal digits. *)
Definition color_shape (s : string) : bool := has_shape 0 (repeat hex_atom 6) s.

Lemma color_regex_atoms :
  same_run 0 PyRe.color_regex
           (PyRe.Seq PyRe.Bol (atoms_then (repeat hex_atom 6) PyRe.Eol)).
Proof.
  unfold PyRe.color_regex. apply same_run_Seq.
  apply (same_run_Rep 0 6 hex_atom). apply same_run_refl.
Qed.

Lemma hex_atom_plain (a : atom) (c : ascii) :
  In a (repeat hex_atom 6) -> atom_ok 0 a c = true -> plain_char c = true.
Proof.
  intros Ha. apply repeat_spec in Ha. subst a.
  apply uuid_atom_plain. left. reflexivity.
Qed.

(** X1.  [ColorField.clean] of a string looks at the text without the
    blanks around it: the empty text and a text of six lowercase
    hexadecimal digits come back, every other text raises the color error.
    Capitals and a leading '#' are refused.  The field object is left as
    it is. *)
Theorem ColorField_clean_spec (py_repr : pyval -> string) (self : field) (s : string) :
  ColorField_clean py_repr (VStr s) self =
  (self, let t := PyStr.strip s in
         if String.eqb t "" || color_shape t then inr (VStr t)
         else inl (ValidationError [BadColor (VStr t)]))
  /\ color_shape "00ff7f" = true
  /\ color_shape "00FF7F" = false
  /\ color_shape "#00ff7f" = false
  /\ color_shape "0ff" = false.
Proof.
  split; [|repeat split].
  unfold ColorField_clean.
  rewrite (RestCharField_clean_with_str py_repr _ _ s self
             (ColorField_validate_str (PyStr.strip s))).
  cbv zeta. set (t := PyStr.strip s).
  destruct (String.eqb_spec t "") as [->|Ne]; [reflexivity|].
  rewrite (re_match_atoms _ _ t color_regex_atoms (strip_last s)).
  fold (color_shape t). cbn [orb].
  destruct (color_shape t) eqn:Ec; [|reflexivity].
  unfold null_check.
  rewrite (all_plain_no_nul t (has_shape_all_plain _ t hex_atom_plain Ec)).
  reflexivity.
Qed.

Section Timezone.
Variable py_repr : pyval -> string.
Variable all_timezones : list string.

Lemma TimezoneField_validate_str (t : string) :
  reads (TimezoneField_validate all_timezones (VStr t))
        (fun _ => if negb (String.eqb t "") && negb (existsb (String.eqb t) all_timezones)
                  then inl (ValidationError [BadTimezone (VStr t)])
                  else inr tt).
Proof.
  intro self. unfold TimezoneField_validate.
  rewrite (bind_reads _ _ _ _ (RestCharField_validate_reads _)).
  unfold required_check. cbn [is_none andb truthy].
  destruct (negb (String.eqb t "") && negb (existsb (String.eqb t) all_timezones));
    reflexivity.
Qed.

(** X2.  [TimezoneField.clean] of a string looks at the text without the
    blanks around it: the empty text comes back; a text that is a name of
    the timezone list, letter for letter, comes back (unless it holds a
    NUL); every other text raises the timezone error. *)
Theorem TimezoneField_clean_spec (self : field) (s : string) :
  TimezoneField_clean py_repr all_timezones (VStr s) self =
  (self, let t := PyStr.strip s in
         if String.eqb t "" then inr (VStr t)
         else if existsb (String.eqb t) all_timezones then
                if PyStr.contains (PyStr.chr 0) t
                then inl (ValidationError [NullCharacters])
                else inr (VStr t)
              else inl (ValidationError [BadTimezone (VStr t)])).
Proof.
  unfold TimezoneField_clean.
  rewrite (RestCharField_clean_with_str py_repr _ _ s self
             (TimezoneField_validate_str (PyStr.strip s))).
  cbv zeta. set (t := PyStr.strip s).
  destruct (String.eqb_spec t "") as [->|Ne]; [reflexivity|].
  cbn [negb andb].
  destruct (existsb (String.eqb t) all_timezones); cbn [negb]; [|reflexivity].
  unfold null_check. destruct (PyStr.contains (PyStr.chr 0) t); reflexivity.
Qed.

End Timezone.

(* ================================================================== *)
(** ** The choice fields *)
(* ================================================================== *)

Section Choices.
Variable py_repr : pyval -> string.

(** [RestChoiceField.clean] of a string. *)
Lemma RestChoiceField_clean_str (self : field) (s : string) :
  RestChoiceField_clean py_repr (VStr s) self =
  (self, if valid_value py_repr self (VStr s)
            || (match choices self with [] => true | _ => false end
                && String.eqb s "")
         then inr (VStr s)
         else inl (ValidationError [InvalidChoice (VStr s)])).
Proof.
  unfold RestChoiceField_clean, EmptyStringFixMixing_clean. cbn [is_none].
  unfold Field_clean, RestChoiceField_to_python, EmptyStringFixMixing_to_python,
    ChoiceField_to_python, EmptyStringFixMixing_empty_values.
  cbn [is_none str_of]. unfold bind at 1, ret at 1.
  unfold RestChoiceField_validate, EmptyStringFixMixing_validate,
    ChoiceField_validate, Field_validate, Field_run_validators.
  cbn [is_none negb andb collect_errors truthy].
  unfold bind, get_self, ret, fail, raise.
  destruct (valid_value py_repr self (VStr s)) eqn:V;
    destruct (choices self) eqn:C; destruct (String.eqb s "") eqn:E;
    cbn; rewrite ?V, ?C, ?E; cbn; rewrite ?V, ?C, ?E; reflexivity.
Qed.

(** The keys of choices given as plain strings. *)
Lemma valid_value_bare (c : field_class) (required : bool) (initial : pyval)
      (keys : list string) (s : string) :
  valid_value py_repr
    (RestChoiceField_init c required initial
                          (Some (map (fun k => Bare (VStr k)) keys)))
    (VStr s)
  = existsb (String.eqb s) keys.
Proof.
  unfold valid_value, RestChoiceField_init. cbn [choices str_of].
  rewrite map_map. cbn [normalize_choice].
  induction keys as [|k keys IH]; [reflexivity|].
  cbn [map existsb str_of]. rewrite IH. reflexivity.
Qed.

(** X3.  [RestChoiceField.clean] of a string returns it as it is, blanks
    included, when it is the text of a choice, and raises the choice error
    when not; the empty string is refused like any other string that is no
    choice, unless the field has no choices at all.  Choices given as
    plain values are their own keys. *)
Theorem RestChoiceField_clean_spec (self : field) (s : string) :
  RestChoiceField_clean py_repr (VStr s) self =
  (self, if valid_value py_repr self (VStr s)
            || (match choices self with [] => true | _ => false end
                && String.eqb s "")
         then inr (VStr s)
         else inl (ValidationError [InvalidChoice (VStr s)]))
  /\ (forall c required initial keys,
         RestChoiceField_clean py_repr (VStr s)
           (RestChoiceField_init c required initial
                                 (Some (map (fun k => Bare (VStr k)) keys)))
         = (RestChoiceField_init c required initial
                                 (Some (map (fun k => Bare (VStr k)) keys)),
            if existsb (String.eqb s) keys
               || (match keys with [] => true | _ => false end && String.eqb s "")
            then inr (VStr s)
            else inl (ValidationError [InvalidChoice (VStr s)]))).
Proof.
  split; [apply RestChoiceField_clean_str|].
  intros c required initial keys.
  rewrite RestChoiceField_clean_str, valid_value_bare.
  destruct keys; reflexivity.
Qed.

(** X4.  [DateUnitField.clean] of a string returns 'hour', 'day' and
    'week' and raises the choice error for every other string: the empty
    string, another case, blanks around a unit. *)
Theorem DateUnitField_clean_spec (required : bool) (initial : pyval) (s : string) :
  RestChoiceField_clean py_repr (VStr s) (DateUnitField_init required initial) =
  (DateUnitField_init required initial,
   if String.eqb s "hour" || String.eqb s "day" || String.eqb s "week"
   then inr (VStr s)
   else inl (ValidationError [InvalidChoice (VStr s)])).
Proof.
  unfold DateUnitField_init, UNIT_CHOICES.
  change [Bare (VStr "hour"); Bare (VStr "day"); Bare (VStr "week")]
    with (map (fun k => Bare (VStr k)) ["hour"; "day"; "week"]).
  rewrite RestChoiceField_clean_str, valid_value_bare.
  cbn [existsb map]. rewrite !orb_false_r, orb_assoc. reflexivity.
Qed.

End Choices.

(* ================================================================== *)
(** ** Integer fields: numbers given as text, the defaults of the bounds *)
(* ================================================================== *)

Import PyStrFacts.

(** The text of an integer: an optional minus sign and digits. *)
Definition numeral (s : string) : bool :=
  match s with
  | String "-" t => negb (String.eqb t "") && all_digits t
  | _ => negb (String.eqb s "") && all_digits s
  end.

Lemma string_of_int_numeral (n : Z) : numeral (PyStr.string_of_int n) = true.
Proof.
  unfold PyStr.string_of_int. destruct (Z.ltb_spec n 0) as [Hn|Hn].
  - fold (digits_of (- n)).
    destruct (digits_of_spec (- n) ltac:(lia)) as (N & A & _).
    cbn [numeral]. rewrite A, andb_true_r. apply negb_true_iff.
    apply String.eqb_neq. exact N.
  - fold (digits_of n).
    destruct (digits_of_spec n Hn) as (N & A & _).
    assert (E : numeral (digits_of n)
                = negb (String.eqb (digits_of n) "") && all_digits (digits_of n)).
    { destruct (digits_of n) as [|c t]; [reflexivity|].
      cbn [all_digits] in A. apply andb_prop in A as [Hc _].
      destruct c as [[] [] [] [] [] [] [] []]; try reflexivity;
        vm_compute in Hc; discriminate Hc. }
    rewrite E, A, andb_true_r. apply negb_true_iff.
    apply String.eqb_neq. exact N.
Qed.

Lemma numeral_nonempty (s : string) : numeral s = true -> s <> "".
Proof. intros H E. subst s. discriminate H. Qed.

(** What [re_decimal] cuts off a numeral: a dot, zeros and blanks. *)
Lemma re_decimal_sub_digits_tail (d z : string) :
  all_digits d = true ->
  re_decimal_sub (d ++ String "." z) = d ++ (if zeros_then_spaces z then "" else String "." (re_decimal_sub z)).
Proof.
  induction d as [|c t IH]; intro H.
  - cbn [append re_decimal_sub]. change (Ascii.eqb "." ".") with true. cbn [andb].
    destruct (zeros_then_spaces z); reflexivity.
  - cbn [all_digits] in H. apply andb_prop in H as [Hc Ht].
    cbn [append re_decimal_sub]. destruct (digit_char c Hc) as [_ ->].
    cbn [andb]. rewrite (IH Ht). reflexivity.
Qed.

Lemma re_decimal_sub_numeral_tail (s z : string) :
  numeral s = true -> zeros_then_spaces z = true ->
  re_decimal_sub (s ++ String "." z) = s.
Proof.
  intros H Hz.
  assert (D : forall d, all_digits d = true -> re_decimal_sub (d ++ String "." z) = d).
  { intros d Hd. rewrite (re_decimal_sub_digits_tail d z Hd), Hz.
    clear. induction d as [|c t IH]; [reflexivity|]. cbn [append]. rewrite IH. reflexivity. }
  destruct s as [|c t]; [discriminate H|].
  destruct (Ascii.eqb_spec c "-") as [->|Nc].
  - cbn [numeral] in H. apply andb_prop in H as [_ Ht].
    cbn [append re_decimal_sub]. change (Ascii.eqb "-" ".") with false. cbn [andb].
    rewrite (D t Ht). reflexivity.
  - apply D.
    assert (E : numeral (String c t) = negb (String.eqb (String c t) "") && all_digits (String c t)).
    { destruct c as [[] [] [] [] [] [] [] []]; try reflexivity. contradiction Nc. reflexivity. }
    rewrite E in H. apply andb_prop in H as [_ H]. exact H.
Qed.

Lemma re_decimal_sub_numeral (s : string) :
  numeral s = true -> re_decimal_sub s = s.
Proof.
  intro H. destruct s as [|c t]; [reflexivity|].
  destruct (Ascii.eqb_spec c "-") as [->|Nc].
  - cbn [numeral] in H. apply andb_prop in H as [_ Ht].
    cbn [re_decimal_sub]. change (Ascii.eqb "-" ".") with false. cbn [andb].
    rewrite (re_decimal_sub_digits t Ht). reflexivity.
  - apply re_decimal_sub_digits.
    assert (E : numeral (String c t)
                = negb (String.eqb (String c t) "") && all_digits (String c t)).
    { destruct c as [[] [] [] [] [] [] [] []]; try reflexivity.
      contradiction Nc. reflexivity. }
    rewrite E in H. apply andb_prop in H as [_ H]. exact H.
Qed.

(** [int] stops at a dot. *)
Lemma int_digits_dot (d z : string) : forall acc us,
  PyStr.int_digits acc us (d ++ String "." z) = None.
Proof.
  induction d as [|c t IH]; intros acc us; cbn [append PyStr.int_digits].
  - change (PyStr.isdigit ".") with false. change (Ascii.eqb "." "_") with false.
    reflexivity.
  - destruct (PyStr.isdigit c); [apply IH|].
    destruct (Ascii.eqb c "_"); [|reflexivity].
    destruct us; [reflexivity|apply IH].
Qed.

Lemma int_unsigned_dot (d z : string) :
  PyStr.int_unsigned (d ++ String "." z) = None.
Proof.
  destruct d as [|c t]; [reflexivity|]. cbn [append PyStr.int_unsigned].
  destruct (PyStr.isdigit c); [apply int_digits_dot|reflexivity].
Qed.

Lemma rstrip_dot (z : string) :
  PyStr.rstrip (String "." z) = String "." (PyStr.rstrip z).
Proof. cbn [PyStr.rstrip]. destruct (PyStr.rstrip z); reflexivity. Qed.

Lemma rstrip_app (a u : string) :
  PyStr.rstrip u <> "" -> PyStr.rstrip (a ++ u) = a ++ PyStr.rstrip u.
Proof.
  intro H. induction a as [|c t IH]; [reflexivity|].
  cbn [append PyStr.rstrip]. rewrite IH.
  destruct (t ++ PyStr.rstrip u) as [|d w] eqn:E; [|reflexivity].
  exfalso. destruct t; cbn [append] in E; [apply H, E|discriminate E].
Qed.

(** The text of an integer with a fraction that is not zero is no
    integer for [int]. *)
Lemma int_of_string_fraction (s z : string) :
  numeral s = true -> zeros_then_spaces z = false ->
  PyStr.int_of_string (re_decimal_sub (s ++ String "." z)) = None.
Proof.
  intros H Hz.
  assert (R : exists z', re_decimal_sub (s ++ String "." z) = s ++ String "." z').
  { assert (D : forall d, all_digits d = true ->
                 re_decimal_sub (d ++ String "." z)
                 = d ++ String "." (re_decimal_sub z))
      by (intros d Hd; rewrite (re_decimal_sub_digits_tail d z Hd), Hz; reflexivity).
    exists (re_decimal_sub z).
    destruct s as [|c t]; [discriminate H|].
    destruct (Ascii.eqb_spec c "-") as [->|Nc].
    - cbn [numeral] in H. apply andb_prop in H as [_ Ht].
      cbn [append re_decimal_sub]. change (Ascii.eqb "-" ".") with false.
      cbn [andb]. rewrite (D t Ht). reflexivity.
    - apply D.
      assert (E : numeral (String c t)
                  = negb (String.eqb (String c t) "") && all_digits (String c t)).
      { destruct c as [[] [] [] [] [] [] [] []]; try reflexivity.
        contradiction Nc. reflexivity. }
      rewrite E in H. apply andb_prop in H as [_ H]. exact H. }
  destruct R as [z' ->].
  unfold PyStr.int_of_string, PyStr.strip.
  assert (L : PyStr.lstrip (s ++ String "." z') = s ++ String "." z').
  { destruct s as [|c t]; [discriminate H|]. cbn [append PyStr.lstrip].
    assert (Hc : PyStr.isspace c = false).
    { destruct (Ascii.eqb_spec c "-") as [->|Nc]; [reflexivity|].
      assert (E : numeral (String c t)
                  = negb (String.eqb (String c t) "") && all_digits (String c t)).
      { destruct c as [[] [] [] [] [] [] [] []]; try reflexivity.
        contradiction Nc. reflexivity. }
      rewrite E in H. apply andb_prop in H as [_ H].
      cbn [all_digits] in H. apply andb_prop in H as [Hd _].
      destruct (digit_char c Hd) as [P _]. unfold plain_char in P.
      apply andb_prop in P as [P _]. apply negb_true_iff in P. exact P. }
    rewrite Hc. reflexivity. }
  rewrite L, rstrip_app by (rewrite rstrip_dot; discriminate).
  rewrite rstrip_dot. set (w := PyStr.rstrip z').
  destruct s as [|c t]; [discriminate H|].
  destruct (Ascii.eqb_spec c "-") as [->|Nc].
  - cbn [append]. rewrite int_unsigned_dot. reflexivity.
  - assert (E : numeral (String c t)
                = negb (String.eqb (String c t) "") && all_digits (String c t)).
    { destruct c as [[] [] [] [] [] [] [] []]; try reflexivity.
      contradiction Nc. reflexivity. }
    rewrite E in H. apply andb_prop in H as [_ H].
    cbn [all_digits] in H. apply andb_prop in H as [Hd _].
    transitivity (PyStr.int_unsigned (String c t ++ String "." w));
      [|apply int_unsigned_dot].
    cbn [append].
    destruct c as [[] [] [] [] [] [] [] []]; try reflexivity;
      vm_compute in Hd; discriminate Hd.
Qed.

Section IntegerText.
Variable py_repr : pyval -> string.

Lemma IntegerField_to_python_text (s : string) (n : Z) (self : field) :
  s <> "" -> PyStr.int_of_string (re_decimal_sub s) = Some n ->
  IntegerField_to_python py_repr (VStr s) self = (self, inr (VInt n)).
Proof.
  intros Hs H. unfold IntegerField_to_python, Field_to_python, bind, ret.
  destruct s as [|c t]; [congruence|]. cbn [in_EMPTY_VALUES str_of].
  rewrite H. reflexivity.
Qed.

Lemma RestIntegerField_clean_same (v w : pyval) (self : field) :
  IntegerField_to_python py_repr v self = IntegerField_to_python py_repr w self ->
  RestIntegerField_clean py_repr v self = RestIntegerField_clean py_repr w self.
Proof.
  intro H. unfold RestIntegerField_clean, InitialFixMixin_clean, Field_clean.
  unfold bind. rewrite H. reflexivity.
Qed.

Lemma app_nonempty (s t : string) : s <> "" -> s ++ t <> "".
Proof. destruct s; [congruence|discriminate]. Qed.

(** X5.  An integer field reads a number from its text: [clean(str(n))]
    is [clean(n)], whatever the bounds; so is the text with a fraction of
    zeros ('5.0', '5.' and '5.00 '), while a fraction that is not zero
    ('5.5') raises the invalid-number error. *)
Theorem RestIntegerField_clean_text (self : field) (n : Z) (z : string) :
  RestIntegerField_clean py_repr (VStr (PyStr.string_of_int n)) self
  = RestIntegerField_clean py_repr (VInt n) self
  /\ RestIntegerField_clean py_repr
       (VStr (PyStr.string_of_int n ++ String "." z)) self
     = (if zeros_then_spaces z
        then RestIntegerField_clean py_repr (VInt n) self
        else (self, inl (ValidationError [Invalid]))).
Proof.
  pose proof (string_of_int_numeral n) as Hn.
  pose proof (numeral_nonempty _ Hn) as Ne.
  split.
  - apply RestIntegerField_clean_same.
    rewrite (IntegerField_to_python_text _ n self Ne (int_of_string_of_int n)).
    symmetry. apply IntegerField_to_python_int.
  - destruct (zeros_then_spaces z) eqn:Hz.
    + apply RestIntegerField_clean_same.
      rewrite (IntegerField_to_python_text _ n self (app_nonempty _ _ Ne)).
      * symmetry. apply IntegerField_to_python_int.
      * rewrite (re_decimal_sub_numeral_tail _ z Hn Hz).
        rewrite <- (re_decimal_sub_numeral _ Hn) at 1. apply int_of_string_of_int.
    + unfold RestIntegerField_clean, InitialFixMixin_clean, Field_clean,
        IntegerField_to_python, Field_to_python.
      unfold bind, ret, fail, raise.
      destruct (PyStr.string_of_int n ++ String "." z) as [|c t] eqn:E;
        [exfalso; exact (app_nonempty _ _ Ne E)|].
      cbn [in_EMPTY_VALUES str_of]. rewrite <- E.
      rewrite (int_of_string_fraction _ z Hn Hz). reflexivity.
Qed.

End IntegerText.

Section Defaults.
Variable py_repr : pyval -> string.





End Defaults.

(* ================================================================== *)
(** ** The truncating field and the e-mail field *)
(* ================================================================== *)

Lemma take_length (k : nat) (s : string) : (String.length (PyStr.take k s) <= k)%nat.
Proof.
  revert s. induction k as [|k IH]; intro s; [reflexivity|].
  destruct s as [|c t]; cbn; [lia|]. specialize (IH t). lia.
Qed.

Lemma lstrip_length (s : string) :
  (String.length (PyStr.lstrip s) <= String.length s)%nat.
Proof.
  induction s as [|c t IH]; [reflexivity|]. cbn [PyStr.lstrip].
  destruct (PyStr.isspace c); cbn [String.length]; lia.
Qed.

Lemma rstrip_length (s : string) :
  (String.length (PyStr.rstrip s) <= String.length s)%nat.
Proof.
  induction s as [|c t IH]; [reflexivity|]. cbn [PyStr.rstrip].
  destruct (PyStr.rstrip t) as [|d u].
  - destruct (PyStr.isspace c); cbn [String.length] in *; lia.
  - cbn [String.length] in *. lia.
Qed.

Lemma strip_length (s : string) :
  (String.length (PyStr.strip s) <= String.length s)%nat.
Proof.
  unfold PyStr.strip. pose proof (rstrip_length (PyStr.lstrip s)).
  pose proof (lstrip_length s). lia.
Qed.

Lemma slice_to_empty (n : Z) : PyStr.slice_to n "" = "".
Proof.
  unfold PyStr.slice_to. destruct (0 <=? n); [destruct (Z.to_nat n)|]; reflexivity.
Qed.

Section Truncated.
Variable py_repr : pyval -> string.

(** The text [TruncatedCharField.to_python] makes of a string: cut, then
    stripped. *)
Definition truncated (self : field) (s : string) : string :=
  PyStr.strip (match _truncate_length self with
               | Some n => PyStr.slice_to n s
               | None => s
               end).

Lemma TruncatedCharField_to_python_str (s : string) (self : field) :
  TruncatedCharField_to_python py_repr (VStr s) self
  = (self, inr (VStr (truncated self s))).
Proof.
  unfold TruncatedCharField_to_python, truncated, bind, get_self.
  destruct (_truncate_length self) as [n|]; [|reflexivity].
  cbn [truthy]. destruct (String.eqb_spec s "") as [->|Ne]; cbn [negb].
  - rewrite slice_to_empty. reflexivity.
  - reflexivity.
Qed.

(** X8.  [TruncatedCharField.clean] of a string cuts it to the first
    [truncate_length] characters and then strips the blanks around what
    is left, so blanks in front count towards the limit; the result is
    never longer than [truncate_length].  Without a limit the string is
    only stripped. *)
Theorem TruncatedCharField_clean_spec (self : field) (s : string) :
  TruncatedCharField_clean py_repr (VStr s) self =
  (self, if PyStr.contains (PyStr.chr 0) (truncated self s)
         then inl (ValidationError [NullCharacters])
         else inr (VStr (truncated self s)))
  /\ (forall n, _truncate_length self = Some n -> 0 < n ->
                truncated self s = PyStr.strip (PyStr.take (Z.to_nat n) s)
                /\ Z.of_nat (String.length (truncated self s)) <= n)
  /\ (_truncate_length self = None -> truncated self s = PyStr.strip s).
Proof.
  refine (conj _ (conj _ _)).
  - unfold TruncatedCharField_clean, RestCharField_clean_with.
    rewrite EmptyStringFixMixing_clean_value by reflexivity.
    rewrite (Field_clean_reads _ _ _ _ _ _ _ _
               (TruncatedCharField_to_python_str s self)
               (RestCharField_validate_reads _)
               (RestCharField_run_validators_reads _)).
    unfold required_check, null_check. cbn [is_none andb].
    destruct (PyStr.contains (PyStr.chr 0) (truncated self s)); reflexivity.
  - intros n Hn Hpos. unfold truncated. rewrite Hn. unfold PyStr.slice_to.
    destruct (Z.leb_spec 0 n) as [_|]; [|lia].
    split; [reflexivity|].
    pose proof (strip_length (PyStr.take (Z.to_nat n) s)).
    pose proof (take_length (Z.to_nat n) s). lia.
  - intro Hn. unfold truncated. rewrite Hn. reflexivity.
Qed.

End Truncated.



Section Email.
Variable validate_email : pyval -> bool.




End Email.


(* ================================================================== *)
(** ** The JSON field and the comma-separated form of the array field *)
(* ================================================================== *)

(** [sep.join(l)] for a one-character [sep]. *)
Fixpoint join (sep : ascii) (l : list string) : string :=
  match l with
  | [] => ""
  | [a] => a
  | a :: rest => a ++ String sep (join sep rest)
  end.

Lemma split_nonempty (sep : ascii) (s : string) : PyStr.split sep s <> [].
Proof.
  destruct s as [|c t]; cbn [PyStr.split]; [discriminate|].
  destruct (Ascii.eqb c sep); [discriminate|].
  destruct (PyStr.split sep t); discriminate.
Qed.

Lemma join_split (sep : ascii) (s : string) : join sep (PyStr.split sep s) = s.
Proof.
  induction s as [|c t IH]; [reflexivity|]. cbn [PyStr.split].
  destruct (Ascii.eqb_spec c sep) as [->|Ne].
  - pose proof (split_nonempty sep t) as N.
    destruct (PyStr.split sep t) as [|h r]; [congruence|].
    cbn [join append]. cbn [join] in IH. rewrite IH. reflexivity.
  - pose proof (split_nonempty sep t) as N.
    destruct (PyStr.split sep t) as [|h r]; [congruence|].
    destruct r as [|h' r'].
    + cbn [join] in *. rewrite IH. reflexivity.
    + cbn [join append] in *. rewrite IH. reflexivity.
Qed.

Lemma split_no_sep (sep : ascii) (s item : string) :
  In item (PyStr.split sep s) -> PyStr.contains sep item = false.
Proof.
  revert item. induction s as [|c t IH]; intros item H; cbn [PyStr.split] in H.
  - destruct H as [<-|[]]. reflexivity.
  - destruct (Ascii.eqb_spec c sep) as [->|Ne].
    + destruct H as [<-|H]; [reflexivity|apply IH, H].
    + pose proof (split_nonempty sep t) as N.
      destruct (PyStr.split sep t) as [|h r]; [congruence|].
      destruct H as [<-|H].
      * cbn [PyStr.contains]. rewrite (IH h (or_introl eq_refl)).
        destruct (Ascii.eqb_spec sep c) as [->|_]; [congruence|reflexivity].
      * apply IH. right. exact H.
Qed.

Section Json.
Variable json_loads : string -> option pyval.
Variable jsonschema_validate : pyval -> pyval -> option string.

(** What the JSON field answers once it has a value that is not [None]:
    the schema test, then the test for NUL characters. *)
Definition json_answer (v : pyval) (self : field) : result pyval :=
  match schema_check jsonschema_validate v self with
  | inl e => inl e
  | inr _ => match null_check v with
             | inl e => inl e
             | inr _ => inr v
             end
  end.

Lemma JsonField_clean_value (value v : pyval) (self : field) :
  is_none value = false ->
  JsonField_to_python json_loads value self = (self, inr v) ->
  JsonField_clean json_loads jsonschema_validate value self =
  (self, if is_none v then
           if required self then inl (ValidationError [Required]) else inr VNone
         else json_answer v self).
Proof.
  intros Hv Hp. unfold JsonField_clean, RestCharField_clean_with.
  rewrite EmptyStringFixMixing_clean_value by exact Hv.
  destruct (is_none v) eqn:En.
  - destruct v; try discriminate En.
    rewrite (Field_clean_reads _ _ _ _ _ _ _ _ Hp
               (JsonField_validate_None jsonschema_validate)
               (RestCharField_run_validators_reads VNone)).
    unfold required_check. cbn [is_none andb].
    destruct (required self); reflexivity.
  - rewrite (Field_clean_reads _ _ _ _ _ _ _ _ Hp
               (JsonField_validate_value jsonschema_validate v En)
               (RestCharField_run_validators_reads v)).
    rewrite En. reflexivity.
Qed.

(** X10.  [JsonField.clean]: a list or a dict, the empty ones too, comes
    back as it is when the schema accepts it, on a required field as
    well; a string is read by [json.loads], a parse error raises, and a
    text that reads as [None] ('null') gives [None], not [initial], or
    the required error on a required field; a value of another type
    raises the invalid-value error.  The field object is left as it is. *)
Theorem JsonField_clean_spec (self : field) :
  (forall s,
      JsonField_clean json_loads jsonschema_validate (VStr s) self =
      (self, match json_loads s with
             | None => inl (ValidationError [JsonNotParsed])
             | Some VNone =>
                 if required self then inl (ValidationError [Required])
                 else inr VNone
             | Some v => json_answer v self
             end))
  /\ (forall l,
         JsonField_clean json_loads jsonschema_validate (VList l) self =
         (self, match schema_check jsonschema_validate (VList l) self with
                | inl e => inl e
                | inr _ => inr (VList l)
                end))
  /\ (forall d,
         JsonField_clean json_loads jsonschema_validate (VDict d) self =
         (self, match schema_check jsonschema_validate (VDict d) self with
                | inl e => inl e
                | inr _ => inr (VDict d)
                end))
  /\ (forall v,
         match v with
         | VNone | VStr _ | VList _ | VDict _ => True
         | _ => JsonField_clean json_loads jsonschema_validate v self
                = (self, inl (ValidationError [JsonInvalid v]))
         end).
Proof.
  refine (conj _ (conj _ (conj _ _))).
  - intro s. destruct (json_loads s) as [v|] eqn:E.
    + rewrite (JsonField_clean_value (VStr s) v self eq_refl)
        by (unfold JsonField_to_python; rewrite E; reflexivity).
      destruct v; reflexivity.
    + unfold JsonField_clean, RestCharField_clean_with.
      rewrite EmptyStringFixMixing_clean_value by reflexivity.
      unfold Field_clean. apply bind_raises.
      unfold JsonField_to_python. rewrite E. reflexivity.
  - intro l.
    rewrite (JsonField_clean_value (VList l) (VList l) self eq_refl eq_refl).
    unfold json_answer.
    destruct (schema_check jsonschema_validate (VList l) self); reflexivity.
  - intro d.
    rewrite (JsonField_clean_value (VDict d) (VDict d) self eq_refl eq_refl).
    unfold json_answer.
    destruct (schema_check jsonschema_validate (VDict d) self); reflexivity.
  - intro v.
    destruct v; try exact I;
      unfold JsonField_clean, RestCharField_clean_with;
      (rewrite EmptyStringFixMixing_clean_value by reflexivity);
      unfold Field_clean; apply bind_raises; reflexivity.
Qed.

(** X11.  The comma-separated form of [ArrayField]: on a field without an
    item schema, a string that is not in brackets is split at every comma
    into strings, blanks kept; joining the items with commas gives the
    string back and no item holds a comma.  So the empty string gives the
    list with one empty string, not the empty list.  The list is returned
    when the field's schema accepts it. *)
Theorem ArrayField_clean_comma_separated (s : string) (min_items max_items : pyval)
        (self : field) :
  is_plain s = true ->
  _json_schema self = array_schema VNone min_items max_items ->
  let items := PyStr.split "," s in
  ArrayField_clean json_loads jsonschema_validate (VStr s) self =
  (self, match jsonschema_validate (VList (map VStr items)) (_json_schema self) with
         | Some message => inl (ValidationError [Schema message])
         | None => inr (VList (map VStr items))
         end)
  /\ join "," items = s
  /\ (forall item, In item items -> PyStr.contains "," item = false)
  /\ PyStr.split "," "" = [""].
Proof.
  intros Hs Hj items. refine (conj _ (conj _ (conj _ eq_refl))).
  - rewrite (ArrayField_clean_list json_loads jsonschema_validate (VStr s)
               (map VStr items) self eq_refl
               (ArrayField_to_python_strings json_loads s min_items max_items
                                             self Hs Hj)).
    unfold schema_check.
    assert (T : truthy (_json_schema self) = true)
      by (rewrite Hj; reflexivity).
    rewrite T. destruct (jsonschema_validate _ _); reflexivity.
  - apply join_split.
  - intros item. apply split_no_sep.
Qed.

End Json.

(** 'a, b,,c' on [ArrayField()]: four items, the blank kept, one empty. *)
Lemma ArrayField_clean_comma_separated_witness :
  ArrayField_clean Sample.json_loads Sample.jsonschema_validate (VStr "a, b,,c")
                   (plain_array true VNone)
  = (plain_array true VNone, inr (VList [VStr "a"; VStr " b"; VStr ""; VStr "c"])).
Proof.
  exact (proj1 (ArrayField_clean_comma_separated
                  Sample.json_loads Sample.jsonschema_validate "a, b,,c"
                  (VInt 0) VNone (plain_array true VNone) eq_refl eq_refl)).
Defined.

(* ================================================================== *)
(** ** The id-array and the id-set fields *)
(* ================================================================== *)

(** An id: an integer from 1 on, and not above the setting
    [ID_FIELD_MAX_VALUE] when that is an integer. *)
Definition is_id (setting : pyval) (v : pyval) : Prop :=
  exists n, v = VInt n /\ 1 <= n /\ forall top, setting = VInt top -> n <= top.

Section Ids.
Variable py_repr : pyval -> string.
Variable json_loads : string -> option pyval.
Variable jsonschema_validate : pyval -> pyval -> option string.
Variable ID_FIELD_MAX_VALUE : pyval.

(** The field [IdArrayField.clean] cleans each item with: [IdField()]. *)
Definition the_id_field : field := IdField_init ID_FIELD_MAX_VALUE true VNone None None None.

Lemma IntegerField_to_python_cases (v : pyval) (self : field) :
  exists r, IntegerField_to_python py_repr v self = (self, r)
            /\ (r = inr VNone \/ (exists n, r = inr (VInt n)) \/ exists e, r = inl e).
Proof.
  unfold IntegerField_to_python, Field_to_python, bind, ret, fail, raise.
  destruct (in_EMPTY_VALUES v).
  - eexists. split; [reflexivity|]. left. reflexivity.
  - destruct (PyStr.int_of_string _) as [n|].
    + eexists. split; [reflexivity|]. right. left. exists n. reflexivity.
    + eexists. split; [reflexivity|]. right. right. eexists. reflexivity.
Qed.

(** A run of validators that ends with the lower bound 1 passes only
    integers from 1 on. *)
Lemma collect_errors_min_one (pre : list validator) (n : Z) :
  collect_errors (pre ++ [MinValueValidator (VInt 1)]) (VInt n) = inr [] -> 1 <= n.
Proof.
  induction pre as [|p pre IH]; cbn [app collect_errors].
  - unfold MinValueValidator, py_lt, num_compare, option_map.
    destruct (Z.compare_spec n 1); intro K; try discriminate K; lia.
  - destruct (p (VInt n)) as [e|errs]; [discriminate|].
    destruct (collect_errors (pre ++ [MinValueValidator (VInt 1)]) (VInt n))
      as [e|errs']; [discriminate|].
    intro K. injection K as K. apply app_eq_nil in K as [_ ->].
    apply IH. reflexivity.
Qed.

(** What [IdField().clean] returns is an id. *)
Lemma IdField_clean_is_id (item v : pyval) (obj : field) :
  RestIntegerField_clean py_repr item the_id_field = (obj, inr v) ->
  is_id ID_FIELD_MAX_VALUE v.
Proof.
  unfold RestIntegerField_clean. intro H.
  destruct (IntegerField_to_python_cases item the_id_field)
    as (r & Hp & [->|[[n ->]|[e ->]]]).
  - rewrite (InitialFixMixin_clean_reads _ _ _ (inl (ValidationError [Required]))) in H.
    + discriminate H.
    + unfold Field_clean. rewrite (bind_returns _ _ _ _ _ Hp). reflexivity.
  - erewrite InitialFixMixin_clean_reads in H
      by (apply (Field_clean_reads _ _ _ _ _ _ _ _ Hp
                   (Field_validate_value (VInt n) eq_refl)
                   (IntegerField_run_validators_reads (VInt n)))).
    cbn [in_EMPTY_VALUES] in H. unfold IntegerField_validators in H.
    change (max_value the_id_field) with ID_FIELD_MAX_VALUE in H.
    change (min_value the_id_field) with (VInt 1) in H.
    cbn [is_none] in H. exists n.
    destruct (collect_errors _ (VInt n)) as [e|errs] eqn:E; [discriminate H|].
    destruct errs as [|e0 errs]; [|discriminate H].
    cbn [errors_result is_none] in H. injection H as _ <-.
    split; [reflexivity|]. split; [exact (collect_errors_min_one _ _ E)|].
    intros top Htop. rewrite Htop in E. cbn [is_none app collect_errors] in E.
    unfold MaxValueValidator at 1 in E. unfold py_gt, num_compare, option_map in E.
    destruct (Z.compare_spec n top); try lia.
    destruct (MinValueValidator (VInt 1) (VInt n)); discriminate E.
  - rewrite (InitialFixMixin_clean_reads _ _ _ (inl e)) in H.
    + discriminate H.
    + unfold Field_clean. apply bind_raises. exact Hp.
Qed.

Lemma mapM_ids (l r : list pyval) (self self' : field) :
  mapM (fun item => call_on the_id_field (RestIntegerField_clean py_repr item)) l self
  = (self', inr r) ->
  self' = self /\ Forall (is_id ID_FIELD_MAX_VALUE) r
  /\ List.length r = List.length l.
Proof.
  revert r. induction l as [|a l IH]; intros r H.
  - injection H as <- <-. repeat split. constructor.
  - cbn [mapM] in H. unfold bind at 1 in H. unfold call_on at 1 in H.
    destruct (RestIntegerField_clean py_repr a the_id_field) as [obj [e|b]] eqn:Ea;
      cbn [snd] in H; [discriminate H|].
    unfold bind at 1 in H.
    destruct (mapM _ l self) as [self1 [e|r1]] eqn:El; [discriminate H|].
    injection H as <- <-.
    destruct (IH r1 eq_refl) as (-> & F & L).
    split; [reflexivity|]. split.
    + constructor; [exact (IdField_clean_is_id a b obj Ea)|exact F].
    + cbn [List.length]. rewrite L. reflexivity.
Qed.


Lemma num_eqb_id (a b : pyval) :
  is_id ID_FIELD_MAX_VALUE a -> is_id ID_FIELD_MAX_VALUE b ->
  num_eqb a b = true <-> a = b.
Proof.
  intros (n & -> & _) (m & -> & _). unfold num_eqb, num_compare.
  destruct (Z.compare_spec n m) as [E|L|G]; split; intro K; try discriminate K;
    try reflexivity; try congruence.
  - injection K as K. lia.
  - injection K as K. lia.
Qed.

Lemma set_of_list_ids (l : list pyval) :
  Forall (is_id ID_FIELD_MAX_VALUE) l ->
  Forall (is_id ID_FIELD_MAX_VALUE) (set_of_list l)
  /\ NoDup (set_of_list l)
  /\ forall x, In x (set_of_list l) <-> In x l.
Proof.
  induction l as [|a l IH]; intro F.
  - cbn [set_of_list]. repeat split; auto; constructor.
  - inversion F as [|a' l' Fa Fl]; subst.
    destruct (IH Fl) as (F1 & N1 & M1). cbn [set_of_list].
    assert (Ff : Forall (is_id ID_FIELD_MAX_VALUE)
                        (filter (fun b => negb (num_eqb a b)) (set_of_list l))).
    { apply Forall_forall. intros x Hx. apply filter_In in Hx as [Hx _].
      rewrite Forall_forall in F1. apply F1, Hx. }
    split; [constructor; assumption|]. split.
    + constructor.
      * intro Hin. apply filter_In in Hin as [_ Hn].
        apply negb_true_iff in Hn.
        assert (T : num_eqb a a = true) by (apply (num_eqb_id a a Fa Fa); reflexivity).
        congruence.
      * apply NoDup_filter. exact N1.
    + intro x. cbn [In]. rewrite filter_In, M1. split.
      * intros [E|[Hx _]]; [left; exact E|right; exact Hx].
      * intros [E|Hx]; [left; exact E|].
        destruct (num_eqb a x) eqn:Ex.
        -- left. rewrite Forall_forall in Fl.
           apply (num_eqb_id a x Fa (Fl x Hx)). exact Ex.
        -- right. split; [exact Hx|reflexivity].
Qed.

(** X13.  Where [IdArrayField.clean] returns a list, [IdSetField.clean]
    returns the set of its ids: the same ids, each one once. *)
Theorem IdSetField_clean_set (value : pyval) (self self' : field) (l : list pyval) :
  IdArrayField_clean py_repr json_loads jsonschema_validate ID_FIELD_MAX_VALUE
                     value self = (self', inr (VList l)) ->
  exists ids,
    IdSetField_clean py_repr json_loads jsonschema_validate ID_FIELD_MAX_VALUE
                     value self = (self', inr (VSet ids))
    /\ NoDup ids
    /\ (forall x, In x ids <-> In x l)
    /\ Forall (is_id ID_FIELD_MAX_VALUE) ids.
Proof.
  intro H. exists (set_of_list l).
  assert (F : Forall (is_id ID_FIELD_MAX_VALUE) l).
  { revert H. unfold IdArrayField_clean. cbv zeta. intro H. unfold bind at 1 in H.
    destruct (ArrayField_clean json_loads jsonschema_validate _ self)
      as [self1 [e|res]]; [discriminate H|].
    destruct res; try (injection H as _ H; discriminate H).
    fold the_id_field in H. unfold bind at 1 in H.
    destruct (mapM _ l0 self1) as [self2 [e|r]] eqn:Em; [discriminate H|].
    injection H as _ <-. apply (mapM_ids _ _ _ _ Em). }
  destruct (set_of_list_ids l F) as (F1 & N1 & M1).
  split; [|split; [exact N1|split; [exact M1|exact F1]]].
  unfold IdSetField_clean. rewrite (bind_returns _ _ _ _ _ H). reflexivity.
Qed.

End Ids.

Definition id_set_field : field :=
  ArrayField_init cIdSetField true VNone VNone (VInt 0) VNone.


(** '3,1,3' on the id-set field: the ids 3 and 1. *)
Lemma IdSetField_clean_set_witness :
  exists ids,
    IdSetField_clean Sample.py_repr Sample.json_loads Sample.jsonschema_validate
                     Sample.ID_FIELD_MAX_VALUE (VStr "3,1,3") id_set_field
    = (id_set_field, inr (VSet ids))
    /\ NoDup ids
    /\ (forall x, In x ids <-> In x [VInt 3; VInt 1; VInt 3])
    /\ Forall (is_id Sample.ID_FIELD_MAX_VALUE) ids.
Proof.
  exact (IdSetField_clean_set Sample.py_repr Sample.json_loads
           Sample.jsonschema_validate Sample.ID_FIELD_MAX_VALUE
           (VStr "3,1,3") id_set_field id_set_field
           [VInt 3; VInt 1; VInt 3] eq_refl).
Defined.

(* ================================================================== *)
(** ** The date fields *)
(* ================================================================== *)

(** [f] on a returned value, an exception as it is. *)
Definition result_map {A B} (f : A -> B) (r : result A) : result B :=
  match r with
  | inl e => inl e
  | inr a => inr (f a)
  end.

Section Dates.
Variable py_repr : pyval -> string.
Variable strptime : string -> string -> option PyDate.datetime.

(** The datetime the date fields read from a string: the text without the
    blanks around it must hold no NUL and follow the mask; what [strptime]
    reads is taken as UTC, and a datetime that already has a timezone is
    refused by [make_aware]. *)
Definition parsed (self : field) (s : string) : result PyDate.datetime :=
  let t := PyStr.strip s in
  if PyStr.contains (PyStr.chr 0) t then inl (ValidationError [NullCharacters])
  else match strptime t (mask self) with
       | Some dt =>
           match PyDate.tzinfo dt with
           | Some _ => inl ValueError
           | None => inr (PyDate.replace_utc dt)
           end
       | None => inl (ValidationError [BadFormat (mask self)])
       end.

Lemma DateTimeField_clean_str (base_type : pyval -> bool) (s : string) (self : field) :
  (forall t, base_type (VStr t) = false) ->
  DateTimeField_clean py_repr strptime base_type (VStr s) self
  = (self, result_map VDatetime (parsed self s)).
Proof.
  intro Hb. unfold DateTimeField_clean.
  change (RestCharField_clean py_repr)
    with (RestCharField_clean_with (RestCharField_to_python py_repr)
                                   RestCharField_validate).
  unfold bind at 1.
  rewrite (RestCharField_clean_with_str py_repr _ _ s self
             (RestCharField_validate_reads _)).
  unfold required_check, null_check, parsed. cbn [is_none andb]. cbv zeta.
  set (t := PyStr.strip s).
  destruct (PyStr.contains (PyStr.chr 0) t); [reflexivity|].
  unfold bind at 1, get_self. cbn [is_none negb andb]. rewrite Hb. cbn [negb].
  destruct (strptime t (mask self)) as [dt|]; [|reflexivity].
  unfold bind, make_aware_utc, ret, raise.
  destruct (PyDate.tzinfo dt); reflexivity.
Qed.

(** X14.  The date fields on a string: [DateTimeField.clean] returns what
    [strptime] reads from the stripped text with the field's mask, as an
    aware UTC datetime, and raises the format error when the text does
    not follow the mask; [DateField.clean] and [MonthField.clean] return
    the date of that datetime and raise in the same cases. *)
Theorem DateTimeField_clean_spec (s : string) (self : field) :
  DateTimeField_clean py_repr strptime is_datetime (VStr s) self
  = (self, result_map VDatetime (parsed self s))
  /\ DateField_clean py_repr strptime (VStr s) self
     = (self, result_map (fun dt => VDate (PyDate.date_of dt)) (parsed self s))
  /\ MonthField_clean py_repr strptime (VStr s) self
     = (self, result_map (fun dt => VDate (PyDate.date_of dt)) (parsed self s))
  /\ (forall dt, parsed self s = inr dt -> PyDate.tzinfo dt = Some 0)
  /\ (strptime (PyStr.strip s) (mask self) = None ->
      PyStr.contains (PyStr.chr 0) (PyStr.strip s) = false ->
      parsed self s = inl (ValidationError [BadFormat (mask self)])).
Proof.
  refine (conj _ (conj _ (conj _ (conj _ _)))).
  - apply DateTimeField_clean_str. reflexivity.
  - unfold DateField_clean.
    rewrite (bind_result _ _ _ _ _
               (DateTimeField_clean_str is_date s self (fun _ => eq_refl))).
    destruct (parsed self s); reflexivity.
  - unfold MonthField_clean.
    rewrite (bind_result _ _ _ _ _
               (DateTimeField_clean_str is_datetime s self (fun _ => eq_refl))).
    destruct (parsed self s); reflexivity.
  - intros dt. unfold parsed. cbv zeta.
    destruct (PyStr.contains _ _); [discriminate|].
    destruct (strptime _ _) as [d|]; [|discriminate].
    destruct (PyDate.tzinfo d); [discriminate|].
    intro H. injection H as <-. reflexivity.
  - intros H1 H2. unfold parsed. cbv zeta. rewrite H2, H1. reflexivity.
Qed.

End Dates.

(* ================================================================== *)
(** ** The regex field and the URL field *)
(* ================================================================== *)

(** A string without a blank in front. *)
Definition starts_plain (s : string) : bool :=
  match s with
  | EmptyString => true
  | String c _ => negb (PyStr.isspace c)
  end.

Lemma lstrip_starts_plain (s : string) : starts_plain (PyStr.lstrip s) = true.
Proof.
  induction s as [|c t IH]; [reflexivity|]. cbn [PyStr.lstrip].
  destruct (PyStr.isspace c) eqn:E; [exact IH|]. cbn [starts_plain].
  rewrite E. reflexivity.
Qed.

Lemma lstrip_fixed (s : string) : starts_plain s = true -> PyStr.lstrip s = s.
Proof.
  destruct s as [|c t]; [reflexivity|]. cbn [starts_plain PyStr.lstrip].
  intro H. apply negb_true_iff in H. rewrite H. reflexivity.
Qed.

Lemma rstrip_starts_plain (s : string) :
  starts_plain s = true -> starts_plain (PyStr.rstrip s) = true.
Proof.
  destruct s as [|c t]; [reflexivity|]. cbn [starts_plain PyStr.rstrip].
  intro H. destruct (PyStr.rstrip t).
  - apply negb_true_iff in H. rewrite H. cbn [starts_plain]. rewrite H. reflexivity.
  - exact H.
Qed.

Lemma rstrip_idempotent (s : string) : PyStr.rstrip (PyStr.rstrip s) = PyStr.rstrip s.
Proof.
  induction s as [|c t IH]; [reflexivity|]. cbn [PyStr.rstrip].
  destruct (PyStr.rstrip t) as [|d u] eqn:E.
  - destruct (PyStr.isspace c) eqn:Ec; [reflexivity|].
    cbn [PyStr.rstrip]. rewrite Ec. reflexivity.
  - change (PyStr.rstrip (String c (String d u)))
      with (match PyStr.rstrip (String d u) with
            | EmptyString => if PyStr.isspace c then EmptyString
                             else String c EmptyString
            | t' => String c t'
            end).
    rewrite IH. reflexivity.
Qed.

Lemma strip_idempotent (s : string) : PyStr.strip (PyStr.strip s) = PyStr.strip s.
Proof.
  unfold PyStr.strip.
  rewrite (lstrip_fixed (PyStr.rstrip (PyStr.lstrip s)))
    by (apply rstrip_starts_plain, lstrip_starts_plain).
  apply rstrip_idempotent.
Qed.

Section Patterns.
Variable py_repr : pyval -> string.
Variable url_validator : bool -> string -> bool.

Lemma bind_same {A B} (c c' : M A) (k : A -> M B) (self : field) :
  c self = c' self -> bind c k self = bind c' k self.
Proof. intro H. unfold bind. rewrite H. reflexivity. Qed.

Lemma RegexField_validate_plain (v : pyval) (self : field) :
  regex self = None ->
  RegexField_validate py_repr v self = RestCharField_validate v self.
Proof.
  intro Hr. unfold RegexField_validate.
  rewrite (bind_reads _ _ _ _ (RestCharField_validate_reads v)).
  rewrite (RestCharField_validate_reads v self).
  destruct (required_check v self); [reflexivity|].
  unfold bind, get_self. rewrite Hr. destruct u. reflexivity.
Qed.

Lemma RegexField_clean_plain (s : string) (self : field) :
  regex self = None ->
  RegexField_clean py_repr (VStr s) self = RestCharField_clean py_repr (VStr s) self.
Proof.
  intro Hr. unfold RegexField_clean, RestCharField_clean, RestCharField_clean_with.
  rewrite !EmptyStringFixMixing_clean_value by reflexivity.
  unfold Field_clean.
  rewrite !(bind_returns _ _ _ _ _ (RestCharField_to_python_str py_repr s self)).
  apply bind_same. apply RegexField_validate_plain. exact Hr.
Qed.

(** X15.  [RegexField.clean] of a string tries the pattern on the text
    without the blanks around it and keeps the outcome in [match]: the
    matched text after a success, [None] after the pattern error, which
    overwrites an earlier match.  [clean(None)] does not touch the stored
    match, and a field without a pattern is a plain string field. *)
Theorem RegexField_match_after_clean (self : field) (s : string) :
  (forall r, regex self = Some r ->
     let after := RegexField_clean py_repr (VStr s) self in
     _match (fst after) = PyRe.re_match (flags self) r (PyStr.strip s)
     /\ (_match (fst after) = None <->
         snd after = inl (ValidationError [RegexMismatch r])))
  /\ fst (RegexField_clean py_repr VNone self) = self
  /\ (regex self = None ->
      RegexField_clean py_repr (VStr s) self
      = RestCharField_clean py_repr (VStr s) self).
Proof.
  refine (conj _ (conj _ _)).
  - intros r Hr. cbv zeta. rewrite (RegexField_clean_str py_repr r s self Hr).
    cbv zeta. cbn [fst snd _match set_match].
    split; [reflexivity|].
    destruct (PyRe.re_match (flags self) r (PyStr.strip s)) as [m|].
    + split; [discriminate|].
      unfold null_check. destruct (PyStr.contains _ _); discriminate.
    + split; reflexivity.
  - unfold RegexField_clean, RestCharField_clean_with.
    rewrite (EmptyStringFixMixing_clean_None _ _ _ (required_check VNone) self
               eq_refl (RegexField_validate_None py_repr)).
    reflexivity.
  - apply RegexField_clean_plain.
Qed.

(** The URL test and the NUL test on a stripped text. *)
Definition url_answer (self : field) (t : string) : result pyval :=
  if url_validator (with_underscore_domain self) t then
    if PyStr.contains (PyStr.chr 0) t then inl (ValidationError [NullCharacters])
    else inr (VStr t)
  else inl (ValidationError [BadUrl]).

(** X16.  [UrlField.clean] of a string works on the text without the
    blanks around it, and returns that text.  A pattern, when the field
    has one, is tried first and its outcome stored; the URL validator
    runs only after a match, and the test for NUL characters last. *)
Theorem UrlField_clean_spec (self : field) (s : string) :
  UrlField_clean py_repr url_validator (VStr s) self =
  (let t := PyStr.strip s in
   match regex self with
   | None => (self, url_answer self t)
   | Some r =>
       (set_match self (PyRe.re_match (flags self) r t),
        match PyRe.re_match (flags self) r t with
        | Some _ => url_answer self t
        | None => inl (ValidationError [RegexMismatch r])
        end)
   end)
  /\ PyStr.strip (PyStr.strip s) = PyStr.strip s.
Proof.
  split; [|apply strip_idempotent].
  unfold UrlField_clean, RestCharField_clean_with.
  rewrite EmptyStringFixMixing_clean_value by reflexivity.
  unfold Field_clean.
  assert (Hp : UrlField_to_python py_repr (VStr s) self
               = (self, inr (VStr (PyStr.strip s)))).
  { unfold UrlField_to_python. rewrite RestCharField_to_python_str, strip_idempotent.
    reflexivity. }
  rewrite (bind_returns _ _ _ _ _ Hp). cbv zeta. set (t := PyStr.strip s).
  unfold UrlField_validate. unfold bind at 1 2.
  destruct (regex self) as [r|] eqn:Hr.
  - rewrite (RegexField_validate_str py_repr r t self Hr).
    destruct (PyRe.re_match (flags self) r t) as [m|]; [|reflexivity].
    unfold bind at 1, get_self. cbn [with_underscore_domain set_match].
    unfold url_answer.
    destruct (url_validator (with_underscore_domain self) t); [|reflexivity].
    unfold ret.
    rewrite (bind_reads _ _ _ _ (RestCharField_run_validators_reads _)).
    cbn [is_none]. unfold null_check.
    destruct (PyStr.contains (PyStr.chr 0) t); reflexivity.
  - assert (Hv : RegexField_validate py_repr (VStr t) self = (self, inr tt)).
    { unfold RegexField_validate.
      rewrite (bind_reads _ _ _ _ (RestCharField_validate_reads _)).
      unfold required_check. cbn [is_none andb].
      unfold bind, get_self. rewrite Hr. reflexivity. }
    rewrite Hv. unfold bind at 1, get_self. unfold url_answer.
    destruct (url_validator (with_underscore_domain self) t); [|reflexivity].
    unfold ret.
    rewrite (bind_reads _ _ _ _ (RestCharField_run_validators_reads _)).
    cbn [is_none]. unfold null_check.
    destruct (PyStr.contains (PyStr.chr 0) t); reflexivity.
Qed.

End Patterns.

(* ================================================================== *)
(** ** The widget of the boolean field *)
(* ================================================================== *)

(** [NullBooleanSelectWidget.value_from_datadict(data, files, name)];
    [files] is not read. *)
Definition NullBooleanSelectWidget_value_from_datadict
           (data : list (string * pyval)) (name : string) : pyval :=
  let value := dict_get data name in
  match value with
  | VNone => VNone
  | VStr s =>
      let l := PyStr.lower s in
      if String.eqb l "false" || String.eqb l "0" || String.eqb l ""
      then VBool false else VBool (truthy value)
  | _ => VBool (truthy value)
  end.

(** [RestBooleanField.clean] on every value. *)
Lemma RestBooleanField_clean_value (v : pyval) (self : field) :
  RestBooleanField_clean v self =
  (self, match v with
         | VNone => if required self then inl (ValidationError [Required])
                    else inr (initial self)
         | VStr s => inr (VBool (negb (false_word s)))
         | _ => inr (VBool (truthy v))
         end).
Proof.
  unfold RestBooleanField_clean, RestCharField_clean_with.
  destruct v;
    try (rewrite EmptyStringFixMixing_clean_value by reflexivity;
         erewrite Field_clean_reads;
         [ | apply RestBooleanField_to_python_spec
           | apply RestCharField_validate_reads
           | apply RestCharField_run_validators_reads ];
         reflexivity).
  erewrite EmptyStringFixMixing_clean_None;
    [ | reflexivity | apply RestCharField_validate_reads ].
  unfold required_check. cbn [is_none andb]. destruct (required self); reflexivity.
Qed.

(** X17.  The widget reads the raw value of the field's name as the
    field's own [to_python] does: [None] for a missing key or a [None],
    false for 'false', '0' and '' in any case, [bool(value)] otherwise.
    The field cleans what the widget hands over to the same result as the
    raw value: a boolean is not read a second time as a string. *)
Theorem NullBooleanSelectWidget_agrees (data : list (string * pyval)) (name : string)
        (self : field) :
  let raw := dict_get data name in
  let shown := NullBooleanSelectWidget_value_from_datadict data name in
  RestBooleanField_to_python raw self = (self, inr shown)
  /\ RestBooleanField_clean shown self = RestBooleanField_clean raw self
  /\ (shown = VNone <-> raw = VNone)
  /\ match shown with
     | VNone | VBool _ => True
     | _ => False
     end.
Proof.
  cbv zeta. unfold NullBooleanSelectWidget_value_from_datadict. cbv zeta.
  rewrite !RestBooleanField_clean_value, RestBooleanField_to_python_spec.
  unfold false_word.
  destruct (dict_get data name) as [| | | |s| | | | | |];
    try (repeat split; try reflexivity; try discriminate; exact I).
  destruct (String.eqb (PyStr.lower s) "false" || String.eqb (PyStr.lower s) "0"
            || String.eqb (PyStr.lower s) "") eqn:E.
  - repeat split; try discriminate; exact I.
  - cbn [negb].
    assert (T : truthy (VStr s) = true).
    { cbn [truthy]. apply negb_true_iff. apply String.eqb_neq. intros ->.
      discriminate E. }
    rewrite T. repeat split; try discriminate; exact I.
Qed.

(* ================================================================== *)
(** ** The extension of a file name *)
(* ================================================================== *)

Lemma rfind_from_absent (c : ascii) (s : string) : forall i last,
  PyStr.contains c s = false -> PyStr.rfind_from c s i last = last.
Proof.
  induction s as [|d t IH]; intros i last H; [reflexivity|].
  cbn [PyStr.contains PyStr.rfind_from] in *.
  apply orb_false_iff in H as [Hd Ht]. rewrite Hd. apply IH, Ht.
Qed.

Lemma rfind_from_lower (c : ascii) (s : string) : forall i last,
  0 <= i -> -1 <= last -> -1 <= PyStr.rfind_from c s i last.
Proof.
  induction s as [|d t IH]; intros i last Hi Hl; [exact Hl|].
  cbn [PyStr.rfind_from]. apply IH; [lia|].
  destruct (Ascii.eqb c d); lia.
Qed.

(** A name without a dot has no extension. *)
Lemma file_ext_no_dot (name : string) :
  PyStr.contains "." name = false -> file_ext name = "".
Proof.
  intro H. unfold file_ext, PyStr.splitext_ext, PyStr.rfind.
  rewrite (rfind_from_absent "." name 0 (-1) H).
  pose proof (rfind_from_lower "/" name 0 (-1) ltac:(lia) ltac:(lia)) as L.
  destruct (Z.ltb_spec (PyStr.rfind_from "/" name 0 (-1)) (-1)) as [|_]; [lia|].
  reflexivity.
Qed.

(** X18.  A file whose name has no dot has the empty extension: a field
    with an allow-list raises the type error for it, with the empty
    extension, unless the list holds the empty string.  A name that is
    only a leading dot and letters ('.bashrc') has no extension either,
    and of several extensions only the last one counts. *)
Theorem FileField_clean_no_extension (self : field) (name : string) (sz : Z)
        (exts : list string) :
  PyStr.contains "." name = false ->
  String.eqb name "" = false -> (sz =? 0) = false ->
  valid_extensions self = Some exts ->
  existsb (String.eqb "") exts = false ->
  FileField_clean (VFile name sz) VNone self = (self, inl (FileTypeError "" exts))
  /\ file_ext ".bashrc" = ""
  /\ file_ext "archive.tar.GZ" = "gz"
  /\ file_ext "dir.d/readme" = "".
Proof.
  intros Hdot Hname Hsz Hexts Hno. split; [|repeat split].
  rewrite FileField_clean_file, Hname, Hsz, Hexts, (file_ext_no_dot name Hdot), Hno.
  reflexivity.
Qed.

(** 'README' on a field that allows 'pdf' and 'png'. *)
Lemma FileField_clean_no_extension_witness :
  FileField_clean (VFile "README" 4) VNone pdf_png_field
  = (pdf_png_field, inl (FileTypeError "" ["pdf"; "png"])).
Proof.
  exact (proj1 (FileField_clean_no_extension pdf_png_field "README" 4 ["pdf"; "png"]
                  eq_refl eq_refl eq_refl eq_refl eq_refl)).
Defined.

Lemma rfind_from_app (c : ascii) (a b : string) : forall i last,
  PyStr.rfind_from c (a ++ b) i last
  = PyStr.rfind_from c b (i + Z.of_nat (String.length a)) (PyStr.rfind_from c a i last).
Proof.
  induction a as [|d t IH]; intros i last.
  - cbn [append String.length PyStr.rfind_from]. f_equal. lia.
  - cbn [append String.length PyStr.rfind_from]. rewrite IH. f_equal. lia.
Qed.

Lemma rfind_from_upper (c : ascii) (s : string) : forall i last,
  last < i -> PyStr.rfind_from c s i last < i + Z.of_nat (String.length s).
Proof.
  induction s as [|d t IH]; intros i last H.
  - cbn [PyStr.rfind_from String.length]. lia.
  - cbn [PyStr.rfind_from String.length].
    assert (K : (if Ascii.eqb c d then i else last) < i + 1)
      by (destruct (Ascii.eqb c d); lia).
    specialize (IH (i + 1) _ K). lia.
Qed.

Lemma drop_app (a b : string) : PyStr.drop (String.length a) (a ++ b) = b.
Proof. induction a as [|d t IH]; [destruct b; reflexivity|exact IH]. Qed.

(** The scan of [splitext] for a character of the base name that is not a
    dot finds one when the name has one before the index [j]. *)
Lemma has_non_dot_found (b0 rest : string) (d : ascii) (j : Z) :
  Ascii.eqb d "." = false -> Z.of_nat (String.length b0) < j ->
  forall fuel i,
    0 <= i <= Z.of_nat (String.length b0) ->
    Z.of_nat (String.length b0) - i < Z.of_nat fuel ->
    PyStr.has_non_dot (b0 ++ String d rest) i j fuel = true.
Proof.
  intros Hd Hj. induction fuel as [|k IH]; intros i Hi Hf; [lia|].
  cbn [PyStr.has_non_dot].
  destruct (Z.ltb_spec i j) as [_|]; [|lia].
  destruct (PyStr.drop (Z.to_nat i) (b0 ++ String d rest)) as [|ch w] eqn:E;
    [reflexivity|].
  destruct (Ascii.eqb_spec ch ".") as [->|_]; [|reflexivity].
  apply IH; [|lia].
  assert (i <> Z.of_nat (String.length b0)); [|lia].
  intro Ei. rewrite Ei, Nat2Z.id, drop_app in E.
  injection E as -> _. discriminate Hd.
Qed.

(** The extension of a name is what follows its last dot, in lowercase:
    [base] ends in a character that is neither a dot nor a slash, and
    [ext] holds neither. *)
Lemma file_ext_last (b0 ext : string) (d : ascii) :
  Ascii.eqb d "." = false -> Ascii.eqb d "/" = false ->
  PyStr.contains "." ext = false -> PyStr.contains "/" ext = false ->
  file_ext (b0 ++ String d (String "." ext)) = PyStr.lower ext.
Proof.
  intros Hd1 Hd2 He1 He2.
  set (base := b0 ++ String d EmptyString).
  assert (Ep : b0 ++ String d (String "." ext) = base ++ String "." ext).
  { unfold base. clear. induction b0 as [|c t IH]; [reflexivity|].
    cbn [append]. rewrite IH. reflexivity. }
  assert (Lb : String.length base = S (String.length b0)).
  { unfold base. clear. induction b0 as [|c t IH]; [reflexivity|].
    cbn [append String.length]. rewrite IH. reflexivity. }
  unfold file_ext, PyStr.splitext_ext, PyStr.rfind.
  assert (Edot : PyStr.rfind_from "." (b0 ++ String d (String "." ext)) 0 (-1)
                 = Z.of_nat (String.length base)).
  { rewrite Ep, rfind_from_app. cbn [PyStr.rfind_from].
    change (Ascii.eqb "." ".") with true. cbv iota.
    apply rfind_from_absent. exact He1. }
  assert (Esep : PyStr.rfind_from "/" (b0 ++ String d (String "." ext)) 0 (-1)
                 = PyStr.rfind_from "/" b0 0 (-1)).
  { rewrite rfind_from_app. cbn [PyStr.rfind_from].
    rewrite (Ascii.eqb_sym "/" d), Hd2. change (Ascii.eqb "/" ".") with false. cbv iota.
    apply rfind_from_absent. exact He2. }
  rewrite Edot, Esep.
  pose proof (rfind_from_upper "/" b0 0 (-1) ltac:(lia)) as U.
  pose proof (rfind_from_lower "/" b0 0 (-1) ltac:(lia) ltac:(lia)) as L.
  destruct (Z.ltb_spec (PyStr.rfind_from "/" b0 0 (-1)) (Z.of_nat (String.length base)))
    as [_|]; [|lia].
  rewrite (has_non_dot_found b0 (String "." ext) d _ Hd1) by
    (rewrite ?Ep, ?Lb; try lia;
     assert (Ll : String.length (base ++ String "." ext)
                  = S (String.length base + String.length ext))
       by (clear; induction base as [|c t IH]; [reflexivity|];
           cbn [append String.length]; rewrite IH; reflexivity);
     rewrite ?Ll, ?Lb; lia).
  cbn [andb]. rewrite Ep, Nat2Z.id, drop_app. reflexivity.
Qed.

(** X19.  The extension [FileField] checks is what follows the last dot
    of the file name, in lowercase: for a name [base.ext], where the base
    ends in a character that is neither a dot nor a slash, the field with
    an allow-list accepts the file when the lowercased [ext] is in the
    list and its size is within the limit, and raises the type error with
    the lowercased [ext] when not. *)
Theorem FileField_clean_last_extension (self : field) (b0 ext : string) (d : ascii)
        (sz : Z) (exts : list string) :
  Ascii.eqb d "." = false -> Ascii.eqb d "/" = false ->
  PyStr.contains "." ext = false -> PyStr.contains "/" ext = false ->
  (sz =? 0) = false ->
  valid_extensions self = Some exts ->
  let name := b0 ++ String d (String "." ext) in
  file_ext name = PyStr.lower ext
  /\ FileField_clean (VFile name sz) VNone self =
     (self, if existsb (String.eqb (PyStr.lower ext)) exts then
              match size self with
              | Some limit =>
                  if limit <? sz then inl (FileSizeError limit sz)
                  else inr (VFile name sz)
              | None => inr (VFile name sz)
              end
            else inl (FileTypeError (PyStr.lower ext) exts)).
Proof.
  intros Hd1 Hd2 He1 He2 Hsz Hexts name.
  pose proof (file_ext_last b0 ext d Hd1 Hd2 He1 He2) as E. fold name in E.
  split; [exact E|].
  rewrite FileField_clean_file, Hsz, Hexts, E.
  assert (Hn : String.eqb name "" = false).
  { unfold name. destruct b0; reflexivity. }
  rewrite Hn. reflexivity.
Qed.

(** 'photos/2024.01/Holiday.JPG' has the extension 'jpg'. *)
Lemma FileField_clean_last_extension_witness :
  file_ext "photos/2024.01/Holiday.JPG" = "jpg"
  /\ FileField_clean (VFile "photos/2024.01/Holiday.JPG" 4) VNone pdf_png_field
     = (pdf_png_field, inl (FileTypeError "jpg" ["pdf"; "png"])).
Proof.
  exact (FileField_clean_last_extension pdf_png_field "photos/2024.01/Holida" "JPG"
           "y" 4 ["pdf"; "png"] eq_refl eq_refl eq_refl eq_refl eq_refl eq_refl).
Defined.

(* ================================================================== *)
(** ** The timestamp field: whole seconds, and a datetime as [initial] *)
(* ================================================================== *)

Module PyFloatDivision.
Import PyFloat PyFloatFacts.

(** The order of magnitude of [a / b] is the only [L] with
    [2^L <= a / b < 2^(L + 1)]. *)
Lemma ratio_log2_unique (a b L K : Z) :
  0 < a -> 0 < b -> 0 <= K -> 0 <= K + L ->
  b * 2 ^ (K + L) <= a * 2 ^ K -> a * 2 ^ K < b * 2 ^ (K + L + 1) ->
  ratio_log2 a b = L.
Proof.
  intros Ha Hb HK HKL Lo Hi.
  set (R := ratio_log2 a b).
  set (J := Z.abs R).
  destruct (ratio_log2_spec a b (K + J) Ha Hb ltac:(lia) ltac:(fold R; lia))
    as [Lo' Hi'].
  fold R in Lo', Hi'.
  pose proof (pow2_pos J ltac:(lia)) as PJ.
  assert (Lo2 : b * 2 ^ (K + J + L) <= a * 2 ^ (K + J)).
  { replace (K + J + L) with ((K + L) + J) by lia.
    rewrite (pow2_split (K + L) J), (pow2_split K J) by lia.
    replace (b * (2 ^ (K + L) * 2 ^ J)) with ((b * 2 ^ (K + L)) * 2 ^ J) by ring.
    replace (a * (2 ^ K * 2 ^ J)) with ((a * 2 ^ K) * 2 ^ J) by ring.
    apply Z.mul_le_mono_nonneg_r; lia. }
  assert (Hi2 : a * 2 ^ (K + J) < b * 2 ^ (K + J + L + 1)).
  { replace (K + J + L + 1) with ((K + L + 1) + J) by lia.
    rewrite (pow2_split (K + L + 1) J), (pow2_split K J) by lia.
    replace (b * (2 ^ (K + L + 1) * 2 ^ J)) with ((b * 2 ^ (K + L + 1)) * 2 ^ J) by ring.
    replace (a * (2 ^ K * 2 ^ J)) with ((a * 2 ^ K) * 2 ^ J) by ring.
    apply Z.mul_lt_mono_pos_r; lia. }
  destruct (Z.lt_trichotomy R L) as [C|[C|C]]; [exfalso|exact C|exfalso].
  - pose proof (pow2_mono (K + J + R + 1) (K + J + L) ltac:(lia)) as M.
    assert (b * 2 ^ (K + J + R + 1) <= b * 2 ^ (K + J + L))
      by (apply Z.mul_le_mono_nonneg_l; lia).
    lia.
  - pose proof (pow2_mono (K + J + L + 1) (K + J + R) ltac:(lia)) as M.
    assert (b * 2 ^ (K + J + L + 1) <= b * 2 ^ (K + J + R))
      by (apply Z.mul_le_mono_nonneg_l; lia).
    lia.
Qed.

(** A quotient that is an integer below [2^52] is that integer's float. *)
Lemma truediv_exact (n b : Z) :
  0 < n < 2 ^ 52 -> 0 < b -> truediv (n * b) b = of_Z n.
Proof.
  intros Hn Hb.
  pose proof (Z.log2_spec n ltac:(lia)) as [S1 S2].
  pose proof (Z.log2_nonneg n) as L0.
  assert (L1 : Z.log2 n < 52) by (apply Z.log2_lt_pow2; lia).
  set (l := Z.log2 n) in *.
  assert (Hnb : 0 < n * b) by (apply Z.mul_pos_pos; lia).
  assert (EL : ratio_log2 (n * b) b = l).
  { apply (ratio_log2_unique (n * b) b l 0); try lia.
    - change (2 ^ 0) with 1. rewrite Z.add_0_l, Z.mul_1_r, (Z.mul_comm n b).
      apply Z.mul_le_mono_nonneg_l; lia.
    - change (2 ^ 0) with 1. rewrite Z.add_0_l, Z.mul_1_r, (Z.mul_comm n b).
      replace (l + 1) with (Z.succ l) by lia.
      apply Z.mul_lt_mono_pos_l; lia. }
  unfold truediv.
  destruct (Z.ltb_spec (n * b) 0) as [|_]; [lia|].
  destruct (Z.ltb_spec b 0) as [|_]; [lia|]. cbn [xorb].
  destruct (Z.eqb_spec (n * b) 0) as [|_]; [lia|].
  rewrite !Z.abs_eq by lia.
  destruct (round_ratio_small false (n * b) b Hnb Hb ltac:(rewrite EL; lia)) as [_ E].
  rewrite E, EL.
  replace (n * b * 2 ^ (52 - l)) with ((n * 2 ^ (52 - l)) * b) by ring.
  rewrite div_half_even_exact by lia.
  pose proof (pow2_pos (52 - l) ltac:(lia)) as Pp.
  assert (B : n * 2 ^ (52 - l) < 2 ^ 53).
  { replace 53 with (Z.succ l + (52 - l)) by lia.
    rewrite pow2_split by lia. apply Z.mul_lt_mono_pos_r; lia. }
  destruct (Z.eqb_spec (n * 2 ^ (52 - l)) (2 ^ 53)) as [|_]; [lia|].
  rewrite PyFloatInt.of_Z_exact by (rewrite Z.abs_eq; lia).
  rewrite Z.abs_eq by lia. fold l.
  destruct (Z.ltb_spec n 0) as [|_]; [lia|].
  f_equal. lia.
Qed.

(** The seconds and microseconds of the float of an integer. *)
Lemma double_to_timeval_of_Z (n : Z) :
  0 < n < 2 ^ 52 -> PyDate.double_to_timeval (of_Z n) = Some (n, 0).
Proof.
  intro Hn.
  pose proof (Z.log2_nonneg n) as L0.
  assert (L1 : Z.log2 n < 52) by (apply Z.log2_lt_pow2; lia).
  rewrite PyFloatInt.of_Z_exact by (rewrite Z.abs_eq; lia).
  rewrite Z.abs_eq by lia. set (l := Z.log2 n) in *.
  pose proof (pow2_pos (52 - l) ltac:(lia)) as Pp.
  unfold PyDate.double_to_timeval, modf.
  destruct (Z.leb_spec 0 (l - 52)) as [|_]; [lia|].
  rewrite Z2Pos.id by (apply Z.mul_pos_pos; lia).
  replace (- (l - 52)) with (52 - l) by lia.
  rewrite Z.mod_mul, Z.div_mul by lia.
  destruct (Z.ltb_spec n 0) as [|_]; [lia|].
  rewrite to_Z_exact_int by lia.
  unfold exact at 1. change (0 =? 0) with true. cbv iota.
  rewrite of_Z_million. reflexivity.
Qed.

End PyFloatDivision.

Module EpochDays.
Import PyDate PyDateFacts.

(** The date of a day since 1970-01-01 is a date of the calendar that has
    the day's ordinal. *)
Definition day_round_trips (k : Z) : bool :=
  let '(y, m, d) := _ord2ymd (k + epoch_ordinal) in
  (_ymd2ord y m d =? k + epoch_ordinal)
  && (1 <=? y) && (y <=? 9999) && (1 <=? m) && (m <=? 12)
  && (1 <=? d) && (d <=? _days_in_month y m).

(** Every day a 32-bit timestamp reaches, by evaluation; the days are
    counted in hundreds. *)
Lemma days_round_trip :
  forallb (fun q => forallb (fun r => day_round_trips (q * 100 + r)) (Zrange 0 100))
          (Zrange 0 249) = true.
Proof. vm_compute. reflexivity. Qed.

Lemma day_round_trip (k : Z) :
  0 <= k <= 24855 -> day_round_trips k = true.
Proof.
  intro H. pose proof days_round_trip as A. rewrite forallb_forall in A.
  assert (Hq : 0 <= k / 100 < 249).
  { split; [apply Z.div_pos; lia|apply Z.div_lt_upper_bound; lia]. }
  pose proof (Z.mod_pos_bound k 100 ltac:(lia)) as Hr.
  specialize (A (k / 100) (In_Zrange 0 249 (k / 100) ltac:(lia))).
  rewrite forallb_forall in A.
  specialize (A (k mod 100) (In_Zrange 0 100 (k mod 100) ltac:(lia))).
  replace (k / 100 * 100 + k mod 100) with k in A
    by (pose proof (Z.div_mod k 100 ltac:(lia)); lia).
  exact A.
Qed.

(** [gmtime] of a second of the 32-bit range: a valid datetime that many
    seconds after the epoch. *)
Lemma gmtime_datetime_seconds (n us : Z) :
  0 <= n <= 2147483647 -> 0 <= us < 1000000 ->
  exists dt,
    gmtime_datetime n us = Some dt
    /\ tzinfo dt = None
    /\ valid_datetime dt = true
    /\ epoch_microseconds dt 0 = n * 1000000 + us.
Proof.
  intros Hn Hus. unfold gmtime_datetime.
  assert (Hd : 0 <= n / 86400 <= 24855).
  { split; [apply Z.div_pos; lia|].
    assert (n / 86400 < 24856) by (apply Z.div_lt_upper_bound; lia). lia. }
  pose proof (Z.mod_pos_bound n 86400 ltac:(lia)) as Hr.
  pose proof (Z.div_mod n 86400 ltac:(lia)) as En.
  set (k := n / 86400) in *. set (r := n mod 86400) in *.
  pose proof (day_round_trip k Hd) as T. unfold day_round_trips in T.
  destruct (Z.leb_spec 1 (k + epoch_ordinal)) as [_|];
    [|unfold epoch_ordinal in *; lia].
  destruct (Z.leb_spec (k + epoch_ordinal) 3652059) as [_|];
    [|unfold epoch_ordinal in *; lia].
  cbn [andb].
  destruct (_ord2ymd (k + epoch_ordinal)) as [[y m] d].
  rewrite !andb_true_iff, Z.eqb_eq, !Z.leb_le in T.
  destruct T as ((((((T1 & T2) & T3) & T4) & T5) & T6) & T7).
  eexists. split; [reflexivity|]. split; [reflexivity|].
  pose proof (Z.mod_pos_bound r 3600 ltac:(lia)) as H1.
  pose proof (Z.div_mod r 3600 ltac:(lia)) as E1.
  pose proof (Z.mod_pos_bound (r mod 3600) 60 ltac:(lia)) as H2.
  pose proof (Z.div_mod (r mod 3600) 60 ltac:(lia)) as E2.
  assert (E3 : r mod 60 = (r mod 3600) mod 60).
  { rewrite (Z.mod_unique r 60 (r / 3600 * 60 + r mod 3600 / 60)
                          ((r mod 3600) mod 60)); [reflexivity|lia|lia]. }
  assert (Hh : 0 <= r / 3600 < 24).
  { split; [apply Z.div_pos; lia|]. apply Z.div_lt_upper_bound; lia. }
  assert (Hm : 0 <= r mod 3600 / 60 < 60).
  { split; [apply Z.div_pos; lia|]. apply Z.div_lt_upper_bound; lia. }
  split.
  - unfold valid_datetime. cbn [year month day hour minute second microsecond].
    rewrite E3, Z.min_l by lia.
    rewrite !andb_true_iff, !Z.leb_le, !Z.ltb_lt. lia.
  - unfold epoch_microseconds. cbn [year month day hour minute second microsecond].
    rewrite T1, E3, Z.min_l by lia. lia.
Qed.

End EpochDays.

Section TimestampSeconds.
Variable float_of_string : string -> option PyFloat.float.
Variable now_timestamp : PyFloat.float.

(** What [utcfromtimestamp] and [make_aware] make of the float of a
    datetime of the 32-bit range. *)
Lemma to_datetime_to_timestamp (dt : PyDate.datetime) :
  PyDate.valid_datetime dt = true -> PyDate.tzinfo dt = Some 0 ->
  0 <= PyDate.epoch_microseconds dt 0 <= 2147483647 * 1000000 ->
  to_datetime (to_timestamp dt) = inr (VDatetime dt)
  /\ PyFloat.isfinite (to_timestamp dt) = true.
Proof.
  intros Hv Htz Hr.
  unfold to_timestamp, PyDate.timestamp. rewrite Htz.
  rewrite TimestampFacts.epoch_microseconds_seconds in *.
  destruct (TimestampFacts.valid_datetime_bounds dt Hv) as (_ & _ & _ & _ & _ & Hus).
  set (S := TimestampFacts.epoch_seconds dt) in *.
  set (U := PyDate.microsecond dt) in *.
  assert (HS : 0 <= S <= 2147483647) by lia.
  pose proof (TimestampFacts.gmtime_datetime_epoch_seconds dt Hv HS) as Hg.
  fold S U in Hg.
  assert (Edt : PyDate.replace_utc
                  (PyDate.mkDatetime (PyDate.year dt) (PyDate.month dt) (PyDate.day dt)
                     (PyDate.hour dt) (PyDate.minute dt) (PyDate.second dt) U None)
                = dt).
  { unfold U. destruct dt. cbn in *. subst. reflexivity. }
  destruct (Z.eq_dec (S * 1000000 + U) 0) as [E0|NZ].
  - rewrite E0. change (PyFloat.truediv 0 1000000) with (S754_zero false).
    assert (S = 0 /\ U = 0) as [ES EU] by lia.
    rewrite ES, EU in *.
    change (PyDate.gmtime_datetime 0 0)
      with (Some (PyDate.mkDatetime 1970 1 1 0 0 0 0 None)) in Hg.
    split; [|reflexivity].
    rewrite <- Edt. injection Hg as <- <- <- <- <- <-. reflexivity.
  - assert (HN : 0 < S * 1000000 + U <= 2147483647 * 1000000) by lia.
    destruct (TimestampFacts.truediv_in_range _ HN) as (p & e & Ex & C0 & _).
    pose proof (PyDateFacts.double_to_timeval_microseconds S U ltac:(lia) Hus HN) as Hd.
    rewrite Ex in *. split; [|reflexivity].
    unfold to_datetime, eq_int. rewrite C0.
    unfold PyDate.utcfromtimestamp_float. rewrite Hd, Hg, Edt. reflexivity.
Qed.

(** [clean(None)] on a field that is not required and has a float as
    [initial]: the float goes through the conversion, and through no
    check. *)
Lemma TimestampField_clean_initial_float (self : field) (x : PyFloat.float) :
  required self = false -> initial self = VFloat x -> PyFloat.isfinite x = true ->
  TimestampField_clean float_of_string now_timestamp VNone self
  = (self, to_datetime x).
Proof.
  intros Hr Hi Hf.
  unfold TimestampField_clean, InitialFixMixin_clean, Field_clean,
    FloatField_to_python, Field_to_python, TimestampField_validate,
    FloatField_validate, Field_validate, IntegerField_run_validators,
    Field_run_validators.
  unfold bind, ret, get_self. cbn [in_EMPTY_VALUES is_none negb].
  rewrite Hr. cbn [andb is_none]. rewrite Hi. unfold to_datetime.
  destruct (eq_int (VFloat x) 0); [reflexivity|].
  cbn [is_none negb]. unfold utcfromtimestamp.
  destruct x as [s|s| |s m e]; try discriminate Hf.
  - destruct (PyDate.utcfromtimestamp_float (S754_zero s)) as [d|] eqn:Eu;
      [|reflexivity].
    unfold lift_option, ret, make_aware_utc.
    rewrite (utcfromtimestamp_float_naive _ _ Eu). reflexivity.
  - destruct (PyDate.utcfromtimestamp_float (S754_finite s m e)) as [d|] eqn:Eu;
      [|reflexivity].
    unfold lift_option, ret, make_aware_utc.
    rewrite (utcfromtimestamp_float_naive _ _ Eu). reflexivity.
Qed.

(** X20.  A datetime given as [initial] comes back from [clean(None)]: a
    field that is not required, built with a valid UTC datetime of the
    32-bit range as [initial], keeps its timestamp and returns the
    datetime itself for [None], at every clock and also when the future
    is not allowed: [initial] is not validated. *)
Theorem TimestampField_initial_round_trip (dt : PyDate.datetime) (in_future : bool) :
  PyDate.valid_datetime dt = true -> PyDate.tzinfo dt = Some 0 ->
  0 <= PyDate.epoch_microseconds dt 0 <= 2147483647 * 1000000 ->
  exists self,
    TimestampField_init false (Some (VDatetime dt)) in_future = Some self
    /\ initial self = VFloat (to_timestamp dt)
    /\ TimestampField_clean float_of_string now_timestamp VNone self
       = (self, inr (VDatetime dt)).
Proof.
  intros Hv Htz Hr. eexists. split; [reflexivity|]. split; [reflexivity|].
  destruct (to_datetime_to_timestamp dt Hv Htz Hr) as [H Hf].
  rewrite (TimestampField_clean_initial_float _ (to_timestamp dt));
    [rewrite H; reflexivity|reflexivity|reflexivity|exact Hf].
Qed.

(** X21.  [clean] of a whole number of seconds [n] from 0 to 2147483647,
    on a timestamp field that lets that time pass, returns the valid
    aware UTC datetime that lies exactly [n] seconds after the epoch,
    with no microseconds; [to_timestamp] of it is [n] again. *)
Theorem TimestampField_clean_seconds (self : field) (n : Z) :
  0 <= n <= 2147483647 ->
  max_value self = VInt 2147483647 -> min_value self = VInt 0 ->
  not_future now_timestamp self (PyFloat.of_Z n) ->
  exists dt,
    TimestampField_clean float_of_string now_timestamp (VInt n) self
    = (self, inr (VDatetime dt))
    /\ PyDate.valid_datetime dt = true
    /\ PyDate.tzinfo dt = Some 0
    /\ PyDate.epoch_microseconds dt 0 = n * 1000000
    /\ to_timestamp dt = PyFloat.of_Z n.
Proof.
  intros Hn Hmax Hmin Hf.
  assert (H52 : Z.abs n < 2 ^ 52)
    by (rewrite Z.abs_eq by lia; change (2 ^ 52) with 4503599627370496; lia).
  pose proof (TimestampField_clean_number float_of_string now_timestamp
                (VInt n) (PyFloat.of_Z n) (Some 0) (Some 2147483647)
                (2147483647 <? n) (n <? 0) self
                (FloatField_to_python_int float_of_string n self H52)
                (PyFloatInt.isfinite_of_Z n H52) Hmax Hmin
                (above_weighs (Some 2147483647) _ n (weighs_float n H52))
                (below_weighs (Some 0) _ n (weighs_float n H52))) as Hc.
  rewrite (future_check_not_future now_timestamp _ self Hf) in Hc.
  destruct (Z.ltb_spec 2147483647 n) as [|_]; [lia|].
  destruct (Z.ltb_spec n 0) as [|_]; [lia|].
  cbn [range_errors app] in Hc. rewrite Hc. clear Hc.
  destruct (Z.eq_dec n 0) as [->|NZ].
  - exists PyDate.epoch_utc.
    refine (conj _ (conj _ (conj _ (conj _ _)))); vm_compute; reflexivity.
  - destruct (EpochDays.gmtime_datetime_seconds n 0 Hn ltac:(lia))
      as (d & Hg & Htz & Hv & He).
    exists (PyDate.replace_utc d).
    assert (E1 : PyDate.epoch_microseconds (PyDate.replace_utc d) 0 = n * 1000000)
      by (rewrite <- (Z.add_0_r (n * 1000000)), <- He; reflexivity).
    split; [|split; [exact Hv|split; [reflexivity|split; [exact E1|]]]].
    + unfold to_datetime, eq_int.
      rewrite (PyFloatInt.compare_Z_of_Z n 0 H52).
      destruct (Z.compare_spec n 0) as [|C|C]; try lia.
      unfold PyDate.utcfromtimestamp_float.
      rewrite (PyFloatDivision.double_to_timeval_of_Z n)
        by (change (2 ^ 52) with 4503599627370496; lia).
      rewrite Hg. reflexivity.
    + unfold to_timestamp, PyDate.timestamp. cbn [PyDate.tzinfo PyDate.replace_utc].
      rewrite E1. apply PyFloatDivision.truediv_exact;
        [change (2 ^ 52) with 4503599627370496|]; lia.
Qed.

End TimestampSeconds.

(** The field built with the datetime 2030-01-01T00:00:00Z as [initial]
    and [in_future=False] returns it for [None] at a clock of 2026. *)
Lemma TimestampField_initial_round_trip_witness :
  exists self,
    TimestampField_init false (Some (VDatetime dt_2030)) false = Some self
    /\ initial self = VFloat (to_timestamp dt_2030)
    /\ TimestampField_clean Sample.float_of_string Sample.now_timestamp VNone self
       = (self, inr (VDatetime dt_2030)).
Proof.
  exact (TimestampField_initial_round_trip Sample.float_of_string
           Sample.now_timestamp dt_2030 false eq_refl eq_refl
           ltac:(vm_compute; split; discriminate)).
Defined.

(** 1700000000 seconds after the epoch is 2023-11-14T22:13:20Z. *)
Lemma TimestampField_clean_seconds_witness :
  exists dt,
    TimestampField_clean Sample.float_of_string Sample.now_timestamp
                         (VInt 1700000000) (timestamp_field false)
    = (timestamp_field false, inr (VDatetime dt))
    /\ PyDate.valid_datetime dt = true
    /\ PyDate.tzinfo dt = Some 0
    /\ PyDate.epoch_microseconds dt 0 = 1700000000 * 1000000
    /\ to_timestamp dt = PyFloat.of_Z 1700000000.
Proof.
  exact (TimestampField_clean_seconds Sample.float_of_string Sample.now_timestamp
           (timestamp_field false) 1700000000
           ltac:(vm_compute; split; discriminate) eq_refl eq_refl
           (or_intror eq_refl)).
Defined.
